(** * Tidepool marine data dashboard: adapters, fallbacks and routes

    A shallow embedding of [src/apis/fishbase.js], [src/apis/obis.js],
    [src/apis/ocean-weather.js], the routes of [src/server.js] and two
    helpers of [public/app.js], followed by the properties themselves.

    The JavaScript values that flow through the program (JSON bodies of the
    upstream services, parsed query strings, the objects the adapters build)
    are modelled by one type of values; an exception that unwinds to the
    nearest [try]/[catch] is modelled by a small error monad.  The upstream
    services are a function from the outbound request to what comes of it.
    Logging ([console.error] in the [catch] blocks) is left out: its
    arguments are the message of the error caught and, in
    [getFishByFamily], the family name, a text. *)

From Stdlib Require Import Bool List String Ascii ZArith QArith Qabs Qround.
From Stdlib Require Import Lia Lqa DecimalPos.
Import ListNotations.

Local Open Scope string_scope.
Local Open Scope list_scope.

(** ** The fragment of JavaScript the program relies on *)
Module JS.

(** A JavaScript number.  A finite double is represented by the rational
    it denotes, and [-0] by [0]: comparisons, truthiness and [toFixed]
    only depend on that value.  A decimal literal of the program and a
    number read from text are rounded to the nearest double ([double]
    below).  The numbers of a body are doubles; the definitions accept
    every rational in their place. *)
Inductive number : Type :=
| NaN
| PosInf
| NegInf
| Fin (q : Q).

(** A JavaScript value, as it comes out of [JSON.parse] or out of an
    object literal.  An object keeps its properties in insertion order. *)
#[warnings="-register-all"]
Inductive value : Type :=
| VUndef
| VNull
| VBool (b : bool)
| VNum (n : number)
| VStr (s : string)
| VArr (items : list value)
| VObj (fields : list (string * value)).

(** The [Error] objects that can be thrown: the rejection of an HTTP call
    and the [TypeError] of a bad property access or call. *)
Inductive exn : Type :=
| AxiosError (message : string)
| TypeError (message : string).

Definition message (e : exn) : string :=
  match e with AxiosError m => m | TypeError m => m end.

(** *** Completions: a value or a thrown error *)
Inductive completion (A : Type) : Type :=
| Ret (a : A)
| Throw (e : exn).
Arguments Ret {A} a.
Arguments Throw {A} e.

Definition bind {A B} (c : completion A) (k : A -> completion B) : completion B :=
  match c with
  | Ret a => k a
  | Throw e => Throw e
  end.

(** [try { body } catch (error) { handler }] *)
Definition try_catch {A} (body : completion A) (handler : exn -> completion A)
  : completion A :=
  match body with
  | Ret a => Ret a
  | Throw e => handler e
  end.

(** [Array.prototype.map] with a callback that may throw; also the join
    of [Promise.all] over an array of promises, which rejects as soon as
    one of them does. *)
Fixpoint mapM {A B} (f : A -> completion B) (l : list A) : completion (list B) :=
  match l with
  | [] => Ret []
  | x :: xs =>
      bind (f x) (fun y => bind (mapM f xs) (fun ys => Ret (y :: ys)))
  end.

(** *** Numbers *)
Definition num (z : Z) : number := Fin (inject_Z z).

(** [a < b], [a <= b], [a >= b] on numbers: false as soon as a side is NaN. *)
Definition num_lt (a b : number) : bool :=
  match a, b with
  | NaN, _ | _, NaN => false
  | PosInf, _ => false
  | _, NegInf => false
  | NegInf, _ => true
  | _, PosInf => true
  | Fin x, Fin y => negb (Qle_bool y x)
  end.

Definition num_le (a b : number) : bool :=
  match a, b with
  | NaN, _ | _, NaN => false
  | NegInf, _ => true
  | _, PosInf => true
  | PosInf, _ => false
  | _, NegInf => false
  | Fin x, Fin y => Qle_bool x y
  end.

Definition num_ge (a b : number) : bool := num_le b a.

(** [a === b] on numbers. *)
Definition num_eq (a b : number) : bool :=
  match a, b with
  | PosInf, PosInf | NegInf, NegInf => true
  | Fin x, Fin y => Qeq_bool x y
  | _, _ => false
  end.

(** *** Doubles *)

(** [2^k] *)
Definition pow2 (k : Z) : Q :=
  match k with
  | Z0 => 1
  | Zpos p => inject_Z (2 ^ Zpos p)
  | Zneg p => 1 # (2 ^ p)
  end.

(** The binary exponent of a positive rational: the [e] with
    [2^e <= a < 2^(e+1)]. *)
Definition floor_log2 (a : Q) : Z :=
  let est := (Z.log2 (Qnum a) - Z.log2 (Zpos (Qden a)))%Z in
  if Qle_bool (pow2 est) a then est else (est - 1)%Z.

(** The closest integer, the even one on a tie. *)
Definition round_half_even (a : Q) : Z :=
  let f := Qfloor a in
  match Qcompare (a - inject_Z f) (1 # 2) with
  | Lt => f
  | Gt => (f + 1)%Z
  | Eq => if Z.even f then f else (f + 1)%Z
  end.

(** The double closest to a positive rational: a multiple [m * 2^(e - 52)]
    with [m] of at most 53 bits, where [e] is the exponent of the
    rational, or -1022 below the normal range; [None] when the rounded
    value is out of range, from 2^1024 on. *)
Definition nearest_double (a : Q) : option Q :=
  let e := Z.max (floor_log2 a) (-1022) in
  let m := round_half_even (a / pow2 (e - 52)) in
  if ((1023 <? e) || ((e =? 1023) && (m =? 2 ^ 53)))%Z then None
  else Some (Qred (inject_Z m * pow2 (e - 52))).

(** An integer of magnitude up to 2^53: it is a double. *)
Definition is_safe_integer (q : Q) : bool :=
  (Zpos (Qden (Qred q)) =? 1)%Z && (Z.abs (Qnum (Qred q)) <=? 2 ^ 53)%Z.

(** The Number value of a rational: the closest double, kept in lowest
    terms, or an infinity. *)
Definition double (q : Q) : number :=
  if is_safe_integer q then Fin (Qred q)
  else
    match Qcompare q 0 with
    | Eq => Fin 0
    | Gt => match nearest_double q with Some x => Fin x | None => PosInf end
    | Lt => match nearest_double (Qopp q) with
            | Some x => Fin (Qopp x)
            | None => NegInf
            end
    end.

(** *** Truthiness, [||], [===] *)
Definition truthy (v : value) : bool :=
  match v with
  | VUndef | VNull => false
  | VBool b => b
  | VNum NaN => false
  | VNum (Fin q) => negb (Qeq_bool q 0)
  | VNum _ => true
  | VStr s => negb (String.eqb s EmptyString)
  | VArr _ | VObj _ => true
  end.

(** [a || b] where [b] has no effect. *)
Definition js_or (a b : value) : value := if truthy a then a else b.

(** [a === b] when one side is a primitive (objects compare by identity,
    which the program never does). *)
Definition strict_eq (a b : value) : bool :=
  match a, b with
  | VUndef, VUndef | VNull, VNull => true
  | VBool x, VBool y => Bool.eqb x y
  | VNum x, VNum y => num_eq x y
  | VStr x, VStr y => String.eqb x y
  | _, _ => false
  end.

Definition typeof_number (v : value) : bool :=
  match v with VNum _ => true | _ => false end.

(** *** Objects and arrays *)
Fixpoint lookup (k : string) (fields : list (string * value)) : option value :=
  match fields with
  | [] => None
  | (k', v) :: rest => if String.eqb k k' then Some v else lookup k rest
  end.

(** The data property [k] of a value that is neither [null] nor
    [undefined] (none of the names the program reads is a property of a
    prototype): [undefined] when the value has no such property. *)
Definition prop (v : value) (k : string) : value :=
  match v with
  | VObj fields => match lookup k fields with Some x => x | None => VUndef end
  | _ => VUndef
  end.

(** [v.k]: a [TypeError] on [null] and [undefined]. *)
Definition get (v : value) (k : string) : completion value :=
  match v with
  | VUndef | VNull =>
      Throw (TypeError ("Cannot read properties of undefined (reading '" ++ k ++ "')"))
  | _ => Ret (prop v k)
  end.

(** [v?.[0]]: [undefined] on [null]/[undefined], else the element (or
    the property, or the first character) at index 0. *)
Definition opt_index0 (v : value) : value :=
  match v with
  | VArr (x :: _) => x
  | VObj fields => match lookup "0" fields with Some x => x | None => VUndef end
  | VStr (String c _) => VStr (String c EmptyString)
  | _ => VUndef
  end.

(** [v.length === 0] for a truthy [v]. *)
Definition length_is_zero (v : value) : bool :=
  match v with
  | VArr items => match items with [] => true | _ => false end
  | VObj fields =>
      match lookup "length" fields with
      | Some x => strict_eq x (VNum (num 0))
      | None => false
      end
  | VStr s => String.eqb s EmptyString  (* never true for a truthy string *)
  | _ => false
  end.

(** [v.map(f)]: only an array has a [map] method. *)
Definition js_map (v : value) (f : value -> completion value) : completion value :=
  match v with
  | VArr items => bind (mapM f items) (fun ys => Ret (VArr ys))
  | VUndef | VNull =>
      Throw (TypeError "Cannot read properties of undefined (reading 'map')")
  | _ => Throw (TypeError "map is not a function")
  end.

(** [v.map((x, idx) => f x idx)] *)
Definition js_map_idx (v : value) (f : value -> nat -> completion value)
  : completion value :=
  match v with
  | VArr items =>
      bind (mapM (fun p => f (snd p) (fst p))
                 (combine (seq 0 (List.length items)) items))
           (fun ys => Ret (VArr ys))
  | VUndef | VNull =>
      Throw (TypeError "Cannot read properties of undefined (reading 'map')")
  | _ => Throw (TypeError "map is not a function")
  end.

(** [v.slice(0, n)]: arrays and strings have a [slice] method. *)
Definition slice0 (n : nat) (v : value) : completion value :=
  match v with
  | VArr items => Ret (VArr (firstn n items))
  | VStr s => Ret (VStr (substring 0 n s))
  | VUndef | VNull =>
      Throw (TypeError "Cannot read properties of undefined (reading 'slice')")
  | _ => Throw (TypeError "slice is not a function")
  end.

(** Setting a key of an object under construction: an existing key keeps
    its place and takes the new value. *)
Fixpoint set_field (k : string) (v : value) (fields : list (string * value))
  : list (string * value) :=
  match fields with
  | [] => [(k, v)]
  | (k', v') :: rest =>
      if String.eqb k k' then (k, v) :: rest else (k', v') :: set_field k v rest
  end.

(** [{ ...fields, ...w }] for an object [w]; spreading a primitive adds
    nothing (the program never spreads a string or an array). *)
Definition spread (fields : list (string * value)) (w : value)
  : list (string * value) :=
  match w with
  | VObj ws => fold_left (fun acc kv => set_field (fst kv) (snd kv) acc) ws fields
  | _ => fields
  end.

(** *** Reading numbers from text *)
Definition is_digit (c : ascii) : bool :=
  let n := nat_of_ascii c in ((48 <=? n) && (n <=? 57))%nat.

Definition digit_value (c : ascii) : Z := Z.of_nat (nat_of_ascii c) - 48.

(** Digits of the binary, octal and hexadecimal integer literals. *)
Definition digit_in_base (base : Z) (c : ascii) : option Z :=
  let n := Z.of_nat (nat_of_ascii c) in
  let v := if ((48 <=? n) && (n <=? 57))%Z then Some (n - 48)%Z
           else if ((97 <=? n) && (n <=? 102))%Z then Some (n - 87)%Z
           else if ((65 <=? n) && (n <=? 70))%Z then Some (n - 55)%Z
           else None in
  match v with
  | Some d => if (d <? base)%Z then Some d else None
  | None => None
  end.

(** White space and line terminators (those of ASCII). *)
Definition is_space (c : ascii) : bool :=
  let n := nat_of_ascii c in (((9 <=? n) && (n <=? 13)) || (n =? 32))%nat.

Fixpoint span (p : ascii -> bool) (l : list ascii) : list ascii * list ascii :=
  match l with
  | [] => ([], [])
  | c :: rest =>
      if p c then let '(a, b) := span p rest in (c :: a, b) else ([], l)
  end.

Definition skip_spaces (l : list ascii) : list ascii := snd (span is_space l).

Definition trim (l : list ascii) : list ascii :=
  rev (skip_spaces (rev (skip_spaces l))).

Definition digits_value (ds : list ascii) : Z :=
  fold_left (fun acc c => (10 * acc + digit_value c)%Z) ds 0%Z.

Definition pow10 (e : Z) : Q := Qpower (10 # 1) e.

(** A decimal literal [m / 10^k] of the program. *)
Definition dec (m : Z) (k : nat) : number :=
  double (inject_Z m / pow10 (Z.of_nat k)).

(** The longest prefix that is an unsigned decimal literal: digits, an
    optional fraction, an optional exponent; [None] when there is no digit.
    The value is the exact one of the literal. *)
Definition parse_unsigned (l : list ascii) : option (Q * list ascii) :=
  let '(ip, r1) := span is_digit l in
  let '(fp, r2) :=
    match r1 with
    | "."%char :: r => span is_digit r
    | _ => ([], r1)
    end in
  match ip ++ fp with
  | [] => None
  | ds =>
      let r2 := match ip, fp with _, [] => match r1 with
                                            | "."%char :: r => r
                                            | _ => r1
                                            end
                              | _, _ => r2 end in
      let mant := (inject_Z (digits_value ds) / pow10 (Z.of_nat (List.length fp)))%Q in
      let '(ex, r3) :=
        match r2 with
        | c :: r =>
            if (Ascii.eqb c "e" || Ascii.eqb c "E")%bool then
              let '(sgn, r') :=
                match r with
                | "+"%char :: t => (1%Z, t)
                | "-"%char :: t => ((-1)%Z, t)
                | _ => (1%Z, r)
                end in
              let '(ed, r'') := span is_digit r' in
              match ed with
              | [] => (0%Z, r2)
              | _ => ((sgn * digits_value ed)%Z, r'')
              end
            else (0%Z, r2)
        | [] => (0%Z, r2)
        end in
      Some (Qred (mant * pow10 ex), r3)
  end.

Fixpoint strip_prefix (p l : list ascii) : option (list ascii) :=
  match p, l with
  | [], _ => Some l
  | a :: p', b :: l' => if Ascii.eqb a b then strip_prefix p' l' else None
  | _ :: _, [] => None
  end.

(** A signed decimal literal or [Infinity], with what follows it. *)
Definition parse_signed (l : list ascii) : option (number * list ascii) :=
  let '(neg, body) :=
    match l with
    | "+"%char :: t => (false, t)
    | "-"%char :: t => (true, t)
    | _ => (false, l)
    end in
  match strip_prefix (list_ascii_of_string "Infinity") body with
  | Some r => Some (if neg then NegInf else PosInf, r)
  | None =>
      match parse_unsigned body with
      | Some (q, r) => Some (double (if neg then Qopp q else q), r)
      | None => None
      end
  end.

(** [parseFloat] of a string: leading white space is skipped, the longest
    numeric prefix is read, the rest is ignored. *)
Definition parse_float_string (s : string) : number :=
  match parse_signed (skip_spaces (list_ascii_of_string s)) with
  | Some (n, _) => n
  | None => NaN
  end.

Definition radix_literal (base : Z) (ds : list ascii) : number :=
  match ds with
  | [] => NaN
  | _ =>
      match fold_left (fun acc c =>
                         match acc, digit_in_base base c with
                         | Some a, Some d => Some (base * a + d)%Z
                         | _, _ => None
                         end) ds (Some 0%Z) with
      | Some z => double (inject_Z z)
      | None => NaN
      end
  end.

(** The conversion of a string to a number ([Number(s)], and what [<]
    applies to a string operand): the whole trimmed string has to be a
    numeric literal, and the empty string is 0. *)
Definition string_to_number (s : string) : number :=
  match trim (list_ascii_of_string s) with
  | [] => num 0
  | "0"%char :: c :: ds =>
      if (Ascii.eqb c "x" || Ascii.eqb c "X")%bool then radix_literal 16 ds
      else if (Ascii.eqb c "o" || Ascii.eqb c "O")%bool then radix_literal 8 ds
      else if (Ascii.eqb c "b" || Ascii.eqb c "B")%bool then radix_literal 2 ds
      else match parse_signed ("0"%char :: c :: ds) with
           | Some (n, []) => n
           | _ => NaN
           end
  | t =>
      match parse_signed t with
      | Some (n, []) => n
      | _ => NaN
      end
  end.


(** [parseInt] of a string, without a radix: leading white space is
    skipped, a sign is read, then a [0x] prefix and hexadecimal digits or
    else decimal digits; the rest is ignored. *)
Definition parse_int_string (s : string) : number :=
  let l := skip_spaces (list_ascii_of_string s) in
  let '(neg, body) :=
    match l with
    | "+"%char :: t => (false, t)
    | "-"%char :: t => (true, t)
    | _ => (false, l)
    end in
  let '(base, body) :=
    match body with
    | "0"%char :: c :: t =>
        if (Ascii.eqb c "x" || Ascii.eqb c "X")%bool then (16%Z, t) else (10%Z, body)
    | _ => (10%Z, body)
    end in
  let ds := fst (span (fun c => match digit_in_base base c with
                                | Some _ => true
                                | None => false
                                end) body) in
  match ds with
  | [] => NaN
  | _ =>
      let z := fold_left (fun acc c =>
                            match digit_in_base base c with
                            | Some d => (base * acc + d)%Z
                            | None => acc
                            end) ds 0%Z in
      double (inject_Z (if neg then (- z)%Z else z))
  end.

(** *** Writing numbers as text *)
Fixpoint uint_chars (d : Decimal.uint) : list ascii :=
  match d with
  | Decimal.Nil => []
  | Decimal.D0 d => "0"%char :: uint_chars d
  | Decimal.D1 d => "1"%char :: uint_chars d
  | Decimal.D2 d => "2"%char :: uint_chars d
  | Decimal.D3 d => "3"%char :: uint_chars d
  | Decimal.D4 d => "4"%char :: uint_chars d
  | Decimal.D5 d => "5"%char :: uint_chars d
  | Decimal.D6 d => "6"%char :: uint_chars d
  | Decimal.D7 d => "7"%char :: uint_chars d
  | Decimal.D8 d => "8"%char :: uint_chars d
  | Decimal.D9 d => "9"%char :: uint_chars d
  end.

(** The decimal digits of a natural number, ["0"] for zero. *)
Definition dec_chars (n : Z) : list ascii := uint_chars (N.to_uint (Z.to_N n)).


(** The place of the decimal point of a positive rational: the [n] with
    [10^(n-1) <= a < 10^n]. *)
Definition decimal_point (a : Q) : Z :=
  if Qle_bool 1 a then Z.of_nat (List.length (dec_chars (Qfloor a)))
  else (1 - Z.of_nat (List.length (dec_chars (Qceiling (/ a) - 1))))%Z.

(** The decimals [s * 10^(n - k)] of [k] digits that read back as the
    double [x], as pairs [(s, n)]: the two multiples of [10^(n - k)] around
    [x] are tried, with the point at its place or one place further. *)
Definition candidates (x : Q) (point k : Z) : list (Z * Z) :=
  flat_map (fun n =>
     let unit := pow10 (n - k) in
     let below := Qfloor (x / unit) in
     filter (fun sn : Z * Z =>
               let s := fst sn in
               (10 ^ (k - 1) <=? s)%Z && (s <? 10 ^ k)%Z &&
               match double (inject_Z s * unit) with
               | Fin y => Qeq_bool y x
               | _ => false
               end)
            [(below, n); ((below + 1)%Z, n)])
    [point; (point + 1)%Z].

(** The candidate closest to [x]. *)
Definition closest (x : Q) (k : Z) (l : list (Z * Z)) : option (Z * Z) :=
  let distance (sn : Z * Z) := Qabs (inject_Z (fst sn) * pow10 (snd sn - k) - x) in
  fold_left (fun best c =>
               match best with
               | None => Some c
               | Some b =>
                   match Qcompare (distance c) (distance b) with
                   | Lt => Some c
                   | Eq => if Z.even (fst c) then Some c else Some b
                   | Gt => Some b
                   end
               end) l None.

(** The digits of a positive double [x]: the integers [(s, n, k)] with
    [10^(k-1) <= s < 10^k], [s * 10^(n - k)] reading back as [x] and [k] as
    small as possible (17 digits always do), [s] the closest to [x]. *)
Definition shortest_digits (x : Q) : Z * Z * Z :=
  let point := decimal_point x in
  let fix search (ks : list Z) : Z * Z * Z :=
    match ks with
    | [] => (0, 0, 1)%Z
    | k :: rest =>
        match closest x k (candidates x point k) with
        | Some (s, n) => (s, n, k)
        | None => search rest
        end
    end in
  search (List.map Z.of_nat (seq 1 17)).

(** The text of a positive double: positional when the point falls within
    21 digits before or 6 zeros after it, scientific otherwise. *)
Definition positive_text (x : Q) : list ascii :=
  let '(s, n, k) := shortest_digits x in
  let ds := dec_chars s in
  if ((k <=? n) && (n <=? 21))%Z then
    ds ++ repeat "0"%char (Z.to_nat (n - k))
  else if ((0 <? n) && (n <=? 21))%Z then
    firstn (Z.to_nat n) ds ++ "."%char :: skipn (Z.to_nat n) ds
  else if ((-6 <? n) && (n <=? 0))%Z then
    "0"%char :: "."%char :: repeat "0"%char (Z.to_nat (- n)) ++ ds
  else
    let e := (n - 1)%Z in
    let exponent :=
      (if (e <? 0)%Z then "-"%char else "+"%char) :: dec_chars (Z.abs e) in
    match ds with
    | [] => []
    | d :: rest =>
        d :: match rest with [] => [] | _ => "."%char :: rest end
          ++ "e"%char :: exponent
    end.

(** The text of a number ([String(x)], [x.toString()]): for a finite
    number, the shortest decimal that reads back as the double, which for
    an integer up to 2^53 are its digits. *)
Definition number_text (x : number) : list ascii :=
  match x with
  | NaN => list_ascii_of_string "NaN"
  | PosInf => list_ascii_of_string "Infinity"
  | NegInf => list_ascii_of_string "-Infinity"
  | Fin q =>
      if is_safe_integer q then
        (if (Qnum (Qred q) <? 0)%Z then ["-"%char] else [])
        ++ dec_chars (Z.abs (Qnum (Qred q)))
      else
        match double q with
        | Fin y =>
            if Qeq_bool y 0 then ["0"%char]
            else (if Qle_bool 0 y then [] else ["-"%char]) ++ positive_text (Qabs y)
        | PosInf => list_ascii_of_string "Infinity"
        | NegInf => list_ascii_of_string "-Infinity"
        | NaN => list_ascii_of_string "NaN"
        end
  end.

(** [x.toFixed(digits)]: with [n] the integer closest to [|x| * 10^digits]
    (the larger one on a tie), the digits of [n], padded with zeros to
    [digits + 1] places, with a point before the last [digits] of them;
    from 10^21 on, the text of the number. *)
Definition toFixed (digits : nat) (x : number) : string :=
  match x with
  | NaN => "NaN"
  | PosInf => "Infinity"
  | NegInf => "-Infinity"
  | Fin q =>
      let sign := if Qle_bool 0 q then [] else ["-"%char] in
      let a := Qabs q in
      if Qle_bool (pow10 21) a then string_of_list_ascii (number_text x)
      else
        let n := Qfloor (a * pow10 (Z.of_nat digits) + (1 # 2)) in
        let m := dec_chars n in
        let m := repeat "0"%char (digits + 1 - List.length m) ++ m in
        let k := (List.length m - digits)%nat in
        string_of_list_ascii
          (sign ++ firstn k m ++
             match digits with O => [] | _ => "."%char :: skipn k m end)
  end.

(** The method call [v.toFixed(digits)]: only numbers have the method. *)
Definition call_toFixed (v : value) (digits : nat) : completion string :=
  match v with
  | VNum n => Ret (toFixed digits n)
  | VUndef | VNull =>
      Throw (TypeError "Cannot read properties of undefined (reading 'toFixed')")
  | _ => Throw (TypeError "toFixed is not a function")
  end.

(** *** Conversions *)

(** The text of a value ([String(v)], a template literal, the argument of
    [parseFloat] and [parseInt]).  An array joins the texts of its elements
    with commas, from the first one on, [null] and [undefined] counting
    for nothing.  An object
    converts through its [toString] method, which [Object.prototype]
    provides; an own property of that name is data (the objects come out
    of [JSON.parse] or of the query parser), not a function, and then the
    conversion throws. *)
Fixpoint join (texts : list (completion string)) : completion string :=
  match texts with
  | [] => Ret EmptyString
  | [text] => text
  | text :: rest =>
      bind text (fun a => bind (join rest) (fun b => Ret (a ++ "," ++ b)%string))
  end.

Fixpoint to_text (v : value) : completion string :=
  match v with
  | VUndef => Ret "undefined"
  | VNull => Ret "null"
  | VBool b => Ret (if b then "true" else "false")
  | VNum n => Ret (string_of_list_ascii (number_text n))
  | VStr s => Ret s
  | VArr items =>
      join (List.map (fun x => match x with
                               | VUndef | VNull => Ret EmptyString
                               | _ => to_text x
                               end) items)
  | VObj fields =>
      match lookup "toString" fields with
      | Some _ => Throw (TypeError "Cannot convert object to primitive value")
      | None => Ret "[object Object]"
      end
  end.

(** The conversion of a value to a number (what [<], [<=] and [>=] apply
    to an operand): an array or an object converts through its text. *)
Definition to_number (v : value) : completion number :=
  match v with
  | VUndef => Ret NaN
  | VNull => Ret (num 0)
  | VBool b => Ret (if b then num 1 else num 0)
  | VNum n => Ret n
  | VStr s => Ret (string_to_number s)
  | VArr _ | VObj _ => bind (to_text v) (fun text => Ret (string_to_number text))
  end.

(** [parseFloat(v)]: [v] is turned into text and the text is read.  The
    text of a number reads back as that number. *)
Definition parseFloat (v : value) : completion number :=
  match v with
  | VNum n => Ret n
  | _ => bind (to_text v) (fun text => Ret (parse_float_string text))
  end.

(** [parseInt(v)]: [v] is turned into text and the text is read. *)
Definition parseInt (v : value) : completion number :=
  bind (to_text v) (fun text => Ret (parse_int_string text)).

(** [a < b], [a >= b] and [a <= b] when [b] is a number. *)
Definition lt (a : value) (b : number) : completion bool :=
  bind (to_number a) (fun n => Ret (num_lt n b)).
Definition ge (a : value) (b : number) : completion bool :=
  bind (to_number a) (fun n => Ret (num_ge n b)).
Definition le (a : value) (b : number) : completion bool :=
  bind (to_number a) (fun n => Ret (num_le n b)).

(** [a && b] where [b] is only evaluated when [a] holds. *)
Definition and_then (a b : completion bool) : completion bool :=
  bind a (fun x => if x then b else Ret false).

#[global] Arguments double : simpl never.
#[global] Arguments dec : simpl never.
#[global] Arguments number_text : simpl never.

End JS.

Import JS.

Notation "x <- c ;; k" := (bind c (fun x => k))
  (at level 61, c at next level, right associativity).

(** A default parameter value: used when the argument is [undefined]. *)
Definition default_arg (v d : value) : value :=
  match v with VUndef => d | _ => v end.

(** ** The upstream services *)
Module Http.

(** An outbound GET of the adapters, identified by its endpoint and by the
    arguments its query string is built from.  Every call has the same
    timeout of 10 seconds. *)
Inductive request : Type :=
| Species (limit : value)                          (* FISHBASE_API/species?limit *)
| SpeciesOfFamily (family : value)                 (* FISHBASE_API/species?Family&limit=5 *)
| Occurrence (params : list (string * value))      (* OBIS_API/occurrence *)
| OccurrenceIn (geometry : string)                   (* OBIS_API/occurrence?geometry&limit=50 *)
| Statistics                                       (* OBIS_API/statistics *)
| Marine (latitude longitude : value)              (* OPEN_METEO_API/marine *)
| Weather (latitude longitude : value).            (* OPEN_METEO_API/weather *)

(** What a call comes to: axios rejects (no connection, timeout, status
    outside 2xx), or there is a response, of which the adapters only read
    [response.data]. *)
Inductive outcome : Type :=
| Rejects (message : string)
| Responds (data : value).

Definition network : Type := request -> outcome.

(** [(await axios.get(...)).data] *)
Definition axios_get (net : network) (r : request) : completion value :=
  match net r with
  | Rejects m => Throw (AxiosError m)
  | Responds data => Ret data
  end.

End Http.
Import Http.

(** ** src/apis/fishbase.js *)
Module Fishbase.

Definition fish_icon : string := "ğŸŸ".

Definition getDefaultFishData : value :=
  let fish (id : Z) (name genus family : string) (marine freshwater brackish : Z) :=
    VObj [("id", VNum (num id)); ("name", VStr name); ("genus", VStr genus);
          ("family", VStr family); ("marine", VNum (num marine));
          ("freshwater", VNum (num freshwater)); ("brackish", VNum (num brackish));
          ("icon", VStr fish_icon)] in
  VArr [fish 1 "Tuna" "Thunnus" "Scombridae" 1 0 0;
        fish 2 "Salmon" "Salmo" "Salmonidae" 1 1 1;
        fish 3 "Cod" "Gadus" "Gadidae" 1 0 0;
        fish 4 "Anchovy" "Engraulis" "Engraulidae" 1 0 0;
        fish 5 "Herring" "Clupea" "Clupeidae" 1 0 0]%Z.

(** The callback of [response.data.map] in [getFishSpecies]. *)
Definition formatFish (fish : value) : completion value :=
  SpecCode <- get fish "SpecCode" ;;
  id <- get fish "id" ;;
  Species <- get fish "Species" ;;
  name <- get fish "name" ;;
  Genus <- get fish "Genus" ;;
  Family <- get fish "Family" ;;
  Freshwater <- get fish "Freshwater" ;;
  Marine <- get fish "Marine" ;;
  Brackish <- get fish "Brackish" ;;
  Ret (VObj [("id", js_or SpecCode id);
             ("name", js_or (js_or Species name) (VStr "Unknown Species"));
             ("genus", js_or Genus (VStr "Unknown"));
             ("family", js_or Family (VStr "Unknown"));
             ("freshwater", js_or Freshwater (VNum (num 0)));
             ("marine", js_or Marine (VNum (num 1)));
             ("brackish", js_or Brackish (VNum (num 0)));
             ("icon", VStr fish_icon)]).

Definition getFishSpecies (net : network) (limit : value) : completion value :=
  let limit := default_arg limit (VNum (num 10)) in
  try_catch
    (data <- axios_get net (Species limit) ;;
     if (negb (truthy data) || length_is_zero data)%bool then Ret getDefaultFishData
     else js_map data formatFish)
    (fun error => Ret getDefaultFishData).

Definition getFishByFamily (net : network) (family : value) : completion value :=
  let family := default_arg family (VStr "Salmonidae") in
  try_catch
    (data <- axios_get net (SpeciesOfFamily family) ;;
     if (negb (truthy data) || length_is_zero data)%bool then Ret (VArr [])
     else js_map data (fun fish =>
            SpecCode <- get fish "SpecCode" ;;
            id <- get fish "id" ;;
            Species <- get fish "Species" ;;
            name <- get fish "name" ;;
            Ret (VObj [("id", js_or SpecCode id);
                       ("name", js_or Species name);
                       ("family", family);
                       ("icon", VStr fish_icon)])))
    (fun error => Ret (VArr [])).

End Fishbase.

(** ** src/apis/obis.js *)
Module Obis.

Definition getDefaultBiodiversityData : value :=
  let obs (id : Z) (species commonName : string) (latitude longitude : number)
          (date datasetName icon : string) :=
    VObj [("id", VNum (num id)); ("species", VStr species);
          ("commonName", VStr commonName); ("latitude", VNum latitude);
          ("longitude", VNum longitude); ("date", VStr date);
          ("datasetName", VStr datasetName); ("icon", VStr icon)] in
  VObj [("total", VNum (num 5));
        ("observations",
          VArr [obs 1 "Balaenoptera musculus (Blue Whale)" "Blue Whale"
                  (dec 375 1) (dec (-1224) 1) "2024-02-01"
                  "Marine Mammal Observations" "🐋";
                obs 2 "Megaptera novaeangliae (Humpback Whale)" "Humpback Whale"
                  (dec 378 1) (dec (-1231) 1) "2024-02-05"
                  "Whale Migration Tracking" "🐋";
                obs 3 "Chelonia mydas (Green Sea Turtle)" "Green Sea Turtle"
                  (dec 255 1) (dec (-802) 1) "2024-02-08"
                  "Sea Turtle Database" "🐢";
                obs 4 "Echinorhinus brucus (Bramble Shark)" "Bramble Shark"
                  (dec 452 1) (dec (-1245) 1) "2024-02-10"
                  "Deep Sea Research" "🦈";
                obs 5 "Strongylocentrotus purpuratus (Purple Sea Urchin)"
                  "Purple Sea Urchin"
                  (dec 341 1) (dec (-1193) 1) "2024-02-12"
                  "Kelp Forest Survey" "🔵"]%Z);
        ("source", VStr "OBIS API (Fallback)")].

Definition getDefaultSpeciesStats : value :=
  VObj [("totalSpecies", VNum (num 234567));
        ("totalObservations", VNum (num 123456789));
        ("totalDatasets", VNum (num 3251));
        ("icon", VStr "📊")].

(** [v.length] of an array. *)
Definition array_length (v : value) : value :=
  match v with
  | VArr items => VNum (num (Z.of_nat (List.length items)))
  | _ => VUndef
  end.

(** The callback of [response.data.results.map] in
    [getBiodiversityObservations]. *)
Definition formatObservation (obs : value) : completion value :=
  id <- get obs "id" ;;
  scientificName <- get obs "scientificName" ;;
  species <- get obs "species" ;;
  commonName <- get obs "commonName" ;;
  decimalLatitude <- get obs "decimalLatitude" ;;
  decimalLongitude <- get obs "decimalLongitude" ;;
  eventDate <- get obs "eventDate" ;;
  datasetName <- get obs "datasetName" ;;
  Ret (VObj [("id", id);
             ("species", js_or (js_or scientificName species) (VStr "Unknown"));
             ("commonName", js_or commonName (VStr EmptyString));
             ("latitude", decimalLatitude);
             ("longitude", decimalLongitude);
             ("date", eventDate);
             ("datasetName", js_or datasetName (VStr "OBIS"));
             ("icon", VStr "🌊")]).

Definition getBiodiversityObservations (net : network) (options : value)
  : completion value :=
  let options := default_arg options (VObj []) in
  try_catch
    (limit <- get options "limit" ;;
     offset <- get options "offset" ;;
     let params :=
       spread [("limit", js_or limit (VNum (num 20)));
               ("offset", js_or offset (VNum (num 0)))] options in
     data <- axios_get net (Occurrence params) ;;
     if negb (truthy data) then Ret getDefaultBiodiversityData else
     results <- get data "results" ;;
     if negb (truthy results) then Ret getDefaultBiodiversityData else
     observations <- js_map results formatObservation ;;
     total <- get data "total" ;;
     Ret (VObj [("total", js_or total (array_length observations));
                ("observations", observations);
                ("source", VStr "OBIS API")]))
    (fun error => Ret getDefaultBiodiversityData).

Definition getSpeciesStats (net : network) : completion value :=
  try_catch
    (data <- axios_get net Statistics ;;
     if negb (truthy data) then Ret getDefaultSpeciesStats else
     species <- get data "species" ;;
     observations <- get data "observations" ;;
     datasets <- get data "datasets" ;;
     Ret (VObj [("totalSpecies", js_or species (VNum (num 200000)));
                ("totalObservations", js_or observations (VNum (num 100000000)));
                ("totalDatasets", js_or datasets (VNum (num 3000)));
                ("icon", VStr "📊")]))
    (fun error => Ret getDefaultSpeciesStats).

(** The template literal of the [geometry] parameter: the corners of the
    area, each as longitude, space, latitude.  The four bounds are turned
    into text in the order in which the template first names them. *)
Definition polygon (minLat maxLat minLon maxLon : value) : completion string :=
  west <- to_text minLon ;;
  south <- to_text minLat ;;
  east <- to_text maxLon ;;
  north <- to_text maxLat ;;
  Ret ("POLYGON((" ++ west ++ " " ++ south ++ "," ++ east ++ " " ++ south ++ ","
         ++ east ++ " " ++ north ++ "," ++ west ++ " " ++ north ++ ","
         ++ west ++ " " ++ south ++ "))")%string.

Definition getObservationsByArea (net : network) (minLat maxLat minLon maxLon : value)
  : completion value :=
  try_catch
    (geometry <- polygon minLat maxLat minLon maxLon ;;
     data <- axios_get net (OccurrenceIn geometry) ;;
     if negb (truthy data) then Ret (VArr []) else
     results <- get data "results" ;;
     if negb (truthy results) then Ret (VArr []) else
     js_map results (fun obs =>
       scientificName <- get obs "scientificName" ;;
       decimalLatitude <- get obs "decimalLatitude" ;;
       decimalLongitude <- get obs "decimalLongitude" ;;
       Ret (VObj [("species", js_or scientificName (VStr "Unknown"));
                  ("lat", decimalLatitude);
                  ("lon", decimalLongitude)])))
    (fun error => Ret (VArr [])).

End Obis.

(** ** src/apis/ocean-weather.js *)
Module OceanWeather.

Definition wave_icon : string := "üåä".
Definition thermometer_icon : string := "üå°Ô∏è".
Definition degree : string := "¬∞".

Definition getWaveCondition (height : value) : completion string :=
  calm <- lt height (num 1) ;;
  if calm then Ret "Calm" else
  slight <- lt height (num 2) ;;
  if slight then Ret "Slight" else
  light <- lt height (num 3) ;;
  if light then Ret "Light" else
  moderate <- lt height (num 4) ;;
  if moderate then Ret "Moderate" else
  rough <- lt height (num 6) ;;
  if rough then Ret "Rough" else
  very_rough <- lt height (num 10) ;;
  if very_rough then Ret "Very Rough" else
  Ret "Phenomenal".

Definition getTemperatureCondition (temp : value) : completion string :=
  very_cold <- lt temp (num 5) ;;
  if very_cold then Ret "Very Cold" else
  cold <- lt temp (num 10) ;;
  if cold then Ret "Cold" else
  cool <- lt temp (num 15) ;;
  if cool then Ret "Cool" else
  mild <- lt temp (num 20) ;;
  if mild then Ret "Mild" else
  warm <- lt temp (num 25) ;;
  if warm then Ret "Warm" else
  Ret "Very Warm".

Record region : Type := mkRegion {
  name : string;
  minLat : number;
  maxLat : number;
  minLon : number;
  maxLon : number
}.

Definition regions : list region :=
  [ mkRegion "North Pacific" (num 30) (num 60) (num 120) (num (-100));
    mkRegion "South Pacific" (num (-60)) (num (-10)) (num 100) (num 180);
    mkRegion "Atlantic Ocean" (num (-60)) (num 60) (num (-100)) (num 0);
    mkRegion "Indian Ocean" (num (-60)) (num 30) (num 20) (num 120);
    mkRegion "Arctic Ocean" (num 60) (num 90) (num (-180)) (num 180) ]%Z.

(** The test of the loop of [getLocationName]: a comparison is only
    made when those before it hold. *)
Definition in_region (lat lon : value) (r : region) : completion bool :=
  and_then (ge lat (minLat r))
    (and_then (le lat (maxLat r))
       (and_then (ge lon (minLon r)) (le lon (maxLon r)))).

(** The loop over the regions: the first one that contains the point. *)
Fixpoint first_region (lat lon : value) (rs : list region)
  : completion (option region) :=
  match rs with
  | [] => Ret None
  | r :: rest =>
      inside <- in_region lat lon r ;;
      if inside then Ret (Some r) else first_region lat lon rest
  end.

(** The loop returns the name of the first region that contains the
    point; after the loop the coordinates are printed. *)
Definition getLocationName (lat lon : value) : completion string :=
  found <- first_region lat lon regions ;;
  match found with
  | Some r => Ret (name r)
  | None =>
      a <- call_toFixed lat 1 ;;
      b <- call_toFixed lon 1 ;;
      Ret (a ++ degree ++ ", " ++ b ++ degree)%string
  end.

Definition getDefaultOceanWeather (latitude longitude : value) : completion value :=
  let latitude := default_arg latitude (VNum (dec 375 1)) in
  let longitude := default_arg longitude (VNum (dec (-1224) 1)) in
  locationName <- getLocationName latitude longitude ;;
  let day (d : Z) (h : string) :=
    VObj [("day", VNum (num d)); ("waveHeight", VStr h)] in
  Ret (VObj
    [("location", VObj [("latitude", latitude); ("longitude", longitude);
                        ("name", VStr locationName)]);
     ("current", VObj [("waveHeight", VStr "1.5");
                       ("waveHeightUnit", VStr "meters");
                       ("wavePeriod", VStr "8.2");
                       ("wavePeriodUnit", VStr "seconds");
                       ("windWaveHeight", VStr "0.9");
                       ("condition", VStr "Light")]);
     ("daily", VObj [("maxTemp", VStr "15.2"); ("minTemp", VStr "12.8");
                     ("tempUnit", VStr (degree ++ "C")%string)]);
     ("forecast", VArr [day 0 "1.5"; day 1 "1.8"; day 2 "2.1"; day 3 "1.9";
                        day 4 "1.6"; day 5 "1.4"; day 6 "1.7"]%Z);
     ("source", VStr "Open-Meteo Marine API (Fallback)");
     ("icon", VStr wave_icon)]).

Definition getDefaultTemperatureData (latitude longitude : value) : completion value :=
  let latitude := default_arg latitude (VNum (dec 375 1)) in
  let longitude := default_arg longitude (VNum (dec (-1224) 1)) in
  locationName <- getLocationName latitude longitude ;;
  Ret (VObj
    [("location", VObj [("latitude", latitude); ("longitude", longitude);
                        ("name", VStr locationName)]);
     ("current", VObj [("temperature", VStr "13.5");
                       ("unit", VStr (degree ++ "C")%string);
                       ("humidity", VStr "72");
                       ("condition", VStr "Cool")]);
     ("daily", VObj [("maxTemp", VStr "15.2"); ("minTemp", VStr "12.8");
                     ("precipitation", VNum (num 0))]);
     ("source", VStr "Open-Meteo Weather API (Fallback)");
     ("icon", VStr thermometer_icon)]).

Definition getDefaultMultiLocationData : value :=
  let entry (name : string) (latitude longitude : number)
            (waveHeight wavePeriod windWaveHeight condition : string) :=
    VObj [("name", VStr name);
          ("location", VObj [("latitude", VNum latitude);
                             ("longitude", VNum longitude);
                             ("name", VStr name)]);
          ("current", VObj [("waveHeight", VStr waveHeight);
                            ("waveHeightUnit", VStr "meters");
                            ("wavePeriod", VStr wavePeriod);
                            ("wavePeriodUnit", VStr "seconds");
                            ("windWaveHeight", VStr windWaveHeight);
                            ("condition", VStr condition)]);
          ("icon", VStr wave_icon)] in
  VArr [entry "San Francisco Bay" (dec 375 1) (dec (-1224) 1)
          "1.5" "8.2" "0.9" "Light";
        entry "Great Barrier Reef" (dec (-162) 1) (dec 1458 1)
          "1.2" "7.5" "0.6" "Calm";
        entry "Atlantic Mid-Atlantic Ridge" (dec 420 1) (dec (-300) 1)
          "2.3" "9.8" "1.4" "Moderate"]%Z.

(** [typeof t === 'number' ? t.toFixed(1) : t] *)
Definition formatTemp (t : value) : value :=
  match t with
  | VNum n => VStr (toFixed 1 n)
  | _ => t
  end.

(** The callback of [daily.wave_height_max.slice(0, 7).map] in
    [getOceanWeather]. *)
Definition forecastDay (height : value) (idx : nat) : completion value :=
  waveHeight <- parseFloat height ;;
  Ret (VObj [("day", VNum (num (Z.of_nat idx)));
             ("waveHeight", VStr (toFixed 2 waveHeight))]).

Definition getOceanWeather (net : network) (latitude longitude : value)
  : completion value :=
  let latitude := default_arg latitude (VNum (dec 375 1)) in
  let longitude := default_arg longitude (VNum (dec (-1224) 1)) in
  try_catch
    (data <- axios_get net (Marine latitude longitude) ;;
     if negb (truthy data) then getDefaultOceanWeather latitude longitude else
     hourly0 <- get data "hourly" ;;
     let hourly := js_or hourly0 (VObj []) in
     daily0 <- get data "daily" ;;
     let daily := js_or daily0 (VObj []) in
     wave_height <- get hourly "wave_height" ;;
     let latestWaveHeight := js_or (opt_index0 wave_height) (VNum (num 0)) in
     wave_period <- get hourly "wave_period" ;;
     let latestWavePeriod := js_or (opt_index0 wave_period) (VNum (num 0)) in
     wind_wave_height <- get hourly "wind_wave_height" ;;
     let latestWindWaveHeight := js_or (opt_index0 wind_wave_height) (VNum (num 0)) in
     temperature_2m_max <- get daily "temperature_2m_max" ;;
     let maxTemp := js_or (opt_index0 temperature_2m_max) (VStr "N/A") in
     temperature_2m_min <- get daily "temperature_2m_min" ;;
     let minTemp := js_or (opt_index0 temperature_2m_min) (VStr "N/A") in
     locationName <- getLocationName latitude longitude ;;
     waveHeight <- parseFloat latestWaveHeight ;;
     wavePeriod <- parseFloat latestWavePeriod ;;
     windWaveHeight <- parseFloat latestWindWaveHeight ;;
     condition <- getWaveCondition latestWaveHeight ;;
     wave_height_max <- get daily "wave_height_max" ;;
     forecast <-
       (if truthy wave_height_max then
          days <- slice0 7 wave_height_max ;;
          js_map_idx days forecastDay
        else Ret (VArr [])) ;;
     Ret (VObj
       [("location", VObj [("latitude", latitude); ("longitude", longitude);
                           ("name", VStr locationName)]);
        ("current",
          VObj [("waveHeight", VStr (toFixed 2 waveHeight));
                ("waveHeightUnit", VStr "meters");
                ("wavePeriod", VStr (toFixed 2 wavePeriod));
                ("wavePeriodUnit", VStr "seconds");
                ("windWaveHeight", VStr (toFixed 2 windWaveHeight));
                ("condition", VStr condition)]);
        ("daily", VObj [("maxTemp", formatTemp maxTemp);
                        ("minTemp", formatTemp minTemp);
                        ("tempUnit", VStr (degree ++ "C")%string)]);
        ("forecast", forecast);
        ("source", VStr "Open-Meteo Marine API");
        ("icon", VStr wave_icon)]))
    (fun error => getDefaultOceanWeather latitude longitude).

Definition getWaterTemperature (net : network) (latitude longitude : value)
  : completion value :=
  let latitude := default_arg latitude (VNum (dec 375 1)) in
  let longitude := default_arg longitude (VNum (dec (-1224) 1)) in
  try_catch
    (data <- axios_get net (Weather latitude longitude) ;;
     if negb (truthy data) then getDefaultTemperatureData latitude longitude else
     current0 <- get data "current" ;;
     let current := js_or current0 (VObj []) in
     daily0 <- get data "daily" ;;
     let daily := js_or daily0 (VObj []) in
     locationName <- getLocationName latitude longitude ;;
     temperature_2m <- get current "temperature_2m" ;;
     relative_humidity_2m <- get current "relative_humidity_2m" ;;
     condition <- getTemperatureCondition temperature_2m ;;
     temperature_2m_max <- get daily "temperature_2m_max" ;;
     temperature_2m_min <- get daily "temperature_2m_min" ;;
     precipitation_sum <- get daily "precipitation_sum" ;;
     Ret (VObj
       [("location", VObj [("latitude", latitude); ("longitude", longitude);
                           ("name", VStr locationName)]);
        ("current",
          VObj [("temperature", js_or temperature_2m (VStr "N/A"));
                ("unit", VStr (degree ++ "C")%string);
                ("humidity", js_or relative_humidity_2m (VStr "N/A"));
                ("condition", VStr condition)]);
        ("daily",
          VObj [("maxTemp", js_or (opt_index0 temperature_2m_max) (VStr "N/A"));
                ("minTemp", js_or (opt_index0 temperature_2m_min) (VStr "N/A"));
                ("precipitation",
                  js_or (opt_index0 precipitation_sum) (VNum (num 0)))]);
        ("source", VStr "Open-Meteo Weather API");
        ("icon", VStr thermometer_icon)]))
    (fun error => getDefaultTemperatureData latitude longitude).

(** The fixed locations of [getOceanDataMultipleLocations]:
    name, latitude, longitude. *)
Definition locations : list (string * number * number) :=
  [ ("San Francisco Bay", dec 375 1, dec (-1224) 1);
    ("Great Barrier Reef", dec (-162) 1, dec 1458 1);
    ("Atlantic Mid-Atlantic Ridge", dec 420 1, dec (-300) 1) ]%Z.

Definition getOceanDataMultipleLocations (net : network) : completion value :=
  try_catch
    (results <-
       mapM (fun loc : string * number * number =>
               let '(loc_name, lat, lon) := loc in
               weather <- getOceanWeather net (VNum lat) (VNum lon) ;;
               Ret (VObj (spread [("name", VStr loc_name)] weather)))
            locations ;;
     Ret (VArr results))
    (fun error => Ret getDefaultMultiLocationData).

End OceanWeather.
Import Fishbase Obis OceanWeather.

(** ** src/server.js: the routes *)
Module Server.

(** What a handler sends: the status code and the JSON body. *)
Record response : Type := mkResponse {
  status : Z;
  body : value
}.

(** [res.json(body)] answers with status 200. *)
Definition json (body : value) : response := mkResponse 200 body.

(** The [catch] block every route shares:
    [res.status(500).json({ success: false, error: error.message, timestamp })]. *)
Definition failure (now : string) (error : exn) : response :=
  mkResponse 500
    (VObj [("success", VBool false);
           ("error", VStr (message error));
           ("timestamp", VStr now)]).

(** [try { ... res.json(...) } catch (error) { ... }] of a route;
    [now] is [new Date().toISOString()]. *)
Definition handle (now : string) (route : completion response) : response :=
  match route with
  | Ret r => r
  | Throw error => failure now error
  end.

(** [app.get('/api/ocean-weather', ...)]; [query] is [req.query], as the
    query parser built it: texts, arrays and objects. *)
Definition ocean_weather (net : network) (now : string)
    (query : list (string * value)) : response :=
  handle now
    (query_lat <- get (VObj query) "lat" ;;
     parsed_lat <- parseFloat query_lat ;;
     let lat := js_or (VNum parsed_lat) (VNum (dec 375 1)) in
     query_lon <- get (VObj query) "lon" ;;
     parsed_lon <- parseFloat query_lon ;;
     let lon := js_or (VNum parsed_lon) (VNum (dec (-1224) 1)) in
     data <- getOceanWeather net lat lon ;;
     Ret (json (VObj [("success", VBool true);
                      ("data", data);
                      ("timestamp", VStr now)]))).

(** [app.get('/api/dashboard', ...)]: the four adapter calls joined by
    [Promise.all]. *)
Definition dashboard (net : network) (now : string) : response :=
  handle now
    (fishSpecies <- getFishSpecies net (VNum (num 5)) ;;
     biodiversity <-
       getBiodiversityObservations net (VObj [("limit", VNum (num 5))]) ;;
     oceanWeather <- getOceanDataMultipleLocations net ;;
     stats <- getSpeciesStats net ;;
     Ret (json (VObj [("success", VBool true);
                      ("data", VObj [("fishSpecies", fishSpecies);
                                     ("biodiversity", biodiversity);
                                     ("oceanWeather", oceanWeather);
                                     ("stats", stats)]);
                      ("sources", VArr [VStr "FishBase API"; VStr "OBIS API";
                                        VStr "Open-Meteo Marine API"]);
                      ("timestamp", VStr now)]))).

(** [app.get('/api/health', ...)] *)
Definition health (now : string) : response :=
  json (VObj [("status", VStr "ok");
              ("message", VStr "Tidepool Marine Data Dashboard is running");
              ("timestamp", VStr now)]).

(** [app.get('/api/fish-species', ...)] *)
Definition fish_species (net : network) (now : string)
    (query : list (string * value)) : response :=
  handle now
    (query_limit <- get (VObj query) "limit" ;;
     parsed_limit <- parseInt query_limit ;;
     let limit := js_or (VNum parsed_limit) (VNum (num 10)) in
     data <- getFishSpecies net limit ;;
     Ret (json (VObj [("success", VBool true);
                      ("data", data);
                      ("source", VStr "FishBase API");
                      ("timestamp", VStr now)]))).

(** [app.get('/api/fish-species/:family', ...)]; [family] is
    [req.params.family]. *)
Definition fish_by_family (net : network) (now : string) (family : value)
  : response :=
  handle now
    (data <- getFishByFamily net family ;;
     Ret (json (VObj [("success", VBool true);
                      ("family", family);
                      ("data", data);
                      ("source", VStr "FishBase API");
                      ("timestamp", VStr now)]))).

(** [app.get('/api/biodiversity', ...)]: the fields of the adapter's
    result are spread into the body, between [success] and [timestamp]. *)
Definition biodiversity (net : network) (now : string)
    (query : list (string * value)) : response :=
  handle now
    (query_limit <- get (VObj query) "limit" ;;
     parsed_limit <- parseInt query_limit ;;
     let limit := js_or (VNum parsed_limit) (VNum (num 20)) in
     data <- getBiodiversityObservations net (VObj [("limit", limit)]) ;;
     Ret (json (VObj (set_field "timestamp" (VStr now)
                        (spread [("success", VBool true)] data))))).

(** [app.get('/api/species-stats', ...)] *)
Definition species_stats (net : network) (now : string) : response :=
  handle now
    (data <- getSpeciesStats net ;;
     Ret (json (VObj [("success", VBool true);
                      ("data", data);
                      ("source", VStr "OBIS API");
                      ("timestamp", VStr now)]))).

(** [app.get('/api/water-temperature', ...)] *)
Definition water_temperature (net : network) (now : string)
    (query : list (string * value)) : response :=
  handle now
    (query_lat <- get (VObj query) "lat" ;;
     parsed_lat <- parseFloat query_lat ;;
     let lat := js_or (VNum parsed_lat) (VNum (dec 375 1)) in
     query_lon <- get (VObj query) "lon" ;;
     parsed_lon <- parseFloat query_lon ;;
     let lon := js_or (VNum parsed_lon) (VNum (dec (-1224) 1)) in
     data <- getWaterTemperature net lat lon ;;
     Ret (json (VObj [("success", VBool true);
                      ("data", data);
                      ("timestamp", VStr now)]))).

(** [app.get('/api/ocean-data-locations', ...)] *)
Definition ocean_data_locations (net : network) (now : string) : response :=
  handle now
    (data <- getOceanDataMultipleLocations net ;;
     Ret (json (VObj [("success", VBool true);
                      ("data", data);
                      ("source", VStr "Open-Meteo Marine API");
                      ("timestamp", VStr now)]))).

(** The error-handling middleware at the end of the file: what is
    answered when an error reaches Express, as when the family in the path
    cannot be decoded and the handler is not called. *)
Definition server_error (now : string) (err : exn) : response :=
  mkResponse 500
    (VObj [("success", VBool false);
           ("error", VStr "Internal server error");
           ("message", VStr (message err));
           ("timestamp", VStr now)]).

(** The last middleware: a request that no route matches. *)
Definition not_found (path : string) : response :=
  mkResponse 404
    (VObj [("success", VBool false);
           ("error", VStr "Not found");
           ("path", VStr path)]).

End Server.
Import Server.

(** ** public/app.js: the helpers that do not touch the page *)
Module App.

(** A word character of a regular expression, [\w]. *)
Definition is_word (c : ascii) : bool :=
  let n := nat_of_ascii c in
  (((48 <=? n) && (n <=? 57)) || ((65 <=? n) && (n <=? 90)) ||
   ((97 <=? n) && (n <=? 122)) || (n =? 95))%nat.

(** [\B] at a position, given the characters before and after it (none at
    the ends of the text): both are word characters or neither is. *)
Definition not_word_boundary (prev next : option ascii) : bool :=
  let word o := match o with Some c => is_word c | None => false end in
  Bool.eqb (word prev) (word next).

(** The number of digits the text starts with. *)
Fixpoint digit_run (l : list ascii) : nat :=
  match l with
  | c :: rest => if is_digit c then S (digit_run rest) else O
  | [] => O
  end.

(** The lookahead [(?=(\d{3})+(?!\d))]: what follows starts with one or
    more groups of three digits that end the run of digits. *)
Definition groups_of_three_ahead (l : list ascii) : bool :=
  let r := digit_run l in ((3 <=? r) && (r mod 3 =? 0))%nat.

(** [text.replace(/\B(?=(\d{3})+(?!\d))/g, ',')]: a comma is put at every
    position where the (empty) pattern matches; [prev] is the character
    before the position. *)
Fixpoint insert_commas (prev : option ascii) (l : list ascii) : list ascii :=
  match l with
  | [] => []
  | c :: rest =>
      (if not_word_boundary prev (Some c) && groups_of_three_ahead l
       then [","%char] else [])
      ++ c :: insert_commas (Some c) rest
  end.

(** [num.toString()] for an integer; one beyond 2^53 stands for the
    double closest to it. *)
Definition integer_text (num : Z) : list ascii :=
  number_text (Fin (inject_Z num)).

(** [formatNumber(num)] for the integer counts it is called on. *)
Definition formatNumber (num : Z) : string :=
  if (num =? 0)%Z then "0"
  else string_of_list_ascii (insert_commas None (integer_text num)).

Section Retry.

(** The state of the world [fn] acts on, and what [fn] resolves to. *)
Context {World Result : Type}.

(** [await fn()]: it resolves or rejects, and changes the world. *)
Variable fn : World -> completion Result * World.

(** The [for] loop of [retryWithBackoff] from a given [attempt] on;
    [waits] are the delays slept so far, the latest last.  The loop ends
    within [maxAttempts] iterations, which [fuel] counts. *)
Fixpoint retry_loop (fuel : nat) (attempt maxAttempts delay : Z) (w : World)
    (waits : list Z) : completion (option Result) * World * list Z :=
  match fuel with
  | O => (Ret None, w, waits)
  | S fuel' =>
      if (attempt <=? maxAttempts)%Z then
        match fn w with
        | (Ret r, w') => (Ret (Some r), w', waits)
        | (Throw error, w') =>
            if (attempt =? maxAttempts)%Z then (Throw error, w', waits)
            else retry_loop fuel' (attempt + 1) maxAttempts (delay * 2) w'
                            (waits ++ [delay])
        end
      else (Ret None, w, waits)
  end.

(** [retryWithBackoff(fn, maxAttempts = 3, delay = 1000)]: the result
    ([None] is [undefined], when the loop ends without a [return]), the
    world after the calls, and the delays slept, in milliseconds. *)
Definition retryWithBackoff (maxAttempts delay : option Z) (w : World)
  : completion (option Result) * World * list Z :=
  let maxAttempts := match maxAttempts with Some m => m | None => 3%Z end in
  let delay := match delay with Some d => d | None => 1000%Z end in
  retry_loop (Z.to_nat maxAttempts) 1 maxAttempts delay w [].

End Retry.

End App.
Import App.

(** ** Vocabulary of the properties *)

(** A computation returns, and its result satisfies [P]. *)
Definition returns {A} (c : completion A) (P : A -> Prop) : Prop :=
  match c with
  | Ret a => P a
  | Throw _ => False
  end.

(** If a computation returns, its result satisfies [P]. *)
Definition if_returns {A} (c : completion A) (P : A -> Prop) : Prop :=
  match c with
  | Ret a => P a
  | Throw _ => True
  end.

(** The outbound call fails: axios rejects, or the body is empty or absent
    (the test [!response.data] of the adapters). *)
Definition call_fails (o : outcome) : bool :=
  match o with
  | Rejects _ => true
  | Responds data => negb (truthy data)
  end.

Definition network_down (net : network) : Prop :=
  forall r, call_fails (net r) = true.

(** A network on which every call is refused. *)
Definition offline : network := fun _ => Rejects "connect ECONNREFUSED".

(** [null] or [undefined]. *)
Definition nullish (v : value) : bool :=
  match v with VUndef | VNull => true | _ => false end.

(** The field [k] of an object, and the field at the end of a path. *)
Definition field (k : string) (v : value) : option value :=
  match v with
  | VObj fields => lookup k fields
  | _ => None
  end.

Fixpoint path (ks : list string) (v : value) : option value :=
  match ks with
  | [] => Some v
  | k :: rest =>
      match field k v with
      | Some x => path rest x
      | None => None
      end
  end.

(** Neither [undefined] or [null] nor an empty array or object. *)
Definition non_empty (v : value) : bool :=
  match v with
  | VUndef | VNull => false
  | VArr [] => false
  | VObj [] => false
  | _ => true
  end.

(** The shape of a payload: the names of the fields of every object in it. *)
#[warnings="-register-all"]
Inductive schema : Type :=
| Any
| Object (fields : list (string * schema))
| ArrayOf (item : schema).

Definition same_names (a b : list string) : bool :=
  forallb (fun k => existsb (String.eqb k) b) a &&
  forallb (fun k => existsb (String.eqb k) a) b.

Fixpoint conforms (sc : schema) (v : value) {struct sc} : bool :=
  match sc, v with
  | Any, _ => true
  | Object fs, VObj kvs =>
      same_names (List.map fst fs) (List.map fst kvs) &&
      forallb (fun f => match lookup (fst f) kvs with
                        | Some x => conforms (snd f) x
                        | None => false
                        end) fs
  | ArrayOf item, VArr items => forallb (conforms item) items
  | _, _ => false
  end.

Definition fields_of (names : list string) : schema :=
  Object (List.map (fun k => (k, Any)) names).

Definition FishRecord : schema :=
  fields_of ["id"; "name"; "genus"; "family"; "freshwater"; "marine";
             "brackish"; "icon"].

Definition FamilyRecord : schema := fields_of ["id"; "name"; "family"; "icon"].

Definition ObservationRecord : schema :=
  fields_of ["id"; "species"; "commonName"; "latitude"; "longitude"; "date";
             "datasetName"; "icon"].

Definition Biodiversity : schema :=
  Object [("total", Any); ("observations", ArrayOf ObservationRecord);
          ("source", Any)].

Definition SpeciesStats : schema :=
  fields_of ["totalSpecies"; "totalObservations"; "totalDatasets"; "icon"].

Definition AreaObservation : schema := fields_of ["species"; "lat"; "lon"].

Definition LocationPart : schema := fields_of ["latitude"; "longitude"; "name"].
Definition CurrentPart : schema :=
  fields_of ["waveHeight"; "waveHeightUnit"; "wavePeriod"; "wavePeriodUnit";
             "windWaveHeight"; "condition"].
Definition DailyPart : schema := fields_of ["maxTemp"; "minTemp"; "tempUnit"].
Definition ForecastDay : schema := fields_of ["day"; "waveHeight"].

Definition weather_fields : list (string * schema) :=
  [("location", LocationPart);
   ("current", CurrentPart);
   ("daily", DailyPart);
   ("forecast", ArrayOf ForecastDay);
   ("source", Any);
   ("icon", Any)].

Definition WeatherSnapshot : schema := Object weather_fields.

Definition TemperatureSnapshot : schema :=
  Object [("location", LocationPart);
          ("current", fields_of ["temperature"; "unit"; "humidity"; "condition"]);
          ("daily", fields_of ["maxTemp"; "minTemp"; "precipitation"]);
          ("source", Any);
          ("icon", Any)].

(** An entry of [getOceanDataMultipleLocations]: a snapshot with a name. *)
Definition LocationEntry : schema := Object (("name", Any) :: weather_fields).

(** Text with a fixed number of decimal places: an optional sign, at least
    one digit, a point, and exactly [places] digits. *)
Definition is_fixed_decimal (places : nat) (s : string) : bool :=
  let l := list_ascii_of_string s in
  let l := match l with
           | c :: t => if Ascii.eqb c "-" then t else l
           | [] => l
           end in
  let '(ip, r) := span is_digit l in
  match ip, r with
  | _ :: _, c :: fp =>
      Ascii.eqb c "." && forallb is_digit fp && (List.length fp =? places)%nat
  | _, _ => false
  end.

(** A weather snapshot for the given coordinates: the six fields of the
    object [getOceanWeather] builds, with the coordinates in [location]. *)
Definition is_snapshot (latitude longitude v : value) : Prop :=
  exists locationName current daily forecast source,
    v = VObj [("location", VObj [("latitude", latitude);
                                 ("longitude", longitude);
                                 ("name", VStr locationName)]);
              ("current", current);
              ("daily", daily);
              ("forecast", VArr forecast);
              ("source", VStr source);
              ("icon", VStr wave_icon)] /\
    conforms CurrentPart current = true /\
    (exists text, field "waveHeight" current = Some (VStr text)) /\
    conforms DailyPart daily = true /\
    forallb (conforms ForecastDay) forecast = true.

(** An entry of the multi-location result: a snapshot for the
    coordinates of the location, with the name of the location put first. *)
Definition is_location_entry (loc : string * number * number) (e : value) : Prop :=
  let '(loc_name, lat, lon) := loc in
  exists w,
    e = VObj (("name", VStr loc_name) :: w) /\
    is_snapshot (VNum lat) (VNum lon) (VObj w).

(** The same, built from the fallback snapshot of the weather adapter. *)
Definition is_fallback_entry (loc : string * number * number) (e : value) : Prop :=
  let '(loc_name, lat, lon) := loc in
  exists w,
    getDefaultOceanWeather (VNum lat) (VNum lon) = Ret (VObj w) /\
    e = VObj (("name", VStr loc_name) :: w).


(** What [GET /api/ocean-weather] answers when its handler calls the
    adapter with the coordinates [lat] and [lon]. *)
Definition ocean_weather_answer (net : network) (now : string) (lat lon : value)
  : response :=
  handle now
    (data <- getOceanWeather net lat lon ;;
     Ret (json (VObj [("success", VBool true);
                      ("data", data);
                      ("timestamp", VStr now)]))).

(** A finite number of magnitude below 10^21, which [toFixed] prints in
    positional notation. *)
Definition small (q : Q) : bool := negb (Qle_bool (pow10 21) (Qabs q)).

(** The series [data.group.key] of a body of the weather service, where a
    missing group reads as the empty object (as in [data.hourly || {}]). *)
Definition series (data : value) (group key : string) : value :=
  prop (js_or (prop data group) (VObj [])) key.

(** The days the forecast is made of: the first seven of the series when
    it is an array, none when it is absent. *)
Definition forecast_source (wave_height_max : value) : list value :=
  match wave_height_max with
  | VArr days => firstn 7 days
  | _ => []
  end.

(** The snapshot is the one of the live path of [getOceanWeather], not
    the fallback: it says so in its [source]. *)
Definition live (v : value) : Prop :=
  field "source" v = Some (VStr "Open-Meteo Marine API").

(** A value can be turned into text. *)
Definition has_text (v : value) : bool :=
  match to_text v with
  | Ret _ => true
  | Throw _ => false
  end.

(** A body of the marine weather service made of the given series. *)
Definition marine_body
    (wave_height wave_period wind_wave_height
     temperature_2m_max temperature_2m_min wave_height_max : list value) : value :=
  VObj [("hourly", VObj [("wave_height", VArr wave_height);
                         ("wave_period", VArr wave_period);
                         ("wind_wave_height", VArr wind_wave_height)]);
        ("daily", VObj [("wave_height_max", VArr wave_height_max);
                        ("temperature_2m_max", VArr temperature_2m_max);
                        ("temperature_2m_min", VArr temperature_2m_min)])].

(** How a wave value of the body is rendered: a small number as text with
    two decimal places, an absent value as "0.00". *)
Definition wave_text (upstream : value) (out : option value) : Prop :=
  (forall q, upstream = VNum (Fin q) -> small q = true ->
     exists text, out = Some (VStr text) /\ is_fixed_decimal 2 text = true) /\
  (nullish upstream = true -> out = Some (VStr "0.00")).

(** How a temperature of the body is rendered: a small number other than
    0 as text with one decimal place, an absent value as "N/A". *)
Definition temperature_text (upstream : value) (out : option value) : Prop :=
  (forall q, upstream = VNum (Fin q) -> ~ (q == 0)%Q -> small q = true ->
     exists text, out = Some (VStr text) /\ is_fixed_decimal 1 text = true) /\
  (nullish upstream = true -> out = Some (VStr "N/A")).

(** A service that answers every call with a wave height of 1.25 m, a
    maximum temperature of 15.5 degrees and nothing else. *)
Definition marine_sample : network :=
  fun _ => Responds (marine_body [VNum (dec 125 2)] [] [] [VNum (dec 155 1)] [] []).

(** The last character of a text. *)
Fixpoint last_char (s : string) : option ascii :=
  match s with
  | EmptyString => None
  | String c EmptyString => Some c
  | String _ t => last_char t
  end.

(** ** Vocabulary of the further properties *)

(** The number a value stands for in a comparison, NaN when it has none. *)
Definition number_of (v : value) : number :=
  match to_number v with
  | Ret n => n
  | Throw _ => NaN
  end.

(** The point lies within the bounds of the region. *)
Definition within (lat lon : value) (r : region) : bool :=
  num_ge (number_of lat) (minLat r) && num_le (number_of lat) (maxLat r) &&
  num_ge (number_of lon) (minLon r) && num_le (number_of lon) (maxLon r).

(** An integer, or an infinity: what the digits of a text read as. *)
Definition whole (n : number) : Prop :=
  n = PosInf \/ n = NegInf \/ exists z, n = num z.

(** The latest value of an hourly series of the body, 0 when there is
    none (as in [hourly.wave_height?.[0] || 0]). *)
Definition latest (data : value) (key : string) : value :=
  js_or (opt_index0 (series data "hourly" key)) (VNum (num 0)).

(** The forecast can be made from the daily series: the series is absent,
    or it is an array of which the first seven values have a text. *)
Definition forecast_readable (wave_height_max : value) : Prop :=
  truthy wave_height_max = false \/
  exists days,
    wave_height_max = VArr days /\
    Forall (fun height => has_text height = true) (firstn 7 days).

(** [req.query.name] *)
Definition parameter (query : list (string * value)) (name : string) : value :=
  prop (VObj query) name.

(** What a route answers when a value of the query has no text: its
    [catch] block reports the error of the conversion. *)
Definition conversion_failure (now : string) : response :=
  failure now (TypeError "Cannot convert object to primitive value").

(** The coordinates [getOceanWeather] works with: its arguments, or the
    defaults of its parameters. *)
Definition latitude_of (latitude : value) : value :=
  default_arg latitude (VNum (dec 375 1)).
Definition longitude_of (longitude : value) : value :=
  default_arg longitude (VNum (dec (-1224) 1)).

(** The rank of a wave condition, from the calmest on. *)
Definition severity (condition : string) : nat :=
  if String.eqb condition "Calm" then 0
  else if String.eqb condition "Slight" then 1
  else if String.eqb condition "Light" then 2
  else if String.eqb condition "Moderate" then 3
  else if String.eqb condition "Rough" then 4
  else if String.eqb condition "Very Rough" then 5
  else 6.

(** The rank of a temperature condition, from the coldest on. *)
Definition warmth (condition : string) : nat :=
  if String.eqb condition "Very Cold" then 0
  else if String.eqb condition "Cold" then 1
  else if String.eqb condition "Cool" then 2
  else if String.eqb condition "Mild" then 3
  else if String.eqb condition "Warm" then 4
  else 5.

(** The field [k] of a record is present and truthy. *)
Definition has_truthy (k : string) (rec : value) : Prop :=
  exists x, field k rec = Some x /\ truthy x = true.

(** The body comes with records to map: a non-empty array without
    [null] or [undefined] in it. *)
Definition has_records (o : outcome) : Prop :=
  exists items,
    o = Responds (VArr items) /\ items <> [] /\
    Forall (fun x => nullish x = false) items.

(** The texts without their commas. *)
Definition without_commas (s : string) : list ascii :=
  filter (fun c => negb (Ascii.eqb c ",")) (list_ascii_of_string s).

(** A text without a comma. *)
Definition no_comma (l : list ascii) : Prop :=
  forallb (fun c => negb (Ascii.eqb c ",")) l = true.

(** The digits of a text cut into groups from the right: the first group
    has one to three digits, the others three. *)
Fixpoint groups_from_right (digits : list ascii) : list ascii :=
  match digits with
  | [] => []
  | c :: rest =>
      c :: (match rest with
            | [] => []
            | _ => if (List.length rest mod 3 =? 0)%nat then [","%char] else []
            end) ++ groups_from_right rest
  end.

(** A function that fails on its first [failures] calls and resolves to
    [r] from then on; the world counts the calls. *)
Definition fails_then (failures : nat) (error : nat -> exn) {R} (r : R)
  : nat -> completion R * nat :=
  fun calls => (if (calls <? failures)%nat then Throw (error calls) else Ret r,
                S calls).

(** The delays of an exponential backoff: [delay], twice that, ... *)
Fixpoint backoff (count : nat) (delay : Z) : list Z :=
  match count with
  | O => []
  | S count' => delay :: backoff count' (delay * 2)
  end.

(** What a route answers when its handler calls the adapter with the
    given arguments. *)
Definition fish_species_answer (net : network) (now : string) (limit : value)
  : response :=
  handle now
    (data <- getFishSpecies net limit ;;
     Ret (json (VObj [("success", VBool true);
                      ("data", data);
                      ("source", VStr "FishBase API");
                      ("timestamp", VStr now)]))).

Definition biodiversity_answer (net : network) (now : string) (limit : value)
  : response :=
  handle now
    (data <- getBiodiversityObservations net (VObj [("limit", limit)]) ;;
     Ret (json (VObj (set_field "timestamp" (VStr now)
                        (spread [("success", VBool true)] data))))).

Definition water_temperature_answer (net : network) (now : string)
    (lat lon : value) : response :=
  handle now
    (data <- getWaterTemperature net lat lon ;;
     Ret (json (VObj [("success", VBool true);
                      ("data", data);
                      ("timestamp", VStr now)]))).

(** A route answered without an error: status 200 and [success: true]. *)
Definition succeeds (r : response) : Prop :=
  status r = 200%Z /\ field "success" (body r) = Some (VBool true).

(** An entry of the multi-location result is named after its location
    and carries the coordinates of the location. *)
Definition located (loc : string * number * number) (e : value) : Prop :=
  let '(loc_name, lat, lon) := loc in
  field "name" e = Some (VStr loc_name) /\
  path ["location"; "latitude"] e = Some (VNum lat) /\
  path ["location"; "longitude"] e = Some (VNum lon).

(** A fish record has what a card shows: name, genus, family, marine flag
    and icon are present and truthy. *)
Definition fish_card (rec : value) : Prop :=
  has_truthy "name" rec /\ has_truthy "genus" rec /\ has_truthy "family" rec /\
  has_truthy "marine" rec /\ has_truthy "icon" rec.

(** ** Proof steps

    The first step of an adapter: the call is rejected, which leaves
    nothing to prove about the body, or it answers with [data]. *)
Ltac answer data :=
  unfold axios_get;
  match goal with
  | |- context [match ?net ?r with Rejects _ => _ | Responds _ => _ end] =>
      destruct (net r) as [?|data]; [exact I|]; cbn [bind]
  end.

(** A callback that only reads properties of its argument [x]: it throws
    on [null] and [undefined] and builds its record otherwise. *)
Ltac record_callback x := destruct x; first [exact I | reflexivity].

(** A step that may throw, which leaves nothing to prove about what
    follows it, or gives [x]. *)
Ltac may_throw x :=
  match goal with
  | |- context [bind ?c _] =>
      lazymatch c with
      | bind _ _ => fail
      | _ => destruct c as [x|] eqn:?; [cbn [bind] | exact I]
      end
  end.

(** ** Reasoning about completions *)
Section Completions.

Context {A B : Type}.

Lemma returns_weaken (c : completion A) (P Q : A -> Prop) :
  returns c P -> (forall a, P a -> Q a) -> returns c Q.
Proof. destruct c; simpl; auto. Qed.

Lemma returns_inv (c : completion A) (P : A -> Prop) :
  returns c P -> exists a, c = Ret a /\ P a.
Proof. destruct c; simpl; [eauto | tauto]. Qed.

Lemma if_returns_bind (c : completion A) (k : A -> completion B)
    (Q : A -> Prop) (P : B -> Prop) :
  if_returns c Q -> (forall a, Q a -> if_returns (k a) P) ->
  if_returns (bind c k) P.
Proof. destruct c; simpl; auto. Qed.

Lemma returns_bind (c : completion A) (k : A -> completion B)
    (Q : A -> Prop) (P : B -> Prop) :
  returns c Q -> (forall a, Q a -> returns (k a) P) -> returns (bind c k) P.
Proof. destruct c; simpl; [auto | tauto]. Qed.

(** A [try]/[catch] returns as soon as its handler does. *)
Lemma returns_try_catch (body : completion A) (handler : exn -> completion A)
    (P : A -> Prop) :
  if_returns body P -> (forall e, returns (handler e) P) ->
  returns (try_catch body handler) P.
Proof. destruct body; simpl; auto. Qed.

Lemma mapM_Forall2 (f : A -> completion B) (l : list A) :
  if_returns (mapM f l) (fun out => Forall2 (fun x y => f x = Ret y) l out).
Proof.
  induction l as [|x xs IH]; simpl.
  - constructor.
  - destruct (f x) as [y|e] eqn:Hx; simpl; [|exact I].
    destruct (mapM f xs) as [ys|e]; simpl in *; [|exact I].
    constructor; assumption.
Qed.

Lemma mapM_total (f : A -> completion B) (g : A -> B) (l : list A) :
  (forall x, In x l -> f x = Ret (g x)) -> mapM f l = Ret (List.map g l).
Proof.
  induction l as [|x xs IH]; simpl; intros H; [reflexivity|].
  rewrite (H x) by auto. simpl. rewrite IH by auto. reflexivity.
Qed.

End Completions.

(** ** Reading properties *)

Lemma get_prop (v : value) (k : string) :
  nullish v = false -> get v k = Ret (prop v k).
Proof. destruct v; simpl; congruence. Qed.

Lemma truthy_not_nullish (v : value) : truthy v = true -> nullish v = false.
Proof. destruct v; simpl; congruence. Qed.

Lemma js_or_object_not_nullish (v : value) (fields : list (string * value)) :
  nullish (js_or v (VObj fields)) = false.
Proof.
  unfold js_or. destruct (truthy v) eqn:E; [|reflexivity].
  now apply truthy_not_nullish.
Qed.

(** ** Values without a text *)

Lemma value_induction (P : value -> Prop) :
  P VUndef -> P VNull -> (forall b, P (VBool b)) -> (forall n, P (VNum n)) ->
  (forall s, P (VStr s)) ->
  (forall items, Forall P items -> P (VArr items)) ->
  (forall fields, P (VObj fields)) ->
  forall v, P v.
Proof.
  intros HU HN HB HNum HS HA HO. fix IH 1.
  intros [| | b | n | s | items | fields].
  - exact HU.
  - exact HN.
  - apply HB.
  - apply HNum.
  - apply HS.
  - apply HA. induction items as [|x rest IHrest]; constructor.
    + apply IH.
    + exact IHrest.
  - apply HO.
Qed.

Lemma join_error (texts : list (completion string)) (e0 : exn) :
  Forall (fun text => forall e, text = Throw e -> e = e0) texts ->
  forall e, join texts = Throw e -> e = e0.
Proof.
  induction 1 as [|text rest Htext _ IH]; intros e; [discriminate|].
  cbn [join]. destruct rest as [|text' rest']; [apply Htext|].
  destruct text as [a|e']; cbn [bind].
  - destruct (join (text' :: rest')) as [b|e'']; cbn [bind]; [discriminate|].
    intros E. injection E as <-. apply IH. reflexivity.
  - intros E. injection E as <-. apply Htext. reflexivity.
Qed.

(** The one error of a conversion to text. *)
Lemma to_text_error (v : value) :
  forall e, to_text v = Throw e ->
            e = TypeError "Cannot convert object to primitive value".
Proof.
  induction v as [| | b | n | s | items Hitems | fields] using value_induction;
    intros e; cbn [to_text]; try discriminate.
  - apply join_error. induction Hitems as [|x rest Hx _ IH]; constructor.
    + destruct x; try discriminate; apply Hx.
    + exact IH.
  - destruct (lookup "toString" fields); [|discriminate].
    intros E. injection E as <-. reflexivity.
Qed.

Lemma parseInt_cases (v : value) :
  (has_text v = true /\ exists text, parseInt v = Ret (parse_int_string text)) \/
  (has_text v = false /\
   parseInt v = Throw (TypeError "Cannot convert object to primitive value")).
Proof.
  unfold parseInt, has_text. pose proof (to_text_error v) as H.
  destruct (to_text v) as [text|e]; cbn [bind].
  - left. eauto.
  - right. split; [reflexivity|]. now rewrite (H e eq_refl).
Qed.

Lemma parseFloat_cases (v : value) :
  (has_text v = true /\ exists n, parseFloat v = Ret n) \/
  (has_text v = false /\
   parseFloat v = Throw (TypeError "Cannot convert object to primitive value")).
Proof.
  unfold parseFloat, has_text. pose proof (to_text_error v) as H.
  destruct v as [| | b | n | s | items | fields];
    try (left; split; [reflexivity | eexists; reflexivity]);
    (destruct (to_text _) as [text|e]; cbn [bind];
     [left; eauto | right; split; [reflexivity|]; now rewrite (H e eq_refl)]).
Qed.

(** ** The record mapping of [getFishSpecies] *)

Lemma formatFish_live (fish : value) :
  nullish fish = false ->
  formatFish fish =
  Ret (VObj [("id", js_or (prop fish "SpecCode") (prop fish "id"));
             ("name", js_or (js_or (prop fish "Species") (prop fish "name"))
                            (VStr "Unknown Species"));
             ("genus", js_or (prop fish "Genus") (VStr "Unknown"));
             ("family", js_or (prop fish "Family") (VStr "Unknown"));
             ("freshwater", js_or (prop fish "Freshwater") (VNum (num 0)));
             ("marine", js_or (prop fish "Marine") (VNum (num 1)));
             ("brackish", js_or (prop fish "Brackish") (VNum (num 0)));
             ("icon", VStr fish_icon)]).
Proof.
  intros H. unfold formatFish. rewrite !(get_prop fish) by exact H. reflexivity.
Qed.

(** On the live path (a non-empty array of records came back)
    [getFishSpecies] returns the array of the mapped records. *)
Lemma getFishSpecies_live (net : network) (limit : value) (items : list value) :
  net (Species (default_arg limit (VNum (num 10)))) = Responds (VArr items) ->
  items <> [] ->
  Forall (fun fish => nullish fish = false) items ->
  returns (getFishSpecies net limit)
    (fun v => exists out,
       v = VArr out /\
       Forall2 (fun fish rec => nullish fish = false /\ formatFish fish = Ret rec)
               items out).
Proof.
  intros Hnet Hne Hall. unfold getFishSpecies, axios_get. rewrite Hnet. simpl.
  destruct items as [|x xs]; [congruence|]. simpl.
  pose proof (mapM_Forall2 formatFish (x :: xs)) as HF.
  assert (Htot : exists out, mapM formatFish (x :: xs) = Ret out).
  { clear HF Hne Hnet. induction Hall as [|y ys Hy _ IH]; simpl; [eauto|].
    rewrite (formatFish_live y Hy). simpl. destruct IH as [out ->]. simpl. eauto. }
  destruct Htot as [out Hout]. cbn [mapM] in Hout. simpl in HF.
  rewrite Hout in *. simpl. exists out. split; [reflexivity|].
  clear Hout Hne Hnet. induction HF as [|a b l l' Hab _ IH]; [constructor|].
  inversion Hall; subst. constructor; auto.
Qed.

(** C6: on the live path of [getFishSpecies], a record without a genus is
    given the genus "Unknown", and a record without a marine flag is given
    [marine = 1]. *)
Theorem C6_missing_fields_take_defaults
    (net : network) (limit : value) (items : list value) :
  net (Species (default_arg limit (VNum (num 10)))) = Responds (VArr items) ->
  items <> [] ->
  Forall (fun fish => nullish fish = false) items ->
  returns (getFishSpecies net limit)
    (fun v => exists out,
       v = VArr out /\
       Forall2 (fun fish rec =>
                  (prop fish "Genus" = VUndef ->
                   field "genus" rec = Some (VStr "Unknown")) /\
                  (prop fish "Marine" = VUndef ->
                   field "marine" rec = Some (VNum (num 1))))
               items out).
Proof.
  intros Hnet Hne Hall.
  eapply returns_weaken; [exact (getFishSpecies_live net limit items Hnet Hne Hall)|].
  intros v [out [-> HF]]. exists out. split; [reflexivity|].
  eapply Forall2_impl; [|exact HF].
  intros fish rec [Hn Hrec]. rewrite (formatFish_live fish Hn) in Hrec.
  injection Hrec as <-. split; intros E; simpl; rewrite E; reflexivity.
Qed.

Lemma C6_witness :
  returns (getFishSpecies (fun _ => Responds (VArr [VObj [("Species", VStr "Gadus morhua")]]))
                          VUndef)
    (fun v => exists out,
       v = VArr out /\
       Forall2 (fun fish rec =>
                  (prop fish "Genus" = VUndef ->
                   field "genus" rec = Some (VStr "Unknown")) /\
                  (prop fish "Marine" = VUndef ->
                   field "marine" rec = Some (VNum (num 1))))
               [VObj [("Species", VStr "Gadus morhua")]] out).
Proof.
  apply (C6_missing_fields_take_defaults
           (fun _ => Responds (VArr [VObj [("Species", VStr "Gadus morhua")]]))
           VUndef [VObj [("Species", VStr "Gadus morhua")]]).
  - reflexivity.
  - discriminate.
  - repeat constructor.
Defined.

Lemma js_or_zero (q : Q) (d : value) : (q == 0)%Q -> js_or (VNum (Fin q)) d = d.
Proof.
  intros H. unfold js_or. simpl.
  apply Qeq_bool_iff in H. rewrite H. reflexivity.
Qed.

(** C9: on the live path of [getFishSpecies], a record whose Marine field
    is the number 0 is mapped to [marine = 1], while a Freshwater or
    Brackish field of 0 stays 0. *)
Theorem C9_marine_zero_becomes_one
    (net : network) (limit : value) (items : list value) :
  net (Species (default_arg limit (VNum (num 10)))) = Responds (VArr items) ->
  items <> [] ->
  Forall (fun fish => nullish fish = false) items ->
  returns (getFishSpecies net limit)
    (fun v => exists out,
       v = VArr out /\
       Forall2 (fun fish rec =>
                  (forall q, (q == 0)%Q -> prop fish "Marine" = VNum (Fin q) ->
                   field "marine" rec = Some (VNum (num 1))) /\
                  (forall q, (q == 0)%Q -> prop fish "Freshwater" = VNum (Fin q) ->
                   field "freshwater" rec = Some (VNum (num 0))) /\
                  (forall q, (q == 0)%Q -> prop fish "Brackish" = VNum (Fin q) ->
                   field "brackish" rec = Some (VNum (num 0))))
               items out).
Proof.
  intros Hnet Hne Hall.
  eapply returns_weaken; [exact (getFishSpecies_live net limit items Hnet Hne Hall)|].
  intros v [out [-> HF]]. exists out. split; [reflexivity|].
  eapply Forall2_impl; [|exact HF].
  intros fish rec [Hn Hrec]. rewrite (formatFish_live fish Hn) in Hrec.
  injection Hrec as <-.
  repeat split; intros q Hq E; simpl; rewrite E, (js_or_zero q _ Hq); reflexivity.
Qed.

Lemma C9_witness :
  returns (getFishSpecies
             (fun _ => Responds (VArr [VObj [("Species", VStr "Salmo trutta");
                                             ("Freshwater", VNum (num 0));
                                             ("Marine", VNum (num 0));
                                             ("Brackish", VNum (num 0))]]))
             (VNum (num 5)))
    (fun v => exists out,
       v = VArr out /\
       Forall2 (fun fish rec =>
                  (forall q, (q == 0)%Q -> prop fish "Marine" = VNum (Fin q) ->
                   field "marine" rec = Some (VNum (num 1))) /\
                  (forall q, (q == 0)%Q -> prop fish "Freshwater" = VNum (Fin q) ->
                   field "freshwater" rec = Some (VNum (num 0))) /\
                  (forall q, (q == 0)%Q -> prop fish "Brackish" = VNum (Fin q) ->
                   field "brackish" rec = Some (VNum (num 0))))
               [VObj [("Species", VStr "Salmo trutta");
                      ("Freshwater", VNum (num 0));
                      ("Marine", VNum (num 0));
                      ("Brackish", VNum (num 0))]] out).
Proof.
  apply (C9_marine_zero_becomes_one
           (fun _ => Responds (VArr [VObj [("Species", VStr "Salmo trutta");
                                           ("Freshwater", VNum (num 0));
                                           ("Marine", VNum (num 0));
                                           ("Brackish", VNum (num 0))]]))
           (VNum (num 5))).
  - reflexivity.
  - discriminate.
  - repeat constructor.
Defined.

(** ** Region names *)

Lemma last_char_app (s t : string) :
  t <> EmptyString -> last_char (s ++ t)%string = last_char t.
Proof.
  intros Ht. induction s as [|c s IH]; simpl; [reflexivity|].
  destruct (s ++ t)%string eqn:E; [|exact IH].
  destruct s; simpl in E; [congruence | discriminate].
Qed.

(** No longitude is at least 120 and at most -100. *)
Lemma no_such_longitude (n : number) :
  num_ge n (num 120) && num_le n (num (-100)) = false.
Proof.
  destruct n as [| | |q]; try reflexivity. unfold num_ge. cbn [num_le num].
  destruct (Qle_bool (inject_Z 120) q) eqn:E1; [|reflexivity].
  destruct (Qle_bool q (inject_Z (-100))) eqn:E2; [|reflexivity].
  apply Qle_bool_iff in E1, E2. exfalso.
  assert (H : (inject_Z 120 <= inject_Z (-100))%Q) by (eapply Qle_trans; eauto).
  rewrite <- Zle_Qle in H. lia.
Qed.

Lemma north_pacific_is_empty (lat lon : value) :
  in_region lat lon
    (mkRegion "North Pacific" (num 30) (num 60) (num 120) (num (-100)))
  <> Ret true.
Proof.
  unfold in_region, and_then, ge, le. cbn [minLat maxLat minLon maxLon].
  destruct (to_number lat) as [a|]; [cbn [bind]|discriminate].
  destruct (num_ge a (num 30)); [|discriminate].
  destruct (num_le a (num 60)); [|discriminate].
  destruct (to_number lon) as [b|]; [cbn [bind]|discriminate].
  pose proof (no_such_longitude b) as H.
  destruct (num_ge b (num 120)); [|discriminate].
  destruct (num_le b (num (-100))); discriminate.
Qed.

Lemma printed_coordinates_differ (a b : string) :
  (a ++ degree ++ ", " ++ b ++ degree)%string <> "North Pacific".
Proof.
  intros H. apply (f_equal last_char) in H.
  rewrite (last_char_app a), (last_char_app degree), (last_char_app ", "),
    (last_char_app b) in H by (destruct b; discriminate).
  discriminate H.
Qed.

Lemma getLocationName_cases (lat lon : value) :
  match getLocationName lat lon with
  | Ret s =>
      In s ["South Pacific"; "Atlantic Ocean"; "Indian Ocean"; "Arctic Ocean"] \/
      exists a b, call_toFixed lat 1 = Ret a /\ call_toFixed lon 1 = Ret b /\
                  s = (a ++ degree ++ ", " ++ b ++ degree)%string
  | Throw _ => True
  end.
Proof.
  unfold getLocationName, regions. cbn [first_region].
  pose proof (north_pacific_is_empty lat lon) as Hnp.
  destruct (in_region lat lon _) as [[|]|]; [congruence| |exact I]. clear Hnp.
  cbn [bind].
  repeat match goal with
         | |- context [in_region ?x ?y ?r] =>
             destruct (in_region x y r) as [[|]|];
             [cbn [bind name In]; tauto | cbn [bind] | exact I]
         end.
  destruct (call_toFixed lat 1) as [a|]; simpl; [|exact I].
  destruct (call_toFixed lon 1) as [b|]; simpl; [|exact I].
  right. exists a, b. auto.
Qed.

(** Between numbers the comparisons are made, and the loop comes to the
    region [find] gives. *)
Lemma in_region_numbers (lat lon : number) (r : region) :
  in_region (VNum lat) (VNum lon) r = Ret (within (VNum lat) (VNum lon) r).
Proof.
  unfold in_region, within, and_then, ge, le, number_of. cbn [to_number bind].
  repeat match goal with
         | |- context [if ?b then _ else _] => destruct b; cbn [andb]
         end; reflexivity.
Qed.

Lemma first_region_numbers (lat lon : number) (rs : list region) :
  first_region (VNum lat) (VNum lon) rs
  = Ret (find (within (VNum lat) (VNum lon)) rs).
Proof.
  induction rs as [|r rs IH]; [reflexivity|].
  cbn [first_region find]. rewrite in_region_numbers. cbn [bind].
  destruct (within (VNum lat) (VNum lon) r); [reflexivity | exact IH].
Qed.

(** C10: [getLocationName] never answers "North Pacific": the bounds of
    that region ask for a longitude both >= 120 and <= -100, so a point
    gets the name of a later region or its printed coordinates. *)
Theorem C10_never_north_pacific :
  (forall lat lon : value, getLocationName lat lon <> Ret "North Pacific") /\
  (forall lat lon : number,
     returns (getLocationName (VNum lat) (VNum lon))
       (fun s =>
          s <> "North Pacific" /\
          (In s ["South Pacific"; "Atlantic Ocean"; "Indian Ocean"; "Arctic Ocean"] \/
           s = (toFixed 1 lat ++ degree ++ ", " ++ toFixed 1 lon ++ degree)%string))).
Proof.
  assert (H1 : forall lat lon : value, getLocationName lat lon <> Ret "North Pacific").
  { intros lat lon E. pose proof (getLocationName_cases lat lon) as H.
    rewrite E in H. destruct H as [H | [a [b [_ [_ H]]]]].
    - simpl in H. intuition discriminate.
    - symmetry in H. exact (printed_coordinates_differ a b H). }
  split; [exact H1|].
  intros lat lon. pose proof (getLocationName_cases (VNum lat) (VNum lon)) as H.
  pose proof (H1 (VNum lat) (VNum lon)) as Hne.
  destruct (getLocationName (VNum lat) (VNum lon)) as [s|e] eqn:E; simpl.
  - split; [congruence|].
    destruct H as [H | [a [b [Ha [Hb H]]]]]; [left; exact H|].
    right. cbn [call_toFixed] in Ha, Hb.
    injection Ha as <-. injection Hb as <-. exact H.
  - unfold getLocationName in E. rewrite first_region_numbers in E.
    cbn [bind] in E. destruct (find _ _); discriminate.
Qed.

(** A point of the northern Pacific gets its printed coordinates. *)
Example north_pacific_point :
  getLocationName (VNum (num 45)) (VNum (num 150))
  = Ret ("45.0" ++ degree ++ ", 150.0" ++ degree)%string.
Proof. vm_compute. reflexivity. Qed.

(** ** Weather snapshots *)

Lemma returns_if_returns {A} (c : completion A) (P : A -> Prop) :
  returns c P -> if_returns c P.
Proof. destruct c; simpl; tauto. Qed.

(** With numbers for coordinates [getLocationName] returns. *)
Lemma getLocationName_number (lat lon : number) :
  exists s, getLocationName (VNum lat) (VNum lon) = Ret s.
Proof.
  unfold getLocationName. rewrite first_region_numbers. cbn [bind].
  destruct (find _ _); simpl; eauto.
Qed.

Lemma getDefaultOceanWeather_snapshot (lat lon : number) :
  returns (getDefaultOceanWeather (VNum lat) (VNum lon))
          (is_snapshot (VNum lat) (VNum lon)).
Proof.
  unfold getDefaultOceanWeather. cbn [default_arg].
  destruct (getLocationName_number lat lon) as [s ->]. cbn [bind returns].
  unfold is_snapshot. do 5 eexists. split; [reflexivity|].
  repeat split; try reflexivity. eexists. reflexivity.
Qed.

(** A day of the forecast: the height is read and printed. *)
Lemma forecastDay_inv (height : value) (idx : nat) (day : value) :
  forecastDay height idx = Ret day ->
  exists n, parseFloat height = Ret n /\
            day = VObj [("day", VNum (num (Z.of_nat idx)));
                        ("waveHeight", VStr (toFixed 2 n))].
Proof.
  unfold forecastDay. destruct (parseFloat height) as [n|]; [|discriminate].
  cbn [bind]. intros E. injection E as <-. eauto.
Qed.

(** The forecast of the live path, when it does not throw, is an array of
    days. *)
Lemma forecast_days (wave_height_max : value) :
  if_returns
    (if truthy wave_height_max
     then days <- slice0 7 wave_height_max ;; js_map_idx days forecastDay
     else Ret (VArr []))
    (fun v => exists forecast,
       v = VArr forecast /\ forallb (conforms ForecastDay) forecast = true).
Proof.
  destruct (truthy wave_height_max); [|simpl; exists []; auto].
  destruct wave_height_max as [| | b | n | s | items | fields]; simpl; try exact I.
  eapply if_returns_bind; [apply mapM_Forall2|].
  intros forecast H. cbn [if_returns]. exists forecast. split; [reflexivity|].
  induction H as [|p day l l' Hday _ IH]; [reflexivity|].
  cbn [forallb]. rewrite IH, andb_true_r.
  destruct (forecastDay_inv _ _ _ Hday) as [n [_ ->]]. reflexivity.
Qed.

(** [getOceanWeather] with numbers for coordinates always returns a
    snapshot for these coordinates, whatever the upstream service does. *)
Lemma getOceanWeather_snapshot (net : network) (lat lon : number) :
  returns (getOceanWeather net (VNum lat) (VNum lon))
          (is_snapshot (VNum lat) (VNum lon)).
Proof.
  unfold getOceanWeather. cbn [default_arg].
  apply returns_try_catch;
    [|intros _; apply getDefaultOceanWeather_snapshot].
  answer data.
  destruct (truthy data) eqn:Hd; cbn [negb];
    [|apply returns_if_returns, getDefaultOceanWeather_snapshot].
  pose proof (truthy_not_nullish data Hd) as Hn.
  rewrite !(get_prop data) by exact Hn. cbn [bind].
  rewrite !get_prop by apply js_or_object_not_nullish. cbn [bind].
  destruct (getLocationName_number lat lon) as [s ->]. cbn [bind].
  may_throw waveHeight. may_throw wavePeriod. may_throw windWaveHeight.
  may_throw described.
  eapply if_returns_bind; [apply forecast_days|].
  intros v [forecast [-> Hf]]. cbn [if_returns].
  unfold is_snapshot. do 5 eexists.
  refine (conj eq_refl (conj _ (conj _ (conj _ Hf)))).
  - reflexivity.
  - eexists. reflexivity.
  - unfold formatTemp.
    repeat match goal with
           | |- context [match ?x with VNum _ => _ | _ => _ end] => destruct x
           end; reflexivity.
Qed.

Lemma snapshot_location (lat lon v : value) :
  is_snapshot lat lon v ->
  path ["location"; "latitude"] v = Some lat /\
  path ["location"; "longitude"] v = Some lon.
Proof.
  intros (n & c & d & f & src & -> & _). split; reflexivity.
Qed.

Lemma conforms_object (fs : list (string * schema)) (kvs : list (string * value)) :
  conforms (Object fs) (VObj kvs) =
  same_names (List.map fst fs) (List.map fst kvs) &&
  forallb (fun f => match lookup (fst f) kvs with
                    | Some x => conforms (snd f) x
                    | None => false
                    end) fs.
Proof. reflexivity. Qed.

Lemma snapshot_conforms (lat lon v : value) :
  is_snapshot lat lon v -> conforms WeatherSnapshot v = true.
Proof.
  intros (n & c & d & f & src & -> & Hc & _ & Hd & Hf).
  unfold WeatherSnapshot, weather_fields. rewrite conforms_object.
  cbn [same_names List.map fst snd forallb existsb lookup String.eqb Ascii.eqb
       Bool.eqb andb orb].
  rewrite Hc, Hd. cbn [conforms]. rewrite Hf. reflexivity.
Qed.

(** C7: the snapshot of [getOceanWeather] carries the requested
    coordinates in [location], on the live path and on the fallback path;
    for (40.7, -74.0) the two fields are [===] to 40.7 and -74.0. *)
Theorem C7_location_echoes_request :
  (forall (net : network) (lat lon : number),
     returns (getOceanWeather net (VNum lat) (VNum lon))
       (fun v => path ["location"; "latitude"] v = Some (VNum lat) /\
                 path ["location"; "longitude"] v = Some (VNum lon))) /\
  (forall lat lon : number,
     returns (getDefaultOceanWeather (VNum lat) (VNum lon))
       (fun v => path ["location"; "latitude"] v = Some (VNum lat) /\
                 path ["location"; "longitude"] v = Some (VNum lon))) /\
  (forall net : network,
     returns (getOceanWeather net (VNum (dec 407 1)) (VNum (dec (-740) 1)))
       (fun v => exists latitude longitude,
          path ["location"; "latitude"] v = Some latitude /\
          path ["location"; "longitude"] v = Some longitude /\
          strict_eq latitude (VNum (dec 407 1)) = true /\
          strict_eq longitude (VNum (dec (-740) 1)) = true)).
Proof.
  split; [|split].
  - intros net lat lon. eapply returns_weaken; [apply getOceanWeather_snapshot|].
    intros v. apply snapshot_location.
  - intros lat lon.
    eapply returns_weaken; [apply getDefaultOceanWeather_snapshot|].
    intros v. apply snapshot_location.
  - intros net. eapply returns_weaken; [apply getOceanWeather_snapshot|].
    intros v H. destruct (snapshot_location _ _ _ H) as [H1 H2].
    exists (VNum (dec 407 1)), (VNum (dec (-740) 1)).
    repeat split; assumption || (vm_compute; reflexivity).
Qed.

(** ** The multi-location result *)

Lemma spread_name_snapshot (loc_name : string) (lat lon w : value) :
  is_snapshot lat lon w ->
  exists fields, w = VObj fields /\
    spread [("name", VStr loc_name)] w = ("name", VStr loc_name) :: fields.
Proof.
  intros (n & c & d & f & src & -> & _). eexists. split; reflexivity.
Qed.

Lemma returns_mapM {A B} (f : A -> completion B) (R : A -> B -> Prop) (l : list A) :
  (forall x, In x l -> returns (f x) (R x)) ->
  returns (mapM f l) (fun out => Forall2 R l out).
Proof.
  induction l as [|x xs IH]; intros H; simpl; [constructor|].
  eapply returns_bind; [apply H; left; reflexivity|].
  intros y Hy. eapply returns_bind; [apply IH; intros; apply H; right; assumption|].
  intros ys Hys. simpl. constructor; assumption.
Qed.

Lemma returns_try {A} (body : completion A) (handler : exn -> completion A)
    (P : A -> Prop) :
  returns body P -> returns (try_catch body handler) P.
Proof. destruct body; simpl; tauto. Qed.

(** [getOceanDataMultipleLocations] always returns one entry per fixed
    location, built from the snapshot of [getOceanWeather]: its [catch]
    block is never entered. *)
Lemma getOceanDataMultipleLocations_entries (net : network) :
  returns (getOceanDataMultipleLocations net)
    (fun v => exists entries,
       v = VArr entries /\ Forall2 is_location_entry locations entries).
Proof.
  unfold getOceanDataMultipleLocations. apply returns_try.
  eapply returns_bind.
  - apply (returns_mapM _ is_location_entry). intros [[loc_name lat] lon] _.
    eapply returns_bind; [apply getOceanWeather_snapshot|].
    intros w Hw. destruct (spread_name_snapshot loc_name _ _ _ Hw) as [f [-> Hs]].
    cbv beta. cbn [returns]. rewrite Hs. exists f. split; [reflexivity | exact Hw].
  - intros entries H. simpl. exists entries. auto.
Qed.



(** ** The shape of what the adapters return *)

Lemma if_returns_js_map (sc : schema) (f : value -> completion value) (v : value) :
  (forall x, if_returns (f x) (fun y => conforms sc y = true)) ->
  if_returns (js_map v f) (fun y => conforms (ArrayOf sc) y = true).
Proof.
  intros H. destruct v; simpl; try exact I.
  eapply if_returns_bind; [apply mapM_Forall2|].
  intros out HF. simpl. induction HF as [|x y l l' Hxy _ IH]; simpl; [reflexivity|].
  specialize (H x). rewrite Hxy in H. simpl in H. now rewrite H, IH.
Qed.

Lemma formatFish_shape (fish : value) :
  if_returns (formatFish fish) (fun y => conforms FishRecord y = true).
Proof.
  destruct (nullish fish) eqn:E.
  - destruct fish; try discriminate; exact I.
  - rewrite (formatFish_live fish E). reflexivity.
Qed.

Lemma formatObservation_shape (obs : value) :
  if_returns (formatObservation obs) (fun y => conforms ObservationRecord y = true).
Proof.
  unfold formatObservation.
  record_callback obs.
Qed.

Lemma getFishSpecies_shape (net : network) (limit : value) :
  returns (getFishSpecies net limit) (fun v => conforms (ArrayOf FishRecord) v = true).
Proof.
  unfold getFishSpecies. apply returns_try_catch; [|intros _; reflexivity].
  answer data.
  destruct (negb (truthy data) || length_is_zero data); [reflexivity|].
  apply if_returns_js_map, formatFish_shape.
Qed.

Lemma getFishByFamily_shape (net : network) (family : value) :
  returns (getFishByFamily net family)
          (fun v => conforms (ArrayOf FamilyRecord) v = true).
Proof.
  unfold getFishByFamily. apply returns_try_catch; [|intros _; reflexivity].
  answer data.
  destruct (negb (truthy data) || length_is_zero data); [reflexivity|].
  apply if_returns_js_map. intros fish.
  record_callback fish.
Qed.

Lemma getBiodiversityObservations_shape (net : network) (options : value) :
  returns (getBiodiversityObservations net options)
          (fun v => conforms Biodiversity v = true).
Proof.
  unfold getBiodiversityObservations.
  apply returns_try_catch; [|intros _; reflexivity].
  destruct (get _ "limit") as [limit|]; [cbn [bind]|exact I].
  destruct (get _ "offset") as [offset|]; [cbn [bind]|exact I].
  answer data.
  destruct (truthy data); [cbn [negb]|reflexivity].
  destruct (get data "results") as [results|]; [cbn [bind]|exact I].
  destruct (truthy results); [cbn [negb]|reflexivity].
  eapply if_returns_bind;
    [apply (if_returns_js_map ObservationRecord), formatObservation_shape|].
  intros observations Hobs. cbv beta.
  destruct (get data "total") as [total|]; [cbn [bind]|exact I].
  cbn [if_returns]. unfold Biodiversity. rewrite conforms_object.
  cbn [same_names List.map fst snd forallb existsb lookup String.eqb Ascii.eqb
       Bool.eqb andb orb].
  rewrite Hobs. reflexivity.
Qed.

Lemma getSpeciesStats_shape (net : network) :
  returns (getSpeciesStats net) (fun v => conforms SpeciesStats v = true).
Proof.
  unfold getSpeciesStats. apply returns_try_catch; [|intros _; reflexivity].
  answer data.
  destruct (truthy data) eqn:E; [cbn [negb]|reflexivity].
  rewrite !(get_prop data) by (apply truthy_not_nullish; exact E). reflexivity.
Qed.

Lemma getObservationsByArea_shape (net : network) (minLat maxLat minLon maxLon : value) :
  returns (getObservationsByArea net minLat maxLat minLon maxLon)
          (fun v => conforms (ArrayOf AreaObservation) v = true).
Proof.
  unfold getObservationsByArea. apply returns_try_catch; [|intros _; reflexivity].
  may_throw geometry. answer data.
  destruct (truthy data); [cbn [negb]|reflexivity].
  destruct (get data "results") as [results|]; [cbn [bind]|exact I].
  destruct (truthy results); [cbn [negb]|reflexivity].
  apply if_returns_js_map. intros obs.
  record_callback obs.
Qed.

Lemma getDefaultTemperatureData_shape (lat lon : number) :
  returns (getDefaultTemperatureData (VNum lat) (VNum lon))
          (fun v => conforms TemperatureSnapshot v = true).
Proof.
  unfold getDefaultTemperatureData. cbn [default_arg].
  destruct (getLocationName_number lat lon) as [s ->]. reflexivity.
Qed.

Lemma getWaterTemperature_shape (net : network) (lat lon : number) :
  returns (getWaterTemperature net (VNum lat) (VNum lon))
          (fun v => conforms TemperatureSnapshot v = true).
Proof.
  unfold getWaterTemperature. cbn [default_arg].
  apply returns_try_catch;
    [|intros _; apply getDefaultTemperatureData_shape].
  answer data.
  destruct (truthy data) eqn:Hd; cbn [negb];
    [|apply returns_if_returns, getDefaultTemperatureData_shape].
  rewrite !(get_prop data) by (apply truthy_not_nullish; exact Hd). cbn [bind].
  destruct (getLocationName_number lat lon) as [s ->]. cbn [bind].
  rewrite !get_prop by apply js_or_object_not_nullish. cbn [bind].
  may_throw described. reflexivity.
Qed.

Lemma location_entry_conforms (loc : string * number * number) (e : value) :
  is_location_entry loc e -> conforms LocationEntry e = true.
Proof.
  destruct loc as [[loc_name lat] lon]. intros (w & -> & Hs).
  pose proof (snapshot_conforms _ _ _ Hs) as Hc.
  destruct Hs as (n & c & d & f & src & E & _). injection E as ->.
  unfold WeatherSnapshot, weather_fields in Hc. rewrite conforms_object in Hc.
  unfold LocationEntry, weather_fields. rewrite conforms_object.
  cbn [same_names List.map fst snd forallb existsb lookup String.eqb Ascii.eqb
       Bool.eqb andb orb] in Hc |- *.
  exact Hc.
Qed.

Lemma getOceanDataMultipleLocations_shape (net : network) :
  returns (getOceanDataMultipleLocations net)
          (fun v => conforms (ArrayOf LocationEntry) v = true).
Proof.
  eapply returns_weaken; [apply getOceanDataMultipleLocations_entries|].
  intros v [entries [-> H]].
  change (forallb (conforms LocationEntry) entries = true).
  induction H as [|loc e l l' He _ IH]; cbn [forallb]; [reflexivity|].
  now rewrite (location_entry_conforms loc e He), IH.
Qed.

(** The static multi-location fallback has a narrower shape than the
    entries above (no [daily], [forecast] and [source]), and it is never
    what [getOceanDataMultipleLocations] returns. *)
Lemma static_multi_location_fallback_unused (net : network) :
  conforms (ArrayOf LocationEntry) getDefaultMultiLocationData = false /\
  getOceanDataMultipleLocations net <> Ret getDefaultMultiLocationData.
Proof.
  split; [reflexivity|]. intros E.
  pose proof (getOceanDataMultipleLocations_shape net) as H.
  rewrite E in H. simpl in H. discriminate H.
Qed.

(** C2: whatever the upstream service does (an answer, a failure), each
    adapter operation returns a payload of one and the same shape: the
    objects in it have the same field names on the live path and on the
    fallback path; so has every entry of [getOceanDataMultipleLocations]. *)
Theorem C2_same_shape_live_or_fallback (net : network) :
  (forall limit,
     returns (getFishSpecies net limit)
             (fun v => conforms (ArrayOf FishRecord) v = true)) /\
  (forall family,
     returns (getFishByFamily net family)
             (fun v => conforms (ArrayOf FamilyRecord) v = true)) /\
  (forall options,
     returns (getBiodiversityObservations net options)
             (fun v => conforms Biodiversity v = true)) /\
  returns (getSpeciesStats net) (fun v => conforms SpeciesStats v = true) /\
  (forall minLat maxLat minLon maxLon,
     returns (getObservationsByArea net minLat maxLat minLon maxLon)
             (fun v => conforms (ArrayOf AreaObservation) v = true)) /\
  (forall lat lon : number,
     returns (getOceanWeather net (VNum lat) (VNum lon))
             (fun v => conforms WeatherSnapshot v = true)) /\
  (forall lat lon : number,
     returns (getWaterTemperature net (VNum lat) (VNum lon))
             (fun v => conforms TemperatureSnapshot v = true)) /\
  returns (getOceanDataMultipleLocations net)
          (fun v => conforms (ArrayOf LocationEntry) v = true).
Proof.
  repeat split; intros.
  - apply getFishSpecies_shape.
  - apply getFishByFamily_shape.
  - apply getBiodiversityObservations_shape.
  - apply getSpeciesStats_shape.
  - apply getObservationsByArea_shape.
  - eapply returns_weaken; [apply getOceanWeather_snapshot|].
    intros v. apply snapshot_conforms.
  - apply getWaterTemperature_shape.
  - apply getOceanDataMultipleLocations_shape.
Qed.

(** ** When the upstream services fail *)

Lemma try_catch_same {A} (c : completion A) : try_catch c (fun _ => c) = c.
Proof. destruct c; reflexivity. Qed.

Lemma failed_call (net : network) (r : request) (k : value -> completion value)
    (fallback : completion value) :
  call_fails (net r) = true ->
  (forall data, truthy data = false -> k data = fallback) ->
  try_catch (data <- axios_get net r ;; k data) (fun _ => fallback) = fallback.
Proof.
  intros H Hk. unfold axios_get. destruct (net r) as [m|data]; simpl in *.
  - reflexivity.
  - rewrite (Hk data) by (destruct (truthy data); [discriminate | reflexivity]).
    apply try_catch_same.
Qed.

Lemma default_arg_twice (v d : value) :
  default_arg (default_arg v d) d = default_arg v d.
Proof. destruct v; try reflexivity. destruct d; reflexivity. Qed.

(** When its call fails, a weather operation does what its fallback
    provider does with the same arguments. *)
Lemma getOceanWeather_down (net : network) (lat lon : value) :
  call_fails (net (Marine (latitude_of lat) (longitude_of lon))) = true ->
  getOceanWeather net lat lon = getDefaultOceanWeather lat lon.
Proof.
  intros H. unfold getOceanWeather. cbv zeta.
  fold (latitude_of lat) (longitude_of lon).
  replace (getDefaultOceanWeather lat lon)
    with (getDefaultOceanWeather (latitude_of lat) (longitude_of lon))
    by (unfold getDefaultOceanWeather, latitude_of, longitude_of;
        now rewrite !default_arg_twice).
  apply failed_call; [exact H|]. intros data ->. reflexivity.
Qed.


Lemma getOceanDataMultipleLocations_down (net : network) :
  network_down net ->
  returns (getOceanDataMultipleLocations net)
    (fun v => exists entries,
       v = VArr entries /\ Forall2 is_fallback_entry locations entries).
Proof.
  intros Hdown. unfold getOceanDataMultipleLocations. apply returns_try.
  eapply returns_bind.
  - apply (returns_mapM _ is_fallback_entry). intros [[loc_name lat] lon] _.
    rewrite (getOceanWeather_down net (VNum lat) (VNum lon) (Hdown _)).
    destruct (returns_inv _ _ (getDefaultOceanWeather_snapshot lat lon))
      as [w [E Hw]].
    rewrite E. cbn [bind returns].
    destruct (spread_name_snapshot loc_name _ _ _ Hw) as [f [-> Hs]].
    rewrite Hs. exists f. split; [exact E | reflexivity].
  - intros entries H. simpl. exists entries. auto.
Qed.

Lemma fallback_entries_non_empty (entries : list value) :
  Forall2 is_fallback_entry locations entries -> non_empty (VArr entries) = true.
Proof. intros H. inversion H; reflexivity. Qed.


(** With the network down the adapters with a static fallback return it. *)
Lemma static_fallbacks_when_down (net : network) :
  network_down net ->
  (forall limit, getFishSpecies net limit = Ret getDefaultFishData) /\
  (forall options,
     getBiodiversityObservations net options = Ret getDefaultBiodiversityData) /\
  getSpeciesStats net = Ret getDefaultSpeciesStats.
Proof.
  intros Hdown. split; [|split].
  - intros limit. unfold getFishSpecies.
    apply failed_call; [apply Hdown|]. intros data ->. reflexivity.
  - intros options. unfold getBiodiversityObservations.
    destruct (get _ "limit") as [limit|]; [cbn [bind]|reflexivity].
    destruct (get _ "offset") as [offset|]; [cbn [bind]|reflexivity].
    apply failed_call; [apply Hdown|]. intros data ->. reflexivity.
  - unfold getSpeciesStats.
    apply failed_call; [apply Hdown|]. intros data ->. reflexivity.
Qed.




(** The same for the area query. *)
Example getObservationsByArea_offline :
  getObservationsByArea offline (VNum (num 0)) (VNum (num 0)) (VNum (num 0))
                        (VNum (num 0)) = Ret (VArr []).
Proof. reflexivity. Qed.

(** ** The routes *)

(** C5: with every upstream call failing, [GET /api/dashboard] answers
    200 with [success: true], and the four sections [fishSpecies],
    [biodiversity] (with its [observations]), [oceanWeather] and [stats]
    hold the non-empty fallbacks of the adapters. *)
Theorem C5_dashboard_with_upstreams_down (net : network) (now : string) :
  network_down net ->
  exists entries,
    Forall2 is_fallback_entry locations entries /\
    dashboard net now =
    mkResponse 200
      (VObj [("success", VBool true);
             ("data", VObj [("fishSpecies", getDefaultFishData);
                            ("biodiversity", getDefaultBiodiversityData);
                            ("oceanWeather", VArr entries);
                            ("stats", getDefaultSpeciesStats)]);
             ("sources", VArr [VStr "FishBase API"; VStr "OBIS API";
                               VStr "Open-Meteo Marine API"]);
             ("timestamp", VStr now)]) /\
    non_empty getDefaultFishData = true /\
    (exists observations,
       field "observations" getDefaultBiodiversityData = Some observations /\
       non_empty observations = true) /\
    non_empty (VArr entries) = true /\
    non_empty getDefaultSpeciesStats = true.
Proof.
  intros Hdown.
  destruct (static_fallbacks_when_down net Hdown) as (Hfish & Hbio & Hstats).
  destruct (returns_inv _ _ (getOceanDataMultipleLocations_down net Hdown))
    as [v [Ev [entries [-> Hentries]]]].
  exists entries. split; [exact Hentries|]. split.
  - unfold dashboard. rewrite Hfish, Hbio, Ev, Hstats. reflexivity.
  - split; [reflexivity|]. split; [eexists; split; reflexivity|].
    split; [exact (fallback_entries_non_empty entries Hentries) | reflexivity].
Qed.

Lemma C5_witness :
  network_down offline /\
  (  exists entries,
    Forall2 is_fallback_entry locations entries /\
    dashboard offline "2024-02-12T08:00:00.000Z" =
    mkResponse 200
      (VObj [("success", VBool true);
             ("data", VObj [("fishSpecies", getDefaultFishData);
                            ("biodiversity", getDefaultBiodiversityData);
                            ("oceanWeather", VArr entries);
                            ("stats", getDefaultSpeciesStats)]);
             ("sources", VArr [VStr "FishBase API"; VStr "OBIS API";
                               VStr "Open-Meteo Marine API"]);
             ("timestamp", VStr "2024-02-12T08:00:00.000Z")]) /\
    non_empty getDefaultFishData = true /\
    (exists observations,
       field "observations" getDefaultBiodiversityData = Some observations /\
       non_empty observations = true) /\
    non_empty (VArr entries) = true /\
    non_empty getDefaultSpeciesStats = true).
Proof.
  split; [intros r; reflexivity|].
  apply (C5_dashboard_with_upstreams_down offline "2024-02-12T08:00:00.000Z").
  intros r. reflexivity.
Defined.

(** C4: the route does not pass a latitude or longitude of 0 on: the
    text "0" reads as the number 0, which [||] replaces by the default, so
    that the adapter is called with (37.5, -122.4). *)
Theorem C4_zero_coordinates_are_replaced (net : network) (now : string) :
  ocean_weather net now [("lat", VStr "0"); ("lon", VStr "0")]
  = ocean_weather_answer net now (VNum (dec 375 1)) (VNum (dec (-1224) 1)).
Proof. reflexivity. Qed.

(** Coordinates that are absent or do not read as a number are replaced
    by the defaults; other numeric coordinates are passed on. *)
Example ocean_weather_absent (net : network) (now : string) :
  ocean_weather net now []
  = ocean_weather_answer net now (VNum (dec 375 1)) (VNum (dec (-1224) 1)).
Proof. reflexivity. Qed.

Example ocean_weather_not_numeric (net : network) (now : string) :
  ocean_weather net now [("lat", VStr "north"); ("lon", VStr EmptyString)]
  = ocean_weather_answer net now (VNum (dec 375 1)) (VNum (dec (-1224) 1)).
Proof. reflexivity. Qed.

Example ocean_weather_numeric_prefix (net : network) (now : string) :
  ocean_weather net now [("lat", VStr "12abc"); ("lon", VStr "-3.5e1 W")]
  = ocean_weather_answer net now (VNum (num 12)) (VNum (num (-35))).
Proof. reflexivity. Qed.

Example ocean_weather_numeric (net : network) (now : string) :
  ocean_weather net now [("lat", VStr "40.7"); ("lon", VStr "-74.0")]
  = ocean_weather_answer net now (VNum (dec 407 1)) (VNum (dec (-740) 1)).
Proof. reflexivity. Qed.

(** ** Numbers as text *)

Lemma uint_chars_digits (d : Decimal.uint) : forallb is_digit (uint_chars d) = true.
Proof. induction d; simpl; auto. Qed.

Lemma repeat_zero_digits (j : nat) : forallb is_digit (repeat "0"%char j) = true.
Proof. induction j; simpl; auto. Qed.

Lemma span_stops {p : ascii -> bool} (a : list ascii) (c : ascii) (r : list ascii) :
  forallb p a = true -> p c = false -> span p (a ++ c :: r) = (a, c :: r).
Proof.
  intros Ha Hc. induction a as [|x a IH]; simpl in *.
  - now rewrite Hc.
  - apply andb_true_iff in Ha as [Hx Ha]. now rewrite Hx, IH.
Qed.

(** Text of the form digits, point, [places] digits has [places] decimal
    places, with or without a minus sign in front. *)
Lemma fixed_decimal_intro (places : nat) (neg : bool) (ip fp : list ascii) :
  ip <> [] -> forallb is_digit ip = true -> forallb is_digit fp = true ->
  List.length fp = places ->
  is_fixed_decimal places
    (string_of_list_ascii
       ((if neg then ["-"%char] else []) ++ ip ++ "."%char :: fp)) = true.
Proof.
  intros Hne Hip Hfp Hlen. unfold is_fixed_decimal.
  rewrite list_ascii_of_string_of_list_ascii.
  assert (E : match (if neg then ["-"%char] else []) ++ ip ++ "."%char :: fp with
              | [] => (if neg then ["-"%char] else []) ++ ip ++ "."%char :: fp
              | c :: t =>
                  if Ascii.eqb c "-" then t
                  else (if neg then ["-"%char] else []) ++ ip ++ "."%char :: fp
              end = ip ++ "."%char :: fp).
  { destruct neg; [reflexivity|]. destruct ip as [|c ip]; [congruence|].
    simpl in *. apply andb_true_iff in Hip as [Hc _].
    destruct (Ascii.eqb_spec c "-"); [subst; discriminate|reflexivity]. }
  rewrite E, (span_stops ip "." fp Hip eq_refl).
  destruct ip; [congruence|].
  rewrite Hfp, Hlen, Nat.eqb_refl. reflexivity.
Qed.

(** [toFixed] of a small number, with at least one decimal place asked
    for, is text with that many decimal places. *)
Lemma toFixed_fixed_decimal (places : nat) (q : Q) :
  small q = true -> places <> 0%nat ->
  is_fixed_decimal places (toFixed places (Fin q)) = true.
Proof.
  unfold small, toFixed. intros Hs Hp.
  destruct (Qle_bool (pow10 21) (Qabs q)); [discriminate|].
  set (m0 := dec_chars _).
  set (m := repeat "0"%char (places + 1 - List.length m0) ++ m0).
  assert (Hm : forallb is_digit m = true).
  { unfold m. rewrite forallb_app, repeat_zero_digits. apply uint_chars_digits. }
  assert (Hlen : (places + 1 <= List.length m)%nat).
  { unfold m. rewrite length_app, repeat_length. lia. }
  set (k := (List.length m - places)%nat).
  rewrite <- (firstn_skipn k m), forallb_app in Hm.
  apply andb_true_iff in Hm as [Hf Hk].
  destruct places as [|places']; [congruence|].
  replace (if Qle_bool 0 q then [] else ["-"%char])
    with (if negb (Qle_bool 0 q) then ["-"%char] else [])
    by (destruct (Qle_bool 0 q); reflexivity).
  apply fixed_decimal_intro; auto.
  - intros E. apply (f_equal (@List.length ascii)) in E.
    rewrite length_firstn in E. simpl in E. unfold k in E. lia.
  - rewrite length_skipn. unfold k. lia.
Qed.

(** ** Number formatting on the live path *)

Lemma wave_value_text (upstream : value) (n : number) :
  parseFloat (js_or upstream (VNum (num 0))) = Ret n ->
  wave_text upstream (Some (VStr (toFixed 2 n))).
Proof.
  intros Hn. split.
  - intros q -> Hq. eexists. split; [reflexivity|].
    unfold js_or in Hn. destruct (truthy (VNum (Fin q)));
      cbn [parseFloat] in Hn; injection Hn as <-.
    + apply toFixed_fixed_decimal; [exact Hq | discriminate].
    + reflexivity.
  - intros H. destruct upstream; try discriminate;
      cbn [js_or truthy parseFloat] in Hn; injection Hn as <-; reflexivity.
Qed.

Lemma temperature_value_text (upstream : value) :
  temperature_text upstream (Some (formatTemp (js_or upstream (VStr "N/A")))).
Proof.
  split.
  - intros q -> Hne Hq. eexists. split.
    + unfold js_or. cbn [truthy].
      destruct (Qeq_bool q 0) eqn:E; [apply Qeq_bool_iff in E; contradiction|].
      reflexivity.
    + apply toFixed_fixed_decimal; [exact Hq | discriminate].
  - intros H. destruct upstream; try discriminate; reflexivity.
Qed.

(** The fallback snapshot says that it is one. *)
Lemma fallback_not_live (lat lon : number) :
  returns (getDefaultOceanWeather (VNum lat) (VNum lon)) (fun v => ~ live v).
Proof.
  unfold getDefaultOceanWeather. cbn [default_arg].
  destruct (getLocationName_number lat lon) as [s ->]. cbn [bind returns].
  unfold live. cbn. discriminate.
Qed.

(** The forecast of the live path: the days mapped from the first seven
    values of the series, each with its index. *)
Lemma forecast_of_series (wave_height_max : value) :
  if_returns
    (if truthy wave_height_max
     then days <- slice0 7 wave_height_max ;; js_map_idx days forecastDay
     else Ret (VArr []))
    (fun v => exists forecast,
       v = VArr forecast /\
       Forall2 (fun p day => forecastDay (snd p) (fst p) = Ret day)
               (combine (seq 0 (List.length (forecast_source wave_height_max)))
                        (forecast_source wave_height_max))
               forecast).
Proof.
  destruct (truthy wave_height_max) eqn:Ht.
  - destruct wave_height_max as [| | b | n | s | items | fields];
      cbn [slice0 bind js_map_idx forecast_source]; try exact I.
    eapply if_returns_bind; [apply mapM_Forall2|].
    intros forecast H. cbn [if_returns]. eauto.
  - cbn [if_returns]. exists []. split; [reflexivity|].
    destruct wave_height_max; try discriminate; constructor.
Qed.

(** The live path of [getOceanWeather]: the texts of the snapshot in
    terms of the series of the body. *)
Lemma getOceanWeather_live (net : network) (lat lon : number) (data : value) :
  net (Marine (VNum lat) (VNum lon)) = Responds data ->
  returns (getOceanWeather net (VNum lat) (VNum lon))
    (fun v =>
       live v ->
       exists waveHeight wavePeriod windWaveHeight forecast,
         parseFloat (js_or (opt_index0 (series data "hourly" "wave_height"))
                           (VNum (num 0))) = Ret waveHeight /\
         parseFloat (js_or (opt_index0 (series data "hourly" "wave_period"))
                           (VNum (num 0))) = Ret wavePeriod /\
         parseFloat (js_or (opt_index0 (series data "hourly" "wind_wave_height"))
                           (VNum (num 0))) = Ret windWaveHeight /\
         path ["current"; "waveHeight"] v = Some (VStr (toFixed 2 waveHeight)) /\
         path ["current"; "wavePeriod"] v = Some (VStr (toFixed 2 wavePeriod)) /\
         path ["current"; "windWaveHeight"] v
         = Some (VStr (toFixed 2 windWaveHeight)) /\
         path ["daily"; "maxTemp"] v
         = Some (formatTemp
              (js_or (opt_index0 (series data "daily" "temperature_2m_max"))
                     (VStr "N/A"))) /\
         path ["daily"; "minTemp"] v
         = Some (formatTemp
              (js_or (opt_index0 (series data "daily" "temperature_2m_min"))
                     (VStr "N/A"))) /\
         path ["forecast"] v = Some (VArr forecast) /\
         Forall2 (fun p day => forecastDay (snd p) (fst p) = Ret day)
                 (combine
                    (seq 0 (List.length
                              (forecast_source (series data "daily" "wave_height_max"))))
                    (forecast_source (series data "daily" "wave_height_max")))
                 forecast).
Proof.
  intros Hnet. unfold getOceanWeather. cbn [default_arg].
  apply returns_try_catch;
    [|intros _; eapply returns_weaken; [apply fallback_not_live|];
      intros v H Hl; contradiction].
  unfold axios_get. rewrite Hnet. cbn [bind].
  destruct (truthy data) eqn:Hd; cbn [negb];
    [|apply returns_if_returns; eapply returns_weaken; [apply fallback_not_live|];
      intros v H Hl; contradiction].
  rewrite !(get_prop data) by (apply truthy_not_nullish; exact Hd). cbn [bind].
  rewrite !get_prop by apply js_or_object_not_nullish. cbn [bind].
  destruct (getLocationName_number lat lon) as [s ->]. cbn [bind].
  fold (series data "hourly" "wave_height") (series data "hourly" "wave_period")
       (series data "hourly" "wind_wave_height")
       (series data "daily" "temperature_2m_max")
       (series data "daily" "temperature_2m_min")
       (series data "daily" "wave_height_max").
  may_throw waveHeight. may_throw wavePeriod. may_throw windWaveHeight.
  may_throw described.
  eapply if_returns_bind; [apply forecast_of_series|].
  intros v [forecast [-> Hf]]. cbn [if_returns]. intros _.
  exists waveHeight, wavePeriod, windWaveHeight, forecast.
  repeat (split; [reflexivity|]). exact Hf.
Qed.

(** A property of the values and of the days mapped from them, read off
    the indexed mapping. *)
Lemma indexed_Forall2 {B} (R' : nat * value -> B -> Prop) (R : value -> B -> Prop)
    (l : list value) :
  (forall i x y, R' (i, x) y -> R x y) ->
  forall start out,
    Forall2 R' (combine (seq start (List.length l)) l) out -> Forall2 R l out.
Proof.
  intros HR. induction l as [|x l IH]; intros start out H; simpl in H.
  - inversion H. constructor.
  - inversion H as [|p y ps ys Hp Hps]; subst. constructor.
    + exact (HR _ _ _ Hp).
    + exact (IH _ _ Hps).
Qed.

Lemma polygon_defined (minLat maxLat minLon maxLon : value) (geometry : string)
    (k : string -> completion value) :
  polygon minLat maxLat minLon maxLon = Ret geometry ->
  (geometry' <- polygon minLat maxLat minLon maxLon ;; k geometry') = k geometry.
Proof. intros ->. reflexivity. Qed.

(** On the live path of the area query the records carry the latitude
    and longitude of the upstream records as they are. *)
Lemma getObservationsByArea_live (net : network)
    (minLat maxLat minLon maxLon data : value) (geometry : string)
    (results : list value) :
  polygon minLat maxLat minLon maxLon = Ret geometry ->
  net (OccurrenceIn geometry) = Responds data ->
  truthy data = true ->
  prop data "results" = VArr results ->
  Forall (fun obs => nullish obs = false) results ->
  returns (getObservationsByArea net minLat maxLat minLon maxLon)
    (fun v => exists out,
       v = VArr out /\
       Forall2 (fun obs rec =>
                  field "lat" rec = Some (prop obs "decimalLatitude") /\
                  field "lon" rec = Some (prop obs "decimalLongitude"))
               results out).
Proof.
  intros Hg Hnet Hd Hr Hall. unfold getObservationsByArea.
  rewrite (polygon_defined _ _ _ _ _ _ Hg). unfold axios_get. rewrite Hnet.
  cbn [bind]. rewrite Hd. cbn [negb].
  rewrite (get_prop data) by (apply truthy_not_nullish; exact Hd).
  rewrite Hr. cbn [bind truthy negb js_map].
  rewrite (mapM_total _ (fun obs =>
             VObj [("species", js_or (prop obs "scientificName") (VStr "Unknown"));
                   ("lat", prop obs "decimalLatitude");
                   ("lon", prop obs "decimalLongitude")])).
  - cbn [bind try_catch returns]. eexists. split; [reflexivity|].
    clear. induction results; simpl; constructor; auto.
  - intros obs Hin. rewrite Forall_forall in Hall.
    rewrite !(get_prop obs) by (apply Hall; exact Hin). reflexivity.
Qed.

(** C3 (as amended): on the live path of [getOceanWeather] (the snapshot
    that names the service as its source, not the fallback) a wave value
    that is a number below 10^21 in magnitude is rendered as text with two
    decimal places and an absent current wave value as "0.00"; a
    temperature that is such a number other than 0 is rendered as text
    with one decimal place and an absent temperature as "N/A"; the area
    query passes latitude and longitude on as they came. *)
Theorem C3_number_formatting :
  (forall (net : network) (lat lon : number) (data : value),
     net (Marine (VNum lat) (VNum lon)) = Responds data ->
     returns (getOceanWeather net (VNum lat) (VNum lon))
       (fun v =>
          live v ->
          wave_text (opt_index0 (series data "hourly" "wave_height"))
                    (path ["current"; "waveHeight"] v) /\
          wave_text (opt_index0 (series data "hourly" "wave_period"))
                    (path ["current"; "wavePeriod"] v) /\
          wave_text (opt_index0 (series data "hourly" "wind_wave_height"))
                    (path ["current"; "windWaveHeight"] v) /\
          temperature_text (opt_index0 (series data "daily" "temperature_2m_max"))
                           (path ["daily"; "maxTemp"] v) /\
          temperature_text (opt_index0 (series data "daily" "temperature_2m_min"))
                           (path ["daily"; "minTemp"] v) /\
          exists forecast,
            path ["forecast"] v = Some (VArr forecast) /\
            Forall2 (fun height day =>
                       forall q, height = VNum (Fin q) -> small q = true ->
                       exists text,
                         field "waveHeight" day = Some (VStr text) /\
                         is_fixed_decimal 2 text = true)
                    (forecast_source (series data "daily" "wave_height_max"))
                    forecast)) /\
  (forall (net : network) (minLat maxLat minLon maxLon data : value)
          (geometry : string) (results : list value),
     polygon minLat maxLat minLon maxLon = Ret geometry ->
     net (OccurrenceIn geometry) = Responds data ->
     truthy data = true ->
     prop data "results" = VArr results ->
     Forall (fun obs => nullish obs = false) results ->
     returns (getObservationsByArea net minLat maxLat minLon maxLon)
       (fun v => exists out,
          v = VArr out /\
          Forall2 (fun obs rec =>
                     field "lat" rec = Some (prop obs "decimalLatitude") /\
                     field "lon" rec = Some (prop obs "decimalLongitude"))
                  results out)).
Proof.
  split; [|exact getObservationsByArea_live].
  intros net lat lon data Hnet.
  eapply returns_weaken; [exact (getOceanWeather_live _ _ _ _ Hnet)|].
  intros v H Hl.
  destruct (H Hl) as (waveHeight & wavePeriod & windWaveHeight & forecast
                      & E1 & E2 & E3 & H1 & H2 & H3 & H4 & H5 & H6 & H7).
  rewrite H1, H2, H3, H4, H5.
  repeat (split; [first [apply wave_value_text; assumption
                        | apply temperature_value_text]|]).
  exists forecast. split; [exact H6|].
  eapply indexed_Forall2; [|exact H7].
  intros i height day Hday q -> Hq. cbn [fst snd] in Hday.
  destruct (forecastDay_inv _ _ _ Hday) as [n [Hn ->]].
  cbn [parseFloat] in Hn. injection Hn as <-.
  eexists. split; [reflexivity|].
  apply toFixed_fixed_decimal; [exact Hq | discriminate].
Qed.

Lemma C3_witness :
  returns (getOceanWeather marine_sample (VNum (dec 375 1)) (VNum (dec (-1224) 1)))
    (fun v =>
       wave_text (VNum (dec 125 2)) (path ["current"; "waveHeight"] v) /\
       wave_text VUndef (path ["current"; "wavePeriod"] v) /\
       temperature_text (VNum (dec 155 1)) (path ["daily"; "maxTemp"] v) /\
       temperature_text VUndef (path ["daily"; "minTemp"] v)) /\
  returns (getObservationsByArea
             (fun _ => Responds (VObj [("results",
                VArr [VObj [("scientificName", VStr "Chelonia mydas");
                            ("decimalLatitude", VNum (dec 255 1));
                            ("decimalLongitude", VNum (dec (-802) 1))]])]))
             (VNum (num 20)) (VNum (num 30)) (VNum (num (-90))) (VNum (num (-70))))
    (fun v => exists out,
       v = VArr out /\
       Forall2 (fun obs rec =>
                  field "lat" rec = Some (prop obs "decimalLatitude") /\
                  field "lon" rec = Some (prop obs "decimalLongitude"))
               [VObj [("scientificName", VStr "Chelonia mydas");
                      ("decimalLatitude", VNum (dec 255 1));
                      ("decimalLongitude", VNum (dec (-802) 1))]] out).
Proof.
  split.
  - pose proof (proj1 C3_number_formatting marine_sample (dec 375 1) (dec (-1224) 1)
                  (marine_body [VNum (dec 125 2)] [] [] [VNum (dec 155 1)] [] [])
                  eq_refl) as H.
    destruct (getOceanWeather marine_sample (VNum (dec 375 1)) (VNum (dec (-1224) 1)))
      as [v|e] eqn:E; [|exact H].
    assert (Hl : live v) by (vm_compute in E; injection E as <-; reflexivity).
    destruct (H Hl) as (H1 & H2 & _ & H4 & H5 & _).
    repeat split; apply H1 || apply H2 || apply H4 || apply H5.
  - apply (proj2 C3_number_formatting
             (fun _ => Responds (VObj [("results",
                VArr [VObj [("scientificName", VStr "Chelonia mydas");
                            ("decimalLatitude", VNum (dec 255 1));
                            ("decimalLongitude", VNum (dec (-802) 1))]])]))
             (VNum (num 20)) (VNum (num 30)) (VNum (num (-90))) (VNum (num (-70)))
             (VObj [("results",
                VArr [VObj [("scientificName", VStr "Chelonia mydas");
                            ("decimalLatitude", VNum (dec 255 1));
                            ("decimalLongitude", VNum (dec (-802) 1))]])])
             "POLYGON((-90 20,-70 20,-70 30,-90 30,-90 20))").
    + vm_compute. reflexivity.
    + reflexivity.
    + reflexivity.
    + reflexivity.
    + repeat constructor.
Defined.

(** C3 as stated fails: a maximum temperature of 15.5 degrees is rendered
    with one decimal place, as "15.5". *)
Lemma C3_counterexample :
  ~ returns (getOceanWeather marine_sample (VNum (dec 375 1)) (VNum (dec (-1224) 1)))
      (fun v => exists text,
         path ["daily"; "maxTemp"] v = Some (VStr text) /\
         is_fixed_decimal 2 text = true).
Proof.
  intros H. vm_compute in H. destruct H as [text [E F]].
  injection E as <-. vm_compute in F. discriminate F.
Qed.

(** In the same answer the absent wave period is rendered as "0.00" and
    the absent minimum temperature as "N/A". *)
Example marine_sample_texts :
  returns (getOceanWeather marine_sample (VNum (dec 375 1)) (VNum (dec (-1224) 1)))
    (fun v => path ["current"; "waveHeight"] v = Some (VStr "1.25") /\
              path ["current"; "wavePeriod"] v = Some (VStr "0.00") /\
              path ["daily"; "maxTemp"] v = Some (VStr "15.5") /\
              path ["daily"; "minTemp"] v = Some (VStr "N/A")).
Proof. vm_compute. repeat split. Qed.

(** * Further properties of the adapters *)

(** ** When [getOceanWeather] throws *)

Lemma default_arg_defined (v d : value) : v <> VUndef -> default_arg v d = v.
Proof. destruct v; simpl; congruence. Qed.

Lemma latitude_of_defined (lat : value) : latitude_of lat <> VUndef.
Proof. destruct lat; discriminate. Qed.

Lemma longitude_of_defined (lon : value) : longitude_of lon <> VUndef.
Proof. destruct lon; discriminate. Qed.

Lemma getDefaultOceanWeather_cases (la lo : value) :
  la <> VUndef -> lo <> VUndef ->
  match getLocationName la lo with
  | Ret _ => returns (getDefaultOceanWeather la lo) (is_snapshot la lo)
  | Throw e => getDefaultOceanWeather la lo = Throw e
  end.
Proof.
  intros Ha Ho. unfold getDefaultOceanWeather. cbv zeta.
  rewrite (default_arg_defined la _ Ha), (default_arg_defined lo _ Ho).
  destruct (getLocationName la lo) as [s|e]; [|reflexivity].
  cbn [bind returns]. unfold is_snapshot. do 5 eexists. split; [reflexivity|].
  repeat split; try reflexivity. eexists. reflexivity.
Qed.

(** [getOceanWeather] follows [getLocationName]: it returns a snapshot
    when the name is found, and throws the error of [getLocationName]
    otherwise, since its [catch] block asks for the name again. *)
Lemma getOceanWeather_cases (net : network) (lat lon : value) :
  match getLocationName (latitude_of lat) (longitude_of lon) with
  | Ret _ =>
      returns (getOceanWeather net lat lon)
              (is_snapshot (latitude_of lat) (longitude_of lon))
  | Throw e => getOceanWeather net lat lon = Throw e
  end.
Proof.
  unfold getOceanWeather. cbv zeta.
  fold (latitude_of lat) (longitude_of lon).
  set (la := latitude_of lat). set (lo := longitude_of lon).
  pose proof (getDefaultOceanWeather_cases la lo
                (latitude_of_defined lat) (longitude_of_defined lon)) as Hdef.
  unfold axios_get.
  destruct (getLocationName la lo) as [s|e] eqn:E.
  - apply returns_try_catch; [|intros _; exact Hdef].
    destruct (net _) as [m|data]; [exact I|]. cbn [bind].
    destruct (truthy data) eqn:Hd; cbn [negb];
      [|apply returns_if_returns; exact Hdef].
    rewrite !(get_prop data) by (apply truthy_not_nullish; exact Hd). cbn [bind].
    rewrite !get_prop by apply js_or_object_not_nullish. cbn [bind].
    may_throw waveHeight. may_throw wavePeriod. may_throw windWaveHeight.
    may_throw described.
    eapply if_returns_bind; [apply forecast_days|].
    intros v [forecast [-> Hf]]. cbn [if_returns].
    unfold is_snapshot. do 5 eexists.
    refine (conj eq_refl (conj _ (conj _ (conj _ Hf)))).
    + reflexivity.
    + eexists. reflexivity.
    + unfold formatTemp.
      repeat match goal with
             | |- context [match ?x with VNum _ => _ | _ => _ end] => destruct x
             end; reflexivity.
  - rewrite Hdef.
    destruct (net _) as [m|data]; [reflexivity|]. cbn [bind].
    destruct (truthy data) eqn:Hd; cbn [negb]; [|reflexivity].
    rewrite !(get_prop data) by (apply truthy_not_nullish; exact Hd). cbn [bind].
    rewrite !get_prop by apply js_or_object_not_nullish. reflexivity.
Qed.

(** A comparison that throws has an operand without a number, which
    lies within no bounds. *)
Lemma number_of_throw (v : value) (e : exn) :
  to_number v = Throw e -> number_of v = NaN /\ typeof_number v = false.
Proof.
  unfold number_of. intros H. rewrite H. split; [reflexivity|].
  destruct v; try reflexivity. discriminate H.
Qed.

Lemma NaN_not_ge (b : number) : num_ge NaN b = false.
Proof. destruct b; reflexivity. Qed.

Lemma not_within_latitude (lat lon : value) (r : region) :
  number_of lat = NaN -> within lat lon r = false.
Proof. unfold within. intros ->. now rewrite NaN_not_ge. Qed.

Lemma not_within_longitude (lat lon : value) (r : region) :
  number_of lon = NaN -> within lat lon r = false.
Proof.
  unfold within. intros ->. now rewrite NaN_not_ge, andb_false_r.
Qed.

Lemma find_none_within (lat lon : value) (rs : list region) :
  (forall r, within lat lon r = false) -> find (within lat lon) rs = None.
Proof.
  intros H. induction rs as [|r rs IH]; [reflexivity|].
  cbn [find]. now rewrite H.
Qed.

(** The test of the loop gives what the bounds say, or throws on an
    operand without a number. *)
Lemma in_region_cases (lat lon : value) (r : region) :
  match in_region lat lon r with
  | Ret inside => inside = within lat lon r
  | Throw _ =>
      (number_of lat = NaN /\ typeof_number lat = false) \/
      (number_of lon = NaN /\ typeof_number lon = false)
  end.
Proof.
  unfold in_region, within, and_then, ge, le.
  pose proof (number_of_throw lat) as Ha. unfold number_of in *.
  destruct (to_number lat) as [a|ea]; cbn [bind]; [clear Ha|left; eauto].
  destruct (num_ge a (minLat r)); [|reflexivity].
  destruct (num_le a (maxLat r)); [|reflexivity].
  pose proof (number_of_throw lon) as Hb. unfold number_of in *.
  destruct (to_number lon) as [b|eb]; cbn [bind]; [clear Hb|right; eauto].
  destruct (num_ge b (minLon r)); reflexivity.
Qed.

(** The loop finds the first region within whose bounds the point lies,
    or throws, and then the point lies within no bounds. *)
Lemma first_region_cases (lat lon : value) (rs : list region) :
  match first_region lat lon rs with
  | Ret found => found = find (within lat lon) rs
  | Throw _ =>
      find (within lat lon) rs = None /\
      (typeof_number lat = false \/ typeof_number lon = false)
  end.
Proof.
  induction rs as [|r rs IH]; [reflexivity|].
  cbn [first_region find].
  pose proof (in_region_cases lat lon r) as Hr.
  destruct (in_region lat lon r) as [inside|e]; cbn [bind].
  - subst inside. destruct (within lat lon r); [reflexivity | exact IH].
  - assert (Hnone : forall r', within lat lon r' = false).
    { intros r'. destruct Hr as [[Hn _]|[Hn _]];
        [apply not_within_latitude | apply not_within_longitude]; exact Hn. }
    rewrite Hnone. split; [apply find_none_within; exact Hnone|].
    destruct Hr as [[_ H]|[_ H]]; auto.
Qed.

Lemma getLocationName_throws_iff (lat lon : value) :
  (exists e, getLocationName lat lon = Throw e) <->
  find (within lat lon) regions = None /\
  (typeof_number lat = false \/ typeof_number lon = false).
Proof.
  unfold getLocationName.
  pose proof (first_region_cases lat lon regions) as H.
  destruct (first_region lat lon regions) as [found|e]; cbn [bind].
  - subst found. destruct (find _ _) as [r|].
    + split; [intros [e H]; discriminate | intros [H _]; discriminate].
    + split.
      * intros [e H]. split; [reflexivity|].
        destruct lat; auto; destruct lon; auto; discriminate.
      * intros [_ [H|H]].
        -- destruct lat; try discriminate; simpl; eauto.
        -- destruct lat; simpl; eauto; destruct lon; try discriminate; simpl; eauto.
  - split; [intros _; exact H | eauto].
Qed.

(** X1: its [try]/[catch] notwithstanding, [getOceanWeather] throws to its
    caller exactly when the point lies in none of the regions and one of the
    coordinates is not a number: [getLocationName] then fails on [toFixed],
    in the [try] block and again in the [catch] block. *)
Theorem getOceanWeather_throws_iff (net : network) (lat lon : value) :
  (exists e, getOceanWeather net lat lon = Throw e) <->
  find (within (latitude_of lat) (longitude_of lon)) regions = None /\
  (typeof_number (latitude_of lat) = false \/
   typeof_number (longitude_of lon) = false).
Proof.
  rewrite <- getLocationName_throws_iff.
  pose proof (getOceanWeather_cases net lat lon) as H.
  destruct (getLocationName (latitude_of lat) (longitude_of lon)) as [s|e].
  - split; intros [e E]; [|discriminate].
    rewrite E in H. contradiction.
  - split; intros _; eauto.
Qed.

(** Coordinates given as text: inside a region they are accepted, outside
    the call throws. *)
Example getOceanWeather_text_coordinates :
  (exists v, getOceanWeather offline (VStr "40.7") (VStr "-74.0") = Ret v) /\
  (exists e, getOceanWeather offline (VStr "37.5") (VStr "-122.4") = Throw (TypeError e)).
Proof. split; eexists; vm_compute; reflexivity. Qed.

(** ** The forecast of the live path *)

Lemma indexed_Forall2_nth {B} (R : nat * value -> B -> Prop) (l : list value) :
  forall start out,
    Forall2 R (combine (seq start (List.length l)) l) out ->
    List.length out = List.length l /\
    forall i h, nth_error l i = Some h ->
                exists y, nth_error out i = Some y /\ R ((start + i)%nat, h) y.
Proof.
  induction l as [|x l IH]; intros start out H; simpl in H.
  - inversion H. split; [reflexivity|]. intros [|i] h E; discriminate.
  - inversion H as [|p y ps ys Hp Hps]; subst.
    destruct (IH _ _ Hps) as [Hlen Hnth]. split; [simpl; now rewrite Hlen|].
    intros [|i] h E; simpl in E.
    + injection E as <-. exists y. rewrite Nat.add_0_r. auto.
    + destruct (Hnth i h E) as [y' [E' Hy']]. exists y'.
      rewrite Nat.add_succ_r. auto.
Qed.

Lemma forecast_source_short (wave_height_max : value) :
  (List.length (forecast_source wave_height_max) <= 7)%nat.
Proof.
  destruct wave_height_max; cbn [forecast_source List.length]; try lia.
  apply firstn_le_length.
Qed.

(** X2: on the live path of [getOceanWeather] the forecast has one entry
    for each of the first seven values of the daily series, in their
    order: entry [i] is day [i] with the text of the number that
    [parseFloat] reads from the [i]-th value. *)
Theorem getOceanWeather_forecast_days
    (net : network) (lat lon : number) (data : value) :
  net (Marine (VNum lat) (VNum lon)) = Responds data ->
  returns (getOceanWeather net (VNum lat) (VNum lon))
    (fun v =>
       live v ->
       exists forecast,
         path ["forecast"] v = Some (VArr forecast) /\
         List.length forecast
         = List.length (forecast_source (series data "daily" "wave_height_max")) /\
         (List.length forecast <= 7)%nat /\
         forall i height,
           nth_error (forecast_source (series data "daily" "wave_height_max")) i
           = Some height ->
           exists n,
             parseFloat height = Ret n /\
             nth_error forecast i
             = Some (VObj [("day", VNum (num (Z.of_nat i)));
                           ("waveHeight", VStr (toFixed 2 n))])).
Proof.
  intros Hnet.
  eapply returns_weaken; [exact (getOceanWeather_live _ _ _ _ Hnet)|].
  intros v H Hl.
  destruct (H Hl) as (_ & _ & _ & forecast & _ & _ & _ & _ & _ & _ & _ & _ & H6 & H7).
  destruct (indexed_Forall2_nth _ _ _ _ H7) as [Hlen Hnth].
  exists forecast. split; [exact H6|]. split; [exact Hlen|]. split.
  - rewrite Hlen. apply forecast_source_short.
  - intros i height E. destruct (Hnth i height E) as [day [Eday Hday]].
    cbn [fst snd Nat.add] in Hday.
    destruct (forecastDay_inv _ _ _ Hday) as [n [Hn ->]]. eauto.
Qed.

Lemma getOceanWeather_forecast_days_witness :
  returns (getOceanWeather
             (fun _ => Responds (marine_body [] [] [] [] []
                                   [VNum (dec 12 1); VStr "1.805"]))
             (VNum (num 10)) (VNum (num 20)))
    (fun v => exists forecast,
       path ["forecast"] v = Some (VArr forecast) /\
       List.length forecast = 2%nat /\
       nth_error forecast 1
       = Some (VObj [("day", VNum (num 1)); ("waveHeight", VStr "1.80")])).
Proof.
  pose proof (getOceanWeather_forecast_days
                (fun _ => Responds (marine_body [] [] [] [] []
                                      [VNum (dec 12 1); VStr "1.805"]))
                (num 10) (num 20)
                (marine_body [] [] [] [] [] [VNum (dec 12 1); VStr "1.805"])
                eq_refl) as H.
  destruct (getOceanWeather _ _ _) as [v|e] eqn:E; [|exact H].
  assert (Hl : live v) by (vm_compute in E; injection E as <-; reflexivity).
  destruct (H Hl) as (forecast & H1 & H2 & _ & H4).
  exists forecast. split; [exact H1|]. split; [exact H2|].
  destruct (H4 1%nat (VStr "1.805") eq_refl) as [n [Hn ->]].
  vm_compute in Hn. injection Hn as <-. vm_compute. reflexivity.
Defined.

(** ** When the answer is the live one *)

Lemma has_text_number (v : value) : has_text v = true -> exists n, to_number v = Ret n.
Proof.
  unfold has_text, to_number.
  destruct v as [| | b | n | s | items | fields]; try (intros _; eexists; reflexivity);
    (destruct (to_text _) as [text|e]; [cbn [bind]; eauto | discriminate]).
Qed.

Lemma getWaveCondition_returns (height : value) :
  has_text height = true -> exists described, getWaveCondition height = Ret described.
Proof.
  intros H. destruct (has_text_number height H) as [n E].
  unfold getWaveCondition, lt. rewrite E. cbn [bind].
  repeat match goal with
         | |- context [if ?c then _ else _] => destruct c; cbn [bind]
         end; eauto.
Qed.

(** The days are mapped when every value has a text, and the mapping
    throws otherwise. *)
Lemma forecast_days_cases (l : list value) :
  forall start,
    match mapM (fun p : nat * value => forecastDay (snd p) (fst p))
               (combine (seq start (List.length l)) l) with
    | Ret _ => Forall (fun height => has_text height = true) l
    | Throw _ => ~ Forall (fun height => has_text height = true) l
    end.
Proof.
  induction l as [|h l IH]; intros start; [constructor|].
  cbn [List.length seq combine mapM fst snd]. unfold forecastDay at 1.
  destruct (parseFloat_cases h) as [[Ht [n E]] | [Ht E]]; rewrite E; cbn [bind].
  - specialize (IH (S start)).
    destruct (mapM _ _) as [days|e]; cbn [bind].
    + constructor; assumption.
    + intros H. inversion H; subst. contradiction.
  - intros H. inversion H; subst. congruence.
Qed.

(** X25: with a body in hand, [getOceanWeather] answers from it, and not
    from the fallback, exactly when the three latest hourly values have a
    text and the forecast can be made: the daily series of wave heights is
    absent, or is an array of which the first seven values have a text. *)
Theorem getOceanWeather_live_iff
    (net : network) (lat lon : number) (data : value) :
  net (Marine (VNum lat) (VNum lon)) = Responds data ->
  returns (getOceanWeather net (VNum lat) (VNum lon))
    (fun v =>
       live v <->
       truthy data = true /\
       has_text (latest data "wave_height") = true /\
       has_text (latest data "wave_period") = true /\
       has_text (latest data "wind_wave_height") = true /\
       forecast_readable (series data "daily" "wave_height_max")).
Proof.
  intros Hnet.
  assert (Hfallback : forall P : Prop, ~ P ->
            returns (getDefaultOceanWeather (VNum lat) (VNum lon))
                    (fun v => live v <-> P)).
  { intros P HP. eapply returns_weaken; [apply fallback_not_live|].
    intros v Hv. cbv beta in Hv. tauto. }
  unfold getOceanWeather. cbn [default_arg].
  unfold axios_get. rewrite Hnet. cbn [bind].
  destruct (truthy data) eqn:Hd; cbn [negb];
    [|rewrite try_catch_same; apply Hfallback; intros [H _]; discriminate H].
  rewrite !(get_prop data) by (apply truthy_not_nullish; exact Hd). cbn [bind].
  rewrite !get_prop by apply js_or_object_not_nullish. cbn [bind].
  destruct (getLocationName_number lat lon) as [s ->]. cbn [bind].
  fold (series data "hourly" "wave_height") (series data "hourly" "wave_period")
       (series data "hourly" "wind_wave_height")
       (series data "daily" "wave_height_max").
  fold (latest data "wave_height") (latest data "wave_period")
       (latest data "wind_wave_height").
  destruct (parseFloat_cases (latest data "wave_height"))
    as [[H1 [waveHeight E1]] | [H1 E1]]; rewrite E1; cbn [bind try_catch];
    [|apply Hfallback; intros (_ & H & _); congruence].
  destruct (parseFloat_cases (latest data "wave_period"))
    as [[H2 [wavePeriod E2]] | [H2 E2]]; rewrite E2; cbn [bind try_catch];
    [|apply Hfallback; intros (_ & _ & H & _); congruence].
  destruct (parseFloat_cases (latest data "wind_wave_height"))
    as [[H3 [windWaveHeight E3]] | [H3 E3]]; rewrite E3; cbn [bind try_catch];
    [|apply Hfallback; intros (_ & _ & _ & H & _); congruence].
  destruct (getWaveCondition_returns _ H1) as [described ->]. cbn [bind].
  destruct (truthy (series data "daily" "wave_height_max")) eqn:Ht.
  - destruct (series data "daily" "wave_height_max")
      as [| | b | n | t | items | fields];
      try discriminate Ht;
      cbn [slice0 js_map_idx bind try_catch];
      try (apply Hfallback; intros (_ & _ & _ & _ & [H | [days [H _]]]);
           [congruence | discriminate H]).
    pose proof (forecast_days_cases (firstn 7 items) 0) as Hdays.
    destruct (mapM _ _) as [days|e]; cbn [bind try_catch].
    + cbn [returns]. cbv beta. split; [intros _|reflexivity].
      repeat (split; [first [reflexivity | assumption]|]). right. eauto.
    + apply Hfallback. intros (_ & _ & _ & _ & [H | [days [H Hall]]]);
        [discriminate H|].
      injection H as <-. contradiction.
  - cbn [bind try_catch returns]. cbv beta. split; [intros _|reflexivity].
    repeat (split; [first [reflexivity | assumption]|]). left. exact Ht.
Qed.

Lemma getOceanWeather_live_iff_witness :
  returns (getOceanWeather
             (fun _ => Responds (marine_body [VObj [("toString", VNum (num 1))]] [] []
                                   [] [] []))
             (VNum (num 10)) (VNum (num 20)))
    (fun v => ~ live v) /\
  returns (getOceanWeather marine_sample (VNum (num 10)) (VNum (num 20))) live.
Proof.
  split.
  - eapply returns_weaken.
    + apply (getOceanWeather_live_iff
               (fun _ => Responds (marine_body [VObj [("toString", VNum (num 1))]] [] []
                                     [] [] []))
               (num 10) (num 20)
               (marine_body [VObj [("toString", VNum (num 1))]] [] [] [] [] [])).
      reflexivity.
    + intros v H Hl. apply H in Hl. destruct Hl as (_ & Ht & _). discriminate Ht.
  - eapply returns_weaken.
    + apply (getOceanWeather_live_iff marine_sample (num 10) (num 20)
               (marine_body [VNum (dec 125 2)] [] [] [VNum (dec 155 1)] [] [])).
      reflexivity.
    + intros v H. apply H. repeat split; try reflexivity.
      right. exists []. split; [reflexivity | constructor].
Defined.

(** X3: when the daily series of the forecast is there but is not an array
    (a number, a text, an object), the mapping throws and the whole live
    answer is given up for the fallback snapshot. *)
Theorem getOceanWeather_unreadable_forecast
    (net : network) (lat lon : number) (data : value) :
  net (Marine (VNum lat) (VNum lon)) = Responds data ->
  truthy data = true ->
  truthy (series data "daily" "wave_height_max") = true ->
  (forall days, series data "daily" "wave_height_max" <> VArr days) ->
  getOceanWeather net (VNum lat) (VNum lon)
  = getDefaultOceanWeather (VNum lat) (VNum lon).
Proof.
  intros Hnet Hd Ht Hna. unfold getOceanWeather. cbn [default_arg].
  unfold axios_get. rewrite Hnet. cbn [bind]. rewrite Hd. cbn [negb].
  rewrite !(get_prop data) by (apply truthy_not_nullish; exact Hd). cbn [bind].
  rewrite !get_prop by apply js_or_object_not_nullish. cbn [bind].
  destruct (getLocationName_number lat lon) as [s ->]. cbn [bind].
  fold (series data "daily" "wave_height_max"). rewrite Ht.
  repeat match goal with
         | |- context [bind (parseFloat ?x) _] =>
             destruct (parseFloat x); [cbn [bind] | reflexivity]
         end.
  destruct (getWaveCondition _); [cbn [bind] | reflexivity].
  destruct (series data "daily" "wave_height_max") as [| | b | n | t | items | fs];
    try discriminate; try reflexivity.
  exfalso. exact (Hna items eq_refl).
Qed.

Lemma getOceanWeather_unreadable_forecast_witness :
  getOceanWeather
    (fun _ => Responds (VObj [("daily", VObj [("wave_height_max", VNum (dec 25 1))])]))
    (VNum (num 10)) (VNum (num 20))
  = getDefaultOceanWeather (VNum (num 10)) (VNum (num 20)).
Proof.
  apply (getOceanWeather_unreadable_forecast
           (fun _ => Responds (VObj [("daily", VObj [("wave_height_max", VNum (dec 25 1))])]))
           (num 10) (num 20)
           (VObj [("daily", VObj [("wave_height_max", VNum (dec 25 1))])])).
  - reflexivity.
  - reflexivity.
  - reflexivity.
  - intros days. discriminate.
Defined.

(** ** Conditions *)

Lemma num_lt_le_trans (a b k : number) :
  num_le a b = true -> num_lt b k = true -> num_lt a k = true.
Proof.
  destruct a as [| | |x], b as [| | |y], k as [| | |z]; simpl;
    try discriminate; try reflexivity.
  intros H1 H2. apply Qle_bool_iff in H1.
  destruct (Qle_bool z y) eqn:E1; [discriminate|].
  destruct (Qle_bool z x) eqn:E2; [|reflexivity].
  apply Qle_bool_iff in E2.
  assert (E : Qle_bool z y = true) by (apply Qle_bool_iff; eapply Qle_trans; eauto).
  congruence.
Qed.

(** X4: the descriptions grow with the measure: a higher wave never gets
    a calmer condition, a higher temperature never a colder one. *)
Theorem conditions_are_monotone (a b : number) :
  num_le a b = true ->
  (exists wave_a wave_b,
     getWaveCondition (VNum a) = Ret wave_a /\
     getWaveCondition (VNum b) = Ret wave_b /\
     (severity wave_a <= severity wave_b)%nat) /\
  (exists temperature_a temperature_b,
     getTemperatureCondition (VNum a) = Ret temperature_a /\
     getTemperatureCondition (VNum b) = Ret temperature_b /\
     (warmth temperature_a <= warmth temperature_b)%nat).
Proof.
  intros H. unfold getWaveCondition, getTemperatureCondition, lt.
  cbn [to_number bind].
  split.
  - repeat match goal with
           | |- context [num_lt b ?k] =>
               let E := fresh "E" in
               destruct (num_lt b k) eqn:E;
               [rewrite ?(num_lt_le_trans a b k H E)|]; cbv beta iota
           end;
    repeat match goal with
           | |- context [num_lt a ?k] => destruct (num_lt a k); cbv beta iota
           end;
    do 2 eexists; (split; [reflexivity|]); (split; [reflexivity|]);
    vm_compute; lia.
  - repeat match goal with
           | |- context [num_lt b ?k] =>
               let E := fresh "E" in
               destruct (num_lt b k) eqn:E;
               [rewrite ?(num_lt_le_trans a b k H E)|]; cbv beta iota
           end;
    repeat match goal with
           | |- context [num_lt a ?k] => destruct (num_lt a k); cbv beta iota
           end;
    do 2 eexists; (split; [reflexivity|]); (split; [reflexivity|]);
    vm_compute; lia.
Qed.

Lemma conditions_are_monotone_witness :
  (exists wave_a wave_b,
     getWaveCondition (VNum (dec 15 1)) = Ret wave_a /\
     getWaveCondition (VNum (dec 45 1)) = Ret wave_b /\
     (severity wave_a <= severity wave_b)%nat) /\
  (exists temperature_a temperature_b,
     getTemperatureCondition (VNum (dec 15 1)) = Ret temperature_a /\
     getTemperatureCondition (VNum (dec 45 1)) = Ret temperature_b /\
     (warmth temperature_a <= warmth temperature_b)%nat).
Proof.
  apply (conditions_are_monotone (dec 15 1) (dec 45 1)). reflexivity.
Defined.

(** ** Water temperature *)

Lemma getDefaultTemperatureData_location (lat lon : number) :
  returns (getDefaultTemperatureData (VNum lat) (VNum lon))
    (fun v => path ["location"; "latitude"] v = Some (VNum lat) /\
              path ["location"; "longitude"] v = Some (VNum lon)).
Proof.
  unfold getDefaultTemperatureData. cbn [default_arg].
  destruct (getLocationName_number lat lon) as [s ->]. split; reflexivity.
Qed.

(** X5: [getWaterTemperature] returns, whatever the upstream service does,
    a snapshot whose [location] holds the requested coordinates. *)
Theorem getWaterTemperature_location (net : network) (lat lon : number) :
  returns (getWaterTemperature net (VNum lat) (VNum lon))
    (fun v => path ["location"; "latitude"] v = Some (VNum lat) /\
              path ["location"; "longitude"] v = Some (VNum lon)).
Proof.
  unfold getWaterTemperature. cbn [default_arg].
  apply returns_try_catch;
    [|intros _; apply getDefaultTemperatureData_location].
  answer data.
  destruct (truthy data) eqn:Hd; cbn [negb];
    [|apply returns_if_returns, getDefaultTemperatureData_location].
  rewrite !(get_prop data) by (apply truthy_not_nullish; exact Hd). cbn [bind].
  destruct (getLocationName_number lat lon) as [s ->]. cbn [bind].
  rewrite !get_prop by apply js_or_object_not_nullish. cbn [bind].
  may_throw described. split; reflexivity.
Qed.

Lemma cold_zero (q : Q) :
  (q == 0)%Q -> getTemperatureCondition (VNum (Fin q)) = Ret "Very Cold".
Proof.
  intros Hq. unfold getTemperatureCondition, lt. cbn [to_number bind num_lt num].
  destruct (Qle_bool (inject_Z 5) q) eqn:E; [|reflexivity].
  apply Qle_bool_iff in E. rewrite Hq in E. unfold Qle in E. simpl in E. lia.
Qed.

(** A temperature for which the description throws is neither a number
    nor [null] or [undefined]. *)
Lemma getTemperatureCondition_throws (temp : value) (e : exn) :
  getTemperatureCondition temp = Throw e ->
  typeof_number temp = false /\ nullish temp = false.
Proof.
  unfold getTemperatureCondition, lt.
  destruct temp as [| | b | n | s | items | fields]; cbn [to_number bind];
    try (intros _; split; reflexivity);
    repeat match goal with
           | |- context [if ?c then _ else _] => destruct c; cbn [bind]
           end; discriminate.
Qed.

(** X6: on the live path of [getWaterTemperature] the current temperature
    is passed on as the raw number when it is not 0; a temperature that is
    missing reads "N/A" with the condition "Very Warm", and one that is
    [null] or 0 reads "N/A" with the condition "Very Cold". *)
Theorem getWaterTemperature_reading
    (net : network) (lat lon : number) (data : value) :
  net (Weather (VNum lat) (VNum lon)) = Responds data ->
  truthy data = true ->
  returns (getWaterTemperature net (VNum lat) (VNum lon))
    (fun v =>
       let t := series data "current" "temperature_2m" in
       (forall q, t = VNum (Fin q) -> ~ (q == 0)%Q ->
          path ["current"; "temperature"] v = Some (VNum (Fin q))) /\
       (t = VUndef ->
          path ["current"; "temperature"] v = Some (VStr "N/A") /\
          path ["current"; "condition"] v = Some (VStr "Very Warm")) /\
       (t = VNull \/ (exists q, t = VNum (Fin q) /\ (q == 0)%Q) ->
          path ["current"; "temperature"] v = Some (VStr "N/A") /\
          path ["current"; "condition"] v = Some (VStr "Very Cold"))).
Proof.
  intros Hnet Hd. unfold getWaterTemperature. cbn [default_arg].
  unfold axios_get. rewrite Hnet. cbn [bind]. rewrite Hd. cbn [negb].
  rewrite !(get_prop data) by (apply truthy_not_nullish; exact Hd). cbn [bind].
  destruct (getLocationName_number lat lon) as [s Hs]. rewrite Hs. cbn [bind].
  rewrite !get_prop by apply js_or_object_not_nullish. cbn [bind].
  fold (series data "current" "temperature_2m").
  destruct (getTemperatureCondition (series data "current" "temperature_2m"))
    as [described|e] eqn:Ec; cbn [bind try_catch].
  - cbn [returns]. cbv zeta. cbn [path field lookup String.eqb Ascii.eqb Bool.eqb].
    split; [|split].
    + intros q -> Hq. unfold js_or. cbn [truthy].
      destruct (Qeq_bool q 0) eqn:E; [apply Qeq_bool_iff in E; contradiction|].
      reflexivity.
    + intros Ht. rewrite Ht in Ec. injection Ec as <-. rewrite Ht.
      split; reflexivity.
    + intros [Ht | [q [Ht Hq]]]; rewrite Ht in Ec |- *.
      * injection Ec as <-. split; reflexivity.
      * rewrite (cold_zero q Hq) in Ec. injection Ec as <-.
        rewrite (js_or_zero q _ Hq). split; reflexivity.
  - destruct (getTemperatureCondition_throws _ _ Ec) as [Hnum Hnull].
    unfold getDefaultTemperatureData. cbn [default_arg]. rewrite Hs.
    cbn [bind returns]. cbv zeta. split; [|split].
    + intros q Ht. rewrite Ht in Hnum. discriminate.
    + intros Ht. rewrite Ht in Hnull. discriminate.
    + intros [Ht | [q [Ht _]]].
      * rewrite Ht in Hnull. discriminate.
      * rewrite Ht in Hnum. discriminate.
Qed.

Lemma getWaterTemperature_reading_witness :
  returns (getWaterTemperature
             (fun _ => Responds (VObj [("current",
                                        VObj [("relative_humidity_2m", VNum (num 80))])]))
             (VNum (num 10)) (VNum (num 20)))
    (fun v =>
       path ["current"; "temperature"] v = Some (VStr "N/A") /\
       path ["current"; "condition"] v = Some (VStr "Very Warm")).
Proof.
  eapply returns_weaken.
  - apply (getWaterTemperature_reading
             (fun _ => Responds (VObj [("current",
                                        VObj [("relative_humidity_2m", VNum (num 80))])]))
             (num 10) (num 20)
             (VObj [("current", VObj [("relative_humidity_2m", VNum (num 80))])])).
    + reflexivity.
    + reflexivity.
  - intros v (_ & H & _). apply H. reflexivity.
Defined.

(** ** Records of the species catalogue *)

Lemma js_or_truthy (x d : value) : truthy d = true -> truthy (js_or x d) = true.
Proof. intros H. unfold js_or. destruct (truthy x) eqn:E; assumption. Qed.

Lemma has_truthy_intro (k : string) (fields : list (string * value)) (x : value) :
  lookup k fields = Some x -> truthy x = true -> has_truthy k (VObj fields).
Proof. intros H1 H2. exists x. split; assumption. Qed.

Lemma if_returns_weaken {A} (c : completion A) (P Q : A -> Prop) :
  if_returns c P -> (forall a, P a -> Q a) -> if_returns c Q.
Proof. destruct c; simpl; auto. Qed.

Lemma js_map_Forall2 (v : value) (f : value -> completion value) :
  if_returns (js_map v f)
    (fun y => exists items out,
       v = VArr items /\ y = VArr out /\
       Forall2 (fun x r => f x = Ret r) items out).
Proof.
  destruct v; simpl; try exact I.
  eapply if_returns_bind; [apply mapM_Forall2|].
  intros out H. simpl. eauto.
Qed.

Lemma formatFish_card (fish rec : value) :
  formatFish fish = Ret rec -> nullish fish = false /\ fish_card rec.
Proof.
  intros H. destruct (nullish fish) eqn:E.
  - destruct fish; discriminate.
  - split; [reflexivity|]. rewrite (formatFish_live fish E) in H.
    injection H as <-.
    repeat split; (eapply has_truthy_intro; [reflexivity|]);
      repeat apply js_or_truthy; reflexivity.
Qed.

Lemma getDefaultFishData_cards :
  exists out, getDefaultFishData = VArr out /\ out <> [] /\ Forall fish_card out.
Proof.
  eexists. split; [reflexivity|]. split; [discriminate|].
  repeat constructor; (eapply has_truthy_intro; reflexivity).
Qed.

(** X7: whatever the upstream service does, [getFishSpecies] returns a
    non-empty array of records of which name, genus, family, marine flag and
    icon are all present and truthy. *)
Theorem getFishSpecies_cards (net : network) (limit : value) :
  returns (getFishSpecies net limit)
    (fun v => exists out, v = VArr out /\ out <> [] /\ Forall fish_card out).
Proof.
  unfold getFishSpecies.
  apply returns_try_catch; [|intros _; exact getDefaultFishData_cards].
  answer data.
  destruct (negb (truthy data) || length_is_zero data) eqn:E;
    [exact getDefaultFishData_cards|].
  eapply if_returns_weaken; [apply js_map_Forall2|].
  intros y (items & out & -> & -> & HF).
  exists out. split; [reflexivity|]. split.
  - apply orb_false_iff in E as [_ E]. destruct HF; [discriminate E|discriminate].
  - clear E. induction HF as [|x r l l' Hx _ IH]; constructor; [|exact IH].
    apply (formatFish_card x r Hx).
Qed.

(** X8: unless the body is a non-empty array without [null] in it,
    [getFishSpecies] returns the fallback: one unusable record gives up the
    whole answer. *)
Theorem getFishSpecies_gives_up (net : network) (limit : value) :
  ~ has_records (net (Species (default_arg limit (VNum (num 10))))) ->
  getFishSpecies net limit = Ret getDefaultFishData.
Proof.
  intros Hno. unfold getFishSpecies, axios_get.
  destruct (net _) as [m|data]; [reflexivity|]. cbn [bind].
  destruct (negb (truthy data) || length_is_zero data) eqn:E; [reflexivity|].
  pose proof (js_map_Forall2 data formatFish) as H.
  destruct (js_map data formatFish) as [y|e]; [|reflexivity].
  exfalso. apply Hno. destruct H as (items & out & -> & _ & HF).
  exists items. split; [reflexivity|]. split.
  - apply orb_false_iff in E as [_ E]. destruct items; [discriminate E|discriminate].
  - clear E Hno. induction HF as [|x r l l' Hx _ IH]; constructor; [|exact IH].
    apply (formatFish_card x r Hx).
Qed.

Lemma getFishSpecies_gives_up_witness :
  getFishSpecies
    (fun _ => Responds (VArr [VObj [("Species", VStr "Gadus morhua")]; VNull]))
    (VNum (num 2))
  = Ret getDefaultFishData.
Proof.
  apply (getFishSpecies_gives_up
           (fun _ => Responds (VArr [VObj [("Species", VStr "Gadus morhua")]; VNull]))
           (VNum (num 2))).
  intros (items & E & _ & H). injection E as <-.
  inversion H as [|x l _ H']. inversion H' as [|y l' Hy _]. discriminate Hy.
Defined.


(** ** Observations and statistics *)

Lemma Forall2_length_eq {A B} (R : A -> B -> Prop) (l : list A) (l' : list B) :
  Forall2 R l l' -> List.length l' = List.length l.
Proof. induction 1; simpl; congruence. Qed.

(** X10: on the live path of [getBiodiversityObservations] (the body has
    an array of results without [null] in it) the answer is built from the
    body even when the array is empty: as many observations as results,
    the [total] of the body or else their number, and the source
    "OBIS API"; the fallback is not used. *)
Theorem getBiodiversityObservations_live
    (net : network) (options data : value) (items : list value) :
  options <> VNull ->
  (forall params, net (Occurrence params) = Responds data) ->
  truthy data = true ->
  prop data "results" = VArr items ->
  Forall (fun obs => nullish obs = false) items ->
  returns (getBiodiversityObservations net options)
    (fun v => exists out,
       v = VObj [("total", js_or (prop data "total")
                                 (VNum (num (Z.of_nat (List.length items)))));
                 ("observations", VArr out);
                 ("source", VStr "OBIS API")] /\
       List.length out = List.length items).
Proof.
  intros Ho Hnet Hd Hr Hall. unfold getBiodiversityObservations. cbv zeta.
  assert (Hn : nullish (default_arg options (VObj [])) = false)
    by (destruct options; try reflexivity; congruence).
  rewrite !get_prop by exact Hn. cbn [bind].
  unfold axios_get. rewrite Hnet. cbn [bind]. rewrite Hd. cbn [negb].
  rewrite !(get_prop data) by (apply truthy_not_nullish; exact Hd).
  cbn [bind]. rewrite Hr. cbn [truthy negb js_map].
  assert (Hout : exists out, mapM formatObservation items = Ret out /\
                             List.length out = List.length items).
  { clear Hr. induction Hall as [|x l Hx _ IH]; [exists []; auto|].
    destruct IH as [out [E L]]. cbn [mapM]. unfold formatObservation at 1.
    rewrite !(get_prop x) by exact Hx. cbn [bind]. rewrite E. cbn [bind].
    eexists. split; [reflexivity|]. simpl. now rewrite L. }
  destruct Hout as [out [-> L]]. cbn [bind try_catch returns array_length].
  exists out. rewrite L. split; reflexivity.
Qed.

Lemma getBiodiversityObservations_live_witness :
  returns (getBiodiversityObservations
             (fun _ => Responds (VObj [("results", VArr [])]))
             (VObj [("limit", VNum (num 5))]))
    (fun v => exists out,
       v = VObj [("total", js_or VUndef (VNum (num 0)));
                 ("observations", VArr out);
                 ("source", VStr "OBIS API")] /\
       List.length out = 0%nat).
Proof.
  apply (getBiodiversityObservations_live
           (fun _ => Responds (VObj [("results", VArr [])]))
           (VObj [("limit", VNum (num 5))])
           (VObj [("results", VArr [])]) []).
  - discriminate.
  - reflexivity.
  - reflexivity.
  - reflexivity.
  - constructor.
Defined.

Lemma formatObservation_named (obs rec : value) :
  formatObservation obs = Ret rec ->
  has_truthy "species" rec /\ has_truthy "datasetName" rec /\ has_truthy "icon" rec.
Proof.
  unfold formatObservation. intros H.
  destruct (nullish obs) eqn:E; [destruct obs; discriminate|].
  rewrite !(get_prop obs) in H by exact E. injection H as <-.
  repeat split; (eapply has_truthy_intro; [reflexivity|]);
    repeat apply js_or_truthy; reflexivity.
Qed.

Lemma getDefaultBiodiversityData_named :
  exists observations,
    field "observations" getDefaultBiodiversityData = Some (VArr observations) /\
    Forall (fun rec => has_truthy "species" rec /\ has_truthy "datasetName" rec /\
                       has_truthy "icon" rec) observations.
Proof.
  eexists. split; [reflexivity|].
  repeat constructor; (eapply has_truthy_intro; reflexivity).
Qed.

(** X11: whatever the upstream service does and whatever the options are,
    [getBiodiversityObservations] returns an object with an array of
    observations, each with a truthy species, dataset name and icon. *)
Theorem getBiodiversityObservations_named (net : network) (options : value) :
  returns (getBiodiversityObservations net options)
    (fun v => exists observations,
       field "observations" v = Some (VArr observations) /\
       Forall (fun rec => has_truthy "species" rec /\ has_truthy "datasetName" rec /\
                          has_truthy "icon" rec) observations).
Proof.
  unfold getBiodiversityObservations.
  apply returns_try_catch; [|intros _; exact getDefaultBiodiversityData_named].
  destruct (get _ "limit") as [limit|]; [cbn [bind]|exact I].
  destruct (get _ "offset") as [offset|]; [cbn [bind]|exact I].
  answer data.
  destruct (truthy data); [cbn [negb]|exact getDefaultBiodiversityData_named].
  destruct (get data "results") as [results|]; [cbn [bind]|exact I].
  destruct (truthy results); [cbn [negb]|exact getDefaultBiodiversityData_named].
  eapply if_returns_bind; [apply js_map_Forall2|].
  intros y (items & out & -> & -> & HF). cbv beta.
  destruct (get data "total") as [total|]; [cbn [bind]|exact I].
  cbn [if_returns]. exists out. split; [reflexivity|].
  induction HF as [|x r l l' Hx _ IH]; constructor; [|exact IH].
  apply (formatObservation_named x r Hx).
Qed.

(** X12: the three counts of [getSpeciesStats] are always present and
    truthy: a count that is missing or 0 in the body is replaced by a
    constant. *)
Theorem getSpeciesStats_counts (net : network) :
  returns (getSpeciesStats net)
    (fun v => has_truthy "totalSpecies" v /\ has_truthy "totalObservations" v /\
              has_truthy "totalDatasets" v).
Proof.
  assert (Hdef : has_truthy "totalSpecies" getDefaultSpeciesStats /\
                 has_truthy "totalObservations" getDefaultSpeciesStats /\
                 has_truthy "totalDatasets" getDefaultSpeciesStats)
    by (repeat split; (eapply has_truthy_intro; reflexivity)).
  unfold getSpeciesStats. apply returns_try_catch; [|intros _; exact Hdef].
  answer data.
  destruct (truthy data) eqn:E; [cbn [negb]|exact Hdef].
  rewrite !(get_prop data) by (apply truthy_not_nullish; exact E).
  cbn [bind if_returns].
  repeat split; (eapply has_truthy_intro; [reflexivity|]);
    apply js_or_truthy; reflexivity.
Qed.

(** X13: every record of [getObservationsByArea] has a truthy species:
    the scientific name of the upstream record, or "Unknown". *)
Theorem getObservationsByArea_species
    (net : network) (minLat maxLat minLon maxLon : value) :
  returns (getObservationsByArea net minLat maxLat minLon maxLon)
    (fun v => exists out, v = VArr out /\ Forall (has_truthy "species") out).
Proof.
  unfold getObservationsByArea.
  apply returns_try_catch; [|intros _; exists []; split; [reflexivity|constructor]].
  may_throw geometry. answer data.
  destruct (truthy data); [cbn [negb]|exists []; split; [reflexivity|constructor]].
  destruct (get data "results") as [results|]; [cbn [bind]|exact I].
  destruct (truthy results);
    [cbn [negb]|exists []; split; [reflexivity|constructor]].
  eapply if_returns_weaken; [apply js_map_Forall2|].
  intros y (items & out & -> & -> & HF).
  exists out. split; [reflexivity|].
  induction HF as [|x r l l' Hx _ IH]; constructor; [|exact IH].
  destruct (nullish x) eqn:E; [destruct x; discriminate|].
  rewrite !(get_prop x) in Hx by exact E. injection Hx as <-.
  eapply has_truthy_intro; [reflexivity|]. apply js_or_truthy. reflexivity.
Qed.

(** ** The fixed locations *)

Lemma located_entry (loc : string * number * number) (e : value) :
  is_location_entry loc e -> located loc e.
Proof.
  destruct loc as [[loc_name lat] lon].
  intros (w & -> & (n & c & d & f & src & E & _)).
  injection E as ->. repeat split.
Qed.

(** X14: the three entries of [getOceanDataMultipleLocations] are, in
    this order, those of the fixed locations: each has the name and the
    coordinates of its location, and a location whose call fails gets the
    fallback snapshot whatever happens to the others. *)
Theorem getOceanDataMultipleLocations_located (net : network) :
  returns (getOceanDataMultipleLocations net)
    (fun v => exists entries,
       v = VArr entries /\
       Forall2 (fun loc e =>
                  located loc e /\
                  (call_fails (net (Marine (VNum (snd (fst loc))) (VNum (snd loc))))
                   = true -> is_fallback_entry loc e))
               locations entries).
Proof.
  unfold getOceanDataMultipleLocations. apply returns_try.
  eapply returns_bind.
  - apply (returns_mapM _
             (fun loc e =>
                located loc e /\
                (call_fails (net (Marine (VNum (snd (fst loc))) (VNum (snd loc))))
                 = true -> is_fallback_entry loc e))).
    intros [[loc_name lat] lon] _. cbn [fst snd].
    pose proof (getOceanWeather_snapshot net lat lon) as Hs.
    pose proof (getOceanWeather_down net (VNum lat) (VNum lon)) as Hd.
    destruct (getOceanWeather net (VNum lat) (VNum lon)) as [w|e];
      [|contradiction].
    cbn [bind returns] in *.
    destruct (spread_name_snapshot loc_name _ _ _ Hs) as [f [-> E]].
    rewrite E. split.
    + apply located_entry. exists f. split; [reflexivity | exact Hs].
    + intros Hf. exists f. split; [|reflexivity].
      symmetry. apply Hd. exact Hf.
  - intros entries H. simpl. exists entries. auto.
Qed.

(** * Further properties of the routes *)

Lemma js_or_numbers (a b : number) :
  truthy (VNum b) = true ->
  exists n, js_or (VNum a) (VNum b) = VNum n /\ truthy (VNum n) = true.
Proof.
  intros Hb. unfold js_or. destruct (truthy (VNum a)) eqn:E; eauto.
Qed.

Lemma getBiodiversityObservations_object (net : network) (options : value) :
  returns (getBiodiversityObservations net options)
    (fun v => exists total observations source,
       v = VObj [("total", total); ("observations", observations);
                 ("source", source)]).
Proof.
  unfold getBiodiversityObservations.
  apply returns_try_catch; [|intros _; do 3 eexists; reflexivity].
  destruct (get _ "limit") as [limit|]; [cbn [bind]|exact I].
  destruct (get _ "offset") as [offset|]; [cbn [bind]|exact I].
  answer data.
  destruct (truthy data); [cbn [negb]|do 3 eexists; reflexivity].
  destruct (get data "results") as [results|]; [cbn [bind]|exact I].
  destruct (truthy results); [cbn [negb]|do 3 eexists; reflexivity].
  destruct (js_map results formatObservation) as [observations|]; [cbn [bind]|exact I].
  destruct (get data "total") as [total|]; [cbn [bind]|exact I].
  do 3 eexists. reflexivity.
Qed.

(** ** What the digits of a text read as *)

Lemma Qred_integer (z : Z) : Qred (inject_Z z) = inject_Z z.
Proof.
  unfold Qred, inject_Z.
  pose proof (Z.ggcd_gcd z 1) as Hg.
  pose proof (Z.ggcd_correct_divisors z 1) as Hd.
  destruct (Z.ggcd z 1) as [g [a b]]. cbn [fst snd] in *.
  rewrite Z.gcd_1_r in Hg. subst g. destruct Hd as [Ha Hb].
  replace a with z by lia. replace b with 1%Z by lia. reflexivity.
Qed.

Lemma pow2_nonneg (k : Z) : (0 <= k)%Z -> pow2 k = inject_Z (2 ^ k).
Proof. destruct k; [reflexivity | reflexivity | lia]. Qed.

Lemma floor_log2_integer (z : Z) :
  (2 ^ 53 < z)%Z -> (52 <= floor_log2 (inject_Z z))%Z.
Proof.
  intros H. unfold floor_log2. cbn [Qnum Qden inject_Z].
  assert (Hl : (53 <= Z.log2 z)%Z).
  { change 53%Z with (Z.log2 (2 ^ 53)). apply Z.log2_le_mono. lia. }
  change (Z.log2 1) with 0%Z.
  destruct (Qle_bool _ _); lia.
Qed.

(** The double closest to an integer is an integer, or an infinity. *)
Lemma nearest_double_integer (z : Z) (x : Q) :
  (2 ^ 53 < z)%Z -> nearest_double (inject_Z z) = Some x ->
  exists z', x = inject_Z z'.
Proof.
  intros Hz. unfold nearest_double.
  pose proof (floor_log2_integer z Hz) as He.
  set (e := Z.max (floor_log2 (inject_Z z)) (-1022)).
  assert (Hk : (0 <= e - 52)%Z) by (unfold e; lia).
  rewrite (pow2_nonneg _ Hk).
  set (m := round_half_even _).
  assert (Hx : Qred (inject_Z m * inject_Z (2 ^ (e - 52)))
               = inject_Z (m * 2 ^ (e - 52))).
  { rewrite <- (Qred_integer (m * 2 ^ (e - 52))).
    apply Qred_complete. unfold Qeq. simpl. lia. }
  rewrite Hx.
  destruct (_ || _)%bool; [discriminate|].
  intros E. injection E as <-. eauto.
Qed.

Lemma double_whole (z : Z) : whole (double (inject_Z z)).
Proof.
  unfold double, is_safe_integer. rewrite Qred_integer. cbn [Qnum Qden inject_Z].
  change (1 =? 1)%Z with true. cbn [andb].
  destruct (Z.abs z <=? 2 ^ 53)%Z eqn:Hs.
  - right. right. exists z. reflexivity.
  - apply Z.leb_gt in Hs.
    destruct (Qcompare_spec (inject_Z z) 0) as [H|H|H].
    + right. right. exists 0%Z. reflexivity.
    + assert (Hz : (2 ^ 53 < - z)%Z).
      { unfold Qlt in H. simpl in H. lia. }
      change (- inject_Z z)%Q with (inject_Z (- z)).
      destruct (nearest_double (inject_Z (- z))) as [x|] eqn:E; [|right; left; reflexivity].
      destruct (nearest_double_integer _ _ Hz E) as [z' ->].
      right. right. exists (- z')%Z. reflexivity.
    + assert (Hz : (2 ^ 53 < z)%Z).
      { unfold Qlt in H. simpl in H. lia. }
      destruct (nearest_double (inject_Z z)) as [x|] eqn:E; [|left; reflexivity].
      destruct (nearest_double_integer _ _ Hz E) as [z' ->].
      right. right. exists z'. reflexivity.
Qed.

Lemma parse_int_string_whole (s : string) :
  parse_int_string s = NaN \/ whole (parse_int_string s).
Proof.
  unfold parse_int_string.
  repeat match goal with
         | |- context [let '(_, _) := ?x in _] => destruct x
         end.
  match goal with
  | |- context [match ?l with [] => NaN | _ :: _ => _ end] => destruct l
  end; [left; reflexivity | right; apply double_whole].
Qed.

(** The limit of a route: the number read, or the default when none or
    0 is read. *)
Lemma limit_is_whole (text : string) (d : Z) :
  d <> 0%Z ->
  exists n, js_or (VNum (parse_int_string text)) (VNum (num d)) = VNum n /\
            truthy (VNum n) = true /\ whole n.
Proof.
  intros Hd. unfold js_or.
  assert (Hdef : truthy (VNum (num d)) = true /\ whole (num d)).
  { split; [|right; right; eauto]. cbn [truthy num].
    destruct (Qeq_bool (inject_Z d) 0) eqn:E; [|reflexivity].
    apply Qeq_bool_iff in E. unfold Qeq in E. simpl in E. lia. }
  destruct (truthy (VNum (parse_int_string text))) eqn:E.
  - exists (parse_int_string text). split; [reflexivity|]. split; [exact E|].
    destruct (parse_int_string_whole text) as [H|H]; [|exact H].
    rewrite H in E. discriminate E.
  - exists (num d). split; [reflexivity | exact Hdef].
Qed.

(** ** The routes with a query *)

Lemma failure_fails (now : string) (e : exn) : ~ succeeds (failure now e).
Proof. intros [H _]. discriminate H. Qed.

Lemma fish_species_answer_succeeds (net : network) (now : string) (limit : value) :
  succeeds (fish_species_answer net now limit).
Proof.
  unfold fish_species_answer.
  destruct (returns_inv _ _ (getFishSpecies_shape net limit)) as [v [-> _]].
  split; reflexivity.
Qed.

Lemma biodiversity_answer_body (net : network) (now : string) (limit : value) :
  exists total observations source,
    biodiversity_answer net now limit
    = mkResponse 200
        (VObj [("success", VBool true); ("total", total);
               ("observations", observations); ("source", source);
               ("timestamp", VStr now)]).
Proof.
  unfold biodiversity_answer.
  destruct (returns_inv _ _
              (getBiodiversityObservations_object net (VObj [("limit", limit)])))
    as [v [E (total & observations & source & ->)]].
  rewrite E. exists total, observations, source. reflexivity.
Qed.

Lemma ocean_weather_answer_succeeds (net : network) (now : string) (lat lon : number) :
  succeeds (ocean_weather_answer net now (VNum lat) (VNum lon)).
Proof.
  unfold ocean_weather_answer.
  destruct (returns_inv _ _ (getOceanWeather_snapshot net lat lon)) as [v [-> _]].
  split; reflexivity.
Qed.

Lemma water_temperature_answer_succeeds (net : network) (now : string)
    (lat lon : number) :
  succeeds (water_temperature_answer net now (VNum lat) (VNum lon)).
Proof.
  unfold water_temperature_answer.
  destruct (returns_inv _ _ (getWaterTemperature_shape net lat lon)) as [v [-> _]].
  split; reflexivity.
Qed.

(** A route with a limit: the handler answers like the adapter with the
    limit read, or reports the failed conversion. *)
Lemma limit_routes (net : network) (now : string) (query : list (string * value)) :
  (has_text (parameter query "limit") = true /\
   exists text,
     fish_species net now query
     = fish_species_answer net now
         (js_or (VNum (parse_int_string text)) (VNum (num 10))) /\
     biodiversity net now query
     = biodiversity_answer net now
         (js_or (VNum (parse_int_string text)) (VNum (num 20)))) \/
  (has_text (parameter query "limit") = false /\
   fish_species net now query = conversion_failure now /\
   biodiversity net now query = conversion_failure now).
Proof.
  unfold fish_species, biodiversity, parameter. cbn [get bind].
  destruct (parseInt_cases (prop (VObj query) "limit"))
    as [[Ht [text E]] | [Ht E]]; rewrite E; cbn [bind].
  - left. split; [exact Ht|]. exists text. split; reflexivity.
  - right. split; [exact Ht|]. split; reflexivity.
Qed.

(** A route with coordinates: the handler answers like the adapter with
    truthy numbers for coordinates, the same for both routes, or reports
    the failed conversion. *)
Lemma coordinate_routes (net : network) (now : string)
    (query : list (string * value)) :
  (has_text (parameter query "lat") = true /\
   has_text (parameter query "lon") = true /\
   exists lat lon : number,
     truthy (VNum lat) = true /\ truthy (VNum lon) = true /\
     ocean_weather net now query
     = ocean_weather_answer net now (VNum lat) (VNum lon) /\
     water_temperature net now query
     = water_temperature_answer net now (VNum lat) (VNum lon)) \/
  ((has_text (parameter query "lat") = false \/
    has_text (parameter query "lon") = false) /\
   ocean_weather net now query = conversion_failure now /\
   water_temperature net now query = conversion_failure now).
Proof.
  unfold ocean_weather, water_temperature, parameter. cbn [get bind].
  destruct (parseFloat_cases (prop (VObj query) "lat"))
    as [[Ht1 [n1 E1]] | [Ht1 E1]]; rewrite E1; cbn [bind];
    [|right; split; [left; exact Ht1 | split; reflexivity]].
  destruct (parseFloat_cases (prop (VObj query) "lon"))
    as [[Ht2 [n2 E2]] | [Ht2 E2]]; rewrite E2; cbn [bind];
    [|right; split; [right; exact Ht2 | split; reflexivity]].
  left. split; [exact Ht1|]. split; [exact Ht2|].
  destruct (js_or_numbers n1 (dec 375 1) eq_refl) as [lat [-> H1]].
  destruct (js_or_numbers n2 (dec (-1224) 1) eq_refl) as [lon [-> H2]].
  exists lat, lon. repeat split; assumption.
Qed.

(** X15: when the limit of the query has a text, the body of
    [GET /api/biodiversity] has, in this order, [success: true], the
    [total], [observations] and [source] of the adapter and the
    [timestamp], with status 200: no field of the adapter's result takes
    the place of [success].  When it has none, the route answers 500 with
    the message of the failed conversion. *)
Theorem biodiversity_body (net : network) (now : string)
    (query : list (string * value)) :
  (has_text (parameter query "limit") = true ->
   exists total observations source,
     biodiversity net now query
     = mkResponse 200
         (VObj [("success", VBool true); ("total", total);
                ("observations", observations); ("source", source);
                ("timestamp", VStr now)])) /\
  (has_text (parameter query "limit") = false ->
   biodiversity net now query
   = mkResponse 500
       (VObj [("success", VBool false);
              ("error", VStr "Cannot convert object to primitive value");
              ("timestamp", VStr now)])).
Proof.
  destruct (limit_routes net now query) as [[Ht [text [_ E]]] | [Ht [_ E]]];
    rewrite Ht, E; split; intros H; try discriminate H.
  - apply biodiversity_answer_body.
  - reflexivity.
Qed.

Lemma biodiversity_body_witness :
  (exists total observations source,
     biodiversity offline "2024-02-12T08:00:00.000Z" [("limit", VStr "3")]
     = mkResponse 200
         (VObj [("success", VBool true); ("total", total);
                ("observations", observations); ("source", source);
                ("timestamp", VStr "2024-02-12T08:00:00.000Z")])) /\
  biodiversity offline "2024-02-12T08:00:00.000Z"
    [("limit", VObj [("toString", VStr "3")])]
  = mkResponse 500
      (VObj [("success", VBool false);
             ("error", VStr "Cannot convert object to primitive value");
             ("timestamp", VStr "2024-02-12T08:00:00.000Z")]).
Proof.
  split.
  - apply (proj1 (biodiversity_body offline "2024-02-12T08:00:00.000Z"
                    [("limit", VStr "3")])).
    reflexivity.
  - apply (proj2 (biodiversity_body offline "2024-02-12T08:00:00.000Z"
                    [("limit", VObj [("toString", VStr "3")])])).
    reflexivity.
Defined.

(** X16: a handler answers with an error only when a value of its query
    has no text, so that [parseInt] or [parseFloat] throws: whatever the
    upstream services do, the routes without a query answer with status
    200 and [success: true], and so do the routes with one exactly when
    the values they read have a text. *)
Theorem routes_succeed (net : network) (now : string)
    (query : list (string * value)) (family : value) :
  (succeeds (fish_species net now query)
   <-> has_text (parameter query "limit") = true) /\
  succeeds (fish_by_family net now family) /\
  (succeeds (biodiversity net now query)
   <-> has_text (parameter query "limit") = true) /\
  succeeds (species_stats net now) /\
  (succeeds (ocean_weather net now query)
   <-> has_text (parameter query "lat") = true /\
       has_text (parameter query "lon") = true) /\
  (succeeds (water_temperature net now query)
   <-> has_text (parameter query "lat") = true /\
       has_text (parameter query "lon") = true) /\
  succeeds (ocean_data_locations net now) /\
  succeeds (dashboard net now).
Proof.
  split; [|split; [|split; [|split; [|split; [|split; [|split]]]]]].
  - destruct (limit_routes net now query) as [[Ht [text [E _]]] | [Ht [E _]]];
      rewrite Ht, E.
    + split; [reflexivity | intros _; apply fish_species_answer_succeeds].
    + split; [intros H; destruct (failure_fails _ _ H) | discriminate].
  - unfold fish_by_family.
    destruct (returns_inv _ _ (getFishByFamily_shape net family)) as [v [-> _]].
    split; reflexivity.
  - destruct (limit_routes net now query) as [[Ht [text [_ E]]] | [Ht [_ E]]];
      rewrite Ht, E.
    + split; [reflexivity|]. intros _.
      destruct (biodiversity_answer_body net now
                  (js_or (VNum (parse_int_string text)) (VNum (num 20))))
        as (t & o & src & ->).
      split; reflexivity.
    + split; [intros H; destruct (failure_fails _ _ H) | discriminate].
  - unfold species_stats.
    destruct (returns_inv _ _ (getSpeciesStats_shape net)) as [v [-> _]].
    split; reflexivity.
  - destruct (coordinate_routes net now query)
      as [(H1 & H2 & lat & lon & _ & _ & E & _) | (H & E & _)]; rewrite E.
    + split; [auto | intros _; apply ocean_weather_answer_succeeds].
    + split; [intros Hs; destruct (failure_fails _ _ Hs)|].
      intros [H1 H2]. destruct H as [H|H]; congruence.
  - destruct (coordinate_routes net now query)
      as [(H1 & H2 & lat & lon & _ & _ & _ & E) | (H & _ & E)]; rewrite E.
    + split; [auto | intros _; apply water_temperature_answer_succeeds].
    + split; [intros Hs; destruct (failure_fails _ _ Hs)|].
      intros [H1 H2]. destruct H as [H|H]; congruence.
  - unfold ocean_data_locations.
    destruct (returns_inv _ _ (getOceanDataMultipleLocations_shape net))
      as [v [-> _]].
    split; reflexivity.
  - unfold dashboard.
    destruct (returns_inv _ _ (getFishSpecies_shape net (VNum (num 5))))
      as [v1 [-> _]].
    destruct (returns_inv _ _ (getBiodiversityObservations_shape net
                                 (VObj [("limit", VNum (num 5))])))
      as [v2 [-> _]].
    destruct (returns_inv _ _ (getOceanDataMultipleLocations_shape net))
      as [v3 [-> _]].
    destruct (returns_inv _ _ (getSpeciesStats_shape net)) as [v4 [-> _]].
    split; reflexivity.
Qed.

(** X17: the limit that [GET /api/fish-species] and [GET /api/biodiversity]
    hand to their adapter, when the limit of the query has a text, is a
    truthy number without a fraction: an integer other than 0 (the one the
    text starts with, or the default) or an infinity, when the digits are
    too many for a double. *)
Theorem routes_limit (net : network) (now : string)
    (query : list (string * value)) :
  has_text (parameter query "limit") = true ->
  (exists n, truthy (VNum n) = true /\ whole n /\
     fish_species net now query = fish_species_answer net now (VNum n)) /\
  (exists n, truthy (VNum n) = true /\ whole n /\
     biodiversity net now query = biodiversity_answer net now (VNum n)).
Proof.
  intros Ht.
  destruct (limit_routes net now query) as [[_ [text [E1 E2]]] | [Hf _]];
    [|congruence].
  split.
  - destruct (limit_is_whole text 10) as (n & En & H1 & H2); [discriminate|].
    exists n. rewrite E1, En. auto.
  - destruct (limit_is_whole text 20) as (n & En & H1 & H2); [discriminate|].
    exists n. rewrite E2, En. auto.
Qed.

Lemma routes_limit_witness :
  (exists n, truthy (VNum n) = true /\ whole n /\
     fish_species offline "2024-02-12T08:00:00.000Z" [("limit", VStr "3 fish")]
     = fish_species_answer offline "2024-02-12T08:00:00.000Z" (VNum n)) /\
  (exists n, truthy (VNum n) = true /\ whole n /\
     biodiversity offline "2024-02-12T08:00:00.000Z" [("limit", VStr "3 fish")]
     = biodiversity_answer offline "2024-02-12T08:00:00.000Z" (VNum n)).
Proof.
  apply (routes_limit offline "2024-02-12T08:00:00.000Z" [("limit", VStr "3 fish")]).
  reflexivity.
Defined.

Example fish_species_limits (net : network) (now : string) :
  fish_species net now [("limit", VStr "3")]
  = fish_species_answer net now (VNum (num 3)) /\
  fish_species net now [("limit", VStr "0")]
  = fish_species_answer net now (VNum (num 10)) /\
  fish_species net now [("limit", VStr "many")]
  = fish_species_answer net now (VNum (num 10)) /\
  fish_species net now [("limit", VStr "-2")]
  = fish_species_answer net now (VNum (num (-2))) /\
  fish_species net now [("limit", VArr [VStr "7"; VStr "8"])]
  = fish_species_answer net now (VNum (num 7)) /\
  fish_species net now [("limit", VStr (string_of_list_ascii (repeat "9"%char 400)))]
  = fish_species_answer net now (VNum PosInf).
Proof. repeat split. Qed.

(** X18: the coordinates that [GET /api/ocean-weather] and
    [GET /api/water-temperature] hand to their adapter, when those of the
    query have a text, are always numbers, and truthy ones: never NaN and
    never 0; they are the same for both routes. *)
Theorem routes_coordinates (net : network) (now : string)
    (query : list (string * value)) :
  has_text (parameter query "lat") = true ->
  has_text (parameter query "lon") = true ->
  exists lat lon : number,
    truthy (VNum lat) = true /\ truthy (VNum lon) = true /\
    ocean_weather net now query
    = ocean_weather_answer net now (VNum lat) (VNum lon) /\
    water_temperature net now query
    = water_temperature_answer net now (VNum lat) (VNum lon).
Proof.
  intros H1 H2.
  destruct (coordinate_routes net now query)
    as [(_ & _ & H) | ([H|H] & _)]; [exact H | congruence | congruence].
Qed.

Lemma routes_coordinates_witness :
  exists lat lon : number,
    truthy (VNum lat) = true /\ truthy (VNum lon) = true /\
    ocean_weather offline "2024-02-12T08:00:00.000Z" [("lat", VStr "40.7")]
    = ocean_weather_answer offline "2024-02-12T08:00:00.000Z" (VNum lat) (VNum lon) /\
    water_temperature offline "2024-02-12T08:00:00.000Z" [("lat", VStr "40.7")]
    = water_temperature_answer offline "2024-02-12T08:00:00.000Z"
        (VNum lat) (VNum lon).
Proof.
  apply (routes_coordinates offline "2024-02-12T08:00:00.000Z" [("lat", VStr "40.7")]);
    reflexivity.
Defined.

(** * Properties of the helpers of the page *)

(** ** Retrying with backoff *)

Section RetryFacts.

Context {R : Type}.
Variable error : nat -> exn.
Variable r : R.

(** The loop, entered with [m] failures still to come and attempts left
    for all of them and one more: it waits [m] times and returns. *)
Lemma retry_loop_succeeds (k : nat) (maxAttempts : Z) :
  forall (m fuel calls : nat) (attempt delay : Z) (waits : list Z),
    (calls + m = k)%nat ->
    (attempt + Z.of_nat m <= maxAttempts)%Z ->
    (m < fuel)%nat ->
    retry_loop (fails_then k error r) fuel attempt maxAttempts delay calls waits
    = (Ret (Some r), S k, waits ++ backoff m delay).
Proof.
  induction m as [|m IH]; intros fuel calls attempt delay waits Hc Ha Hf;
    destruct fuel as [|fuel]; try lia; cbn [retry_loop].
  - replace (attempt <=? maxAttempts)%Z with true by (symmetry; apply Z.leb_le; lia).
    unfold fails_then. replace (calls <? k)%nat with false
      by (symmetry; apply Nat.ltb_ge; lia).
    rewrite app_nil_r. repeat f_equal. lia.
  - replace (attempt <=? maxAttempts)%Z with true by (symmetry; apply Z.leb_le; lia).
    unfold fails_then at 1. replace (calls <? k)%nat with true
      by (symmetry; apply Nat.ltb_lt; lia).
    replace (attempt =? maxAttempts)%Z with false by (symmetry; apply Z.eqb_neq; lia).
    rewrite IH by lia. cbn [backoff]. now rewrite <- app_assoc.
Qed.

(** The loop, entered with [m + 1] attempts left and failures to come
    for all of them: it waits [m] times and throws the last error. *)
Lemma retry_loop_gives_up (k : nat) (maxAttempts : Z) :
  forall (m fuel calls : nat) (attempt delay : Z) (waits : list Z),
    (calls + S m <= k)%nat ->
    (attempt + Z.of_nat m = maxAttempts)%Z ->
    (m < fuel)%nat ->
    retry_loop (fails_then k error r) fuel attempt maxAttempts delay calls waits
    = (Throw (error (calls + m)%nat), S (calls + m), waits ++ backoff m delay).
Proof.
  induction m as [|m IH]; intros fuel calls attempt delay waits Hc Ha Hf;
    destruct fuel as [|fuel]; try lia; cbn [retry_loop].
  - replace (attempt <=? maxAttempts)%Z with true by (symmetry; apply Z.leb_le; lia).
    unfold fails_then. replace (calls <? k)%nat with true
      by (symmetry; apply Nat.ltb_lt; lia).
    replace (attempt =? maxAttempts)%Z with true by (symmetry; apply Z.eqb_eq; lia).
    rewrite app_nil_r, Nat.add_0_r. reflexivity.
  - replace (attempt <=? maxAttempts)%Z with true by (symmetry; apply Z.leb_le; lia).
    unfold fails_then at 1. replace (calls <? k)%nat with true
      by (symmetry; apply Nat.ltb_lt; lia).
    replace (attempt =? maxAttempts)%Z with false by (symmetry; apply Z.eqb_neq; lia).
    rewrite IH by lia. cbn [backoff]. rewrite <- app_assoc.
    replace (S calls + m)%nat with (calls + S m)%nat by lia. reflexivity.
Qed.

(** X19: when [fn] fails [k] times and then resolves, with [k] below
    [maxAttempts], [retryWithBackoff] resolves to that result after
    [k + 1] calls, having slept [delay], twice [delay], ... between them. *)
Theorem retryWithBackoff_succeeds (k : nat) (maxAttempts delay : Z) :
  (Z.of_nat k < maxAttempts)%Z ->
  retryWithBackoff (fails_then k error r) (Some maxAttempts) (Some delay) 0%nat
  = (Ret (Some r), S k, backoff k delay).
Proof.
  intros H. unfold retryWithBackoff.
  rewrite (retry_loop_succeeds k maxAttempts k) by lia. reflexivity.
Qed.

(** X20: when [fn] fails on each of the [maxAttempts] attempts,
    [retryWithBackoff] throws the error of the last one after exactly
    [maxAttempts] calls and [maxAttempts - 1] sleeps: it does not sleep
    after the last failure. *)
Theorem retryWithBackoff_gives_up (k : nat) (maxAttempts delay : Z) :
  (1 <= maxAttempts <= Z.of_nat k)%Z ->
  retryWithBackoff (fails_then k error r) (Some maxAttempts) (Some delay) 0%nat
  = (Throw (error (Z.to_nat maxAttempts - 1)%nat), Z.to_nat maxAttempts,
     backoff (Z.to_nat maxAttempts - 1) delay).
Proof.
  intros H. unfold retryWithBackoff.
  rewrite (retry_loop_gives_up k maxAttempts (Z.to_nat maxAttempts - 1)) by lia.
  cbn [Nat.add app]. repeat f_equal. lia.
Qed.

End RetryFacts.

Lemma retryWithBackoff_succeeds_witness :
  retryWithBackoff (fails_then 2 (fun _ => AxiosError "Network Error") "ready")
                   (Some 3%Z) (Some 1000%Z) 0%nat
  = (Ret (Some "ready"), 3%nat, [1000%Z; 2000%Z]).
Proof.
  apply (retryWithBackoff_succeeds (fun _ => AxiosError "Network Error") "ready"
           2 3 1000).
  reflexivity.
Defined.

Lemma retryWithBackoff_gives_up_witness :
  retryWithBackoff (fails_then 5 (fun i => AxiosError (if (i =? 2)%nat then "third" else "other"))
                               "ready")
                   (Some 3%Z) (Some 1000%Z) 0%nat
  = (Throw (AxiosError "third"), 3%nat, [1000%Z; 2000%Z]).
Proof.
  apply (retryWithBackoff_gives_up
           (fun i => AxiosError (if (i =? 2)%nat then "third" else "other")) "ready"
           5 3 1000).
  lia.
Defined.

(** X21: with [maxAttempts] of 0 or less [retryWithBackoff] never calls
    [fn]: it resolves to [undefined] at once, whatever [fn] would do. *)
Theorem retryWithBackoff_no_attempt {World Result : Type}
    (fn : World -> completion Result * World) (maxAttempts : Z)
    (delay : option Z) (w : World) :
  (maxAttempts <= 0)%Z ->
  retryWithBackoff fn (Some maxAttempts) delay w = (Ret None, w, []).
Proof.
  intros H. unfold retryWithBackoff.
  replace (Z.to_nat maxAttempts) with 0%nat by lia. reflexivity.
Qed.

Lemma retryWithBackoff_no_attempt_witness :
  retryWithBackoff (fails_then 0 (fun _ => AxiosError "Network Error") "ready")
                   (Some 0%Z) None 0%nat
  = (Ret None, 0%nat, []).
Proof.
  apply (retryWithBackoff_no_attempt
           (fails_then 0 (fun _ => AxiosError "Network Error") "ready") 0 None 0%nat).
  lia.
Defined.

(** The total time slept over [count] retries. *)
Lemma backoff_total (count : nat) (delay : Z) :
  fold_right Z.add 0%Z (backoff count delay) = (delay * (2 ^ Z.of_nat count - 1))%Z.
Proof.
  revert delay. induction count as [|count IH]; intros delay; cbn [backoff fold_right].
  - simpl. lia.
  - rewrite IH. rewrite Nat2Z.inj_succ, Z.pow_succ_r by lia. lia.
Qed.

(** With the defaults: three attempts, a first delay of one second. *)
Example retryWithBackoff_defaults :
  retryWithBackoff (fails_then 7 (fun _ => AxiosError "Network Error") "ready")
                   None None 0%nat
  = (Throw (AxiosError "Network Error"), 3%nat, [1000%Z; 2000%Z]).
Proof. reflexivity. Qed.

(** ** Thousands separators *)

Lemma is_digit_is_word (c : ascii) : is_digit c = true -> is_word c = true.
Proof.
  unfold is_digit, is_word. intros H. rewrite H. reflexivity.
Qed.

Lemma is_digit_not_comma (c : ascii) :
  is_digit c = true -> Ascii.eqb c "," = false.
Proof.
  intros H. destruct (Ascii.eqb_spec c ","); [subst; discriminate|reflexivity].
Qed.

Lemma digit_run_all (l : list ascii) :
  forallb is_digit l = true -> digit_run l = List.length l.
Proof.
  induction l as [|c l IH]; simpl; [reflexivity|].
  intros H. apply andb_true_iff in H as [Hc Hl]. now rewrite Hc, IH.
Qed.

(** Among digits, after a word character, the pattern matches where the
    number of digits to come is a multiple of three. *)
Lemma insert_commas_digits (l : list ascii) :
  forallb is_digit l = true ->
  forall p, is_word p = true ->
    insert_commas (Some p) l
    = match l with
      | [] => []
      | _ => if (List.length l mod 3 =? 0)%nat then [","%char] else []
      end ++ groups_from_right l.
Proof.
  induction l as [|c rest IH]; intros Hl p Hp; [reflexivity|].
  pose proof Hl as Hall. cbn [forallb] in Hl.
  apply andb_true_iff in Hl as [Hc Hrest].
  cbn [insert_commas groups_from_right].
  rewrite (IH Hrest c (is_digit_is_word c Hc)).
  unfold not_word_boundary, groups_of_three_ahead.
  rewrite Hp, (is_digit_is_word c Hc), (digit_run_all _ Hall). cbn [Bool.eqb andb].
  assert (E : ((3 <=? List.length (c :: rest)) && (List.length (c :: rest) mod 3 =? 0))%nat
              = (List.length (c :: rest) mod 3 =? 0)%nat).
  { destruct (List.length (c :: rest) mod 3 =? 0)%nat eqn:E;
      [|apply andb_false_r].
    rewrite andb_true_r. apply Nat.leb_le. apply Nat.eqb_eq in E.
    cbn [List.length] in *.
    destruct (List.length rest) as [|[|n]]; [discriminate E|discriminate E|lia]. }
  rewrite E. destruct rest; reflexivity.
Qed.

(** At the start of the digits, and after a minus sign, there is no match. *)
Lemma insert_commas_number (neg : bool) (digits : list ascii) :
  forallb is_digit digits = true ->
  insert_commas None ((if neg then ["-"%char] else []) ++ digits)
  = (if neg then ["-"%char] else []) ++ groups_from_right digits.
Proof.
  intros H. destruct digits as [|c rest]; [destruct neg; reflexivity|].
  pose proof H as Hall. cbn [forallb] in H.
  apply andb_true_iff in H as [Hc Hrest].
  assert (E : forall prev, (match prev with Some p => is_word p | None => false end) = false ->
               insert_commas prev (c :: rest) = groups_from_right (c :: rest)).
  { intros prev Hprev. cbn [insert_commas groups_from_right].
    unfold not_word_boundary. rewrite Hprev, (is_digit_is_word c Hc).
    cbn [Bool.eqb andb app].
    rewrite (insert_commas_digits rest Hrest c (is_digit_is_word c Hc)).
    destruct rest; reflexivity. }
  destruct neg; cbn [app].
  - change (insert_commas None ("-"%char :: c :: rest))
      with ((if not_word_boundary None (Some "-"%char)
                && groups_of_three_ahead ("-"%char :: c :: rest)
             then [","%char] else [])
            ++ "-"%char :: insert_commas (Some "-"%char) (c :: rest)).
    rewrite (E (Some "-"%char) eq_refl). reflexivity.
  - apply (E None eq_refl).
Qed.

(** An integer up to 2^53 is printed with all its digits. *)
Lemma integer_text_safe (num : Z) :
  (Z.abs num <= 2 ^ 53)%Z ->
  integer_text num
  = (if (num <? 0)%Z then ["-"%char] else []) ++ dec_chars (Z.abs num).
Proof.
  intros H. unfold integer_text, number_text, is_safe_integer.
  rewrite Qred_integer. cbn [Qnum Qden inject_Z].
  change (1 =? 1)%Z with true. cbn [andb].
  replace (Z.abs num <=? 2 ^ 53)%Z with true by (symmetry; apply Z.leb_le; exact H).
  reflexivity.
Qed.

(** X22: [formatNumber] of an integer other than 0, of magnitude up to
    2^53 (beyond, a number no longer has all the digits of the integer), is
    its sign and its digits with a comma before every group of three
    digits counted from the right, and none in front. *)
Theorem formatNumber_groups (num : Z) :
  num <> 0%Z -> (Z.abs num <= 2 ^ 53)%Z ->
  formatNumber num
  = string_of_list_ascii
      ((if (num <? 0)%Z then ["-"%char] else [])
       ++ groups_from_right (dec_chars (Z.abs num))).
Proof.
  intros H0 H. unfold formatNumber.
  replace (num =? 0)%Z with false by (symmetry; apply Z.eqb_neq; exact H0).
  rewrite (integer_text_safe num H), insert_commas_number; [reflexivity|].
  apply uint_chars_digits.
Qed.

Lemma formatNumber_groups_witness :
  formatNumber 123456789 = "123,456,789" /\ formatNumber (-1234) = "-1,234".
Proof.
  split.
  - rewrite (formatNumber_groups 123456789); [reflexivity | discriminate |].
    vm_compute. discriminate.
  - rewrite (formatNumber_groups (-1234)); [reflexivity | discriminate |].
    vm_compute. discriminate.
Defined.

(** Beyond 2^53 the digits are those of the double: the shortest that
    read back as it, followed by zeros. *)
Example formatNumber_large :
  formatNumber (2 ^ 60) = "1,152,921,504,606,847,000" /\
  formatNumber (2 ^ 53 + 1) = "9,007,199,254,740,992" /\
  formatNumber (10 ^ 21) = "1e+21".
Proof. vm_compute. repeat split. Qed.

Lemma insert_commas_only_commas (l : list ascii) :
  forall prev,
    filter (fun c => negb (Ascii.eqb c ",")) (insert_commas prev l)
    = filter (fun c => negb (Ascii.eqb c ",")) l.
Proof.
  induction l as [|c rest IH]; intros prev; [reflexivity|].
  cbn [insert_commas]. rewrite filter_app.
  replace (filter (fun c0 => negb (Ascii.eqb c0 ","))
             (if not_word_boundary prev (Some c) && groups_of_three_ahead (c :: rest)
              then [","%char] else []))
    with (@nil ascii) by (destruct (_ && _); reflexivity).
  cbn [app filter]. rewrite IH. reflexivity.
Qed.

Lemma no_comma_app (a b : list ascii) : no_comma a -> no_comma b -> no_comma (a ++ b).
Proof. unfold no_comma. intros Ha Hb. now rewrite forallb_app, Ha, Hb. Qed.

Lemma no_comma_digits (l : list ascii) : forallb is_digit l = true -> no_comma l.
Proof.
  unfold no_comma. induction l as [|c l IH]; simpl; [reflexivity|].
  intros H. apply andb_true_iff in H as [Hc Hl].
  now rewrite (is_digit_not_comma c Hc), IH.
Qed.

Lemma no_comma_firstn (n : nat) (l : list ascii) : no_comma l -> no_comma (firstn n l).
Proof.
  unfold no_comma. revert n. induction l as [|c l IH]; intros [|n] H; simpl in *;
    try reflexivity.
  apply andb_true_iff in H as [Hc Hl]. now rewrite Hc, IH.
Qed.

Lemma no_comma_skipn (n : nat) (l : list ascii) : no_comma l -> no_comma (skipn n l).
Proof.
  unfold no_comma. revert n. induction l as [|c l IH]; intros [|n] H; simpl in *;
    try reflexivity; try assumption.
  apply andb_true_iff in H as [Hc Hl]. now apply IH.
Qed.

Lemma no_comma_dec_chars (z : Z) : no_comma (dec_chars z).
Proof. apply no_comma_digits, uint_chars_digits. Qed.

Lemma no_comma_zeros (n : nat) : no_comma (repeat "0"%char n).
Proof. apply no_comma_digits, repeat_zero_digits. Qed.

Lemma positive_text_no_comma (x : Q) : no_comma (positive_text x).
Proof.
  unfold positive_text. destruct (shortest_digits x) as [[s n] k].
  pose proof (no_comma_dec_chars s) as Hs.
  repeat match goal with
         | |- context [if ?c then _ else _] => destruct c
         end.
  - apply no_comma_app; [exact Hs | apply no_comma_zeros].
  - apply no_comma_app; [apply no_comma_firstn; exact Hs|].
    change (no_comma (["."%char] ++ skipn (Z.to_nat n) (dec_chars s))).
    apply no_comma_app; [reflexivity | apply no_comma_skipn; exact Hs].
  - change (no_comma (["0"%char; "."%char]
                        ++ repeat "0"%char (Z.to_nat (- n)) ++ dec_chars s)).
    repeat apply no_comma_app; try reflexivity; [apply no_comma_zeros | exact Hs].
  - destruct (dec_chars s) as [|d rest]; [reflexivity|].
    change (no_comma ([d] ++ match rest with [] => [] | _ => "."%char :: rest end
                          ++ ["e"%char; "-"%char] ++ dec_chars (Z.abs (n - 1)))).
    unfold no_comma in Hs. cbn [forallb] in Hs. apply andb_true_iff in Hs as [Hd Hr].
    repeat apply no_comma_app; try reflexivity; try apply no_comma_dec_chars.
    + unfold no_comma. cbn [forallb]. now rewrite Hd.
    + destruct rest; [reflexivity|].
      change (no_comma (["."%char] ++ a :: rest)). apply no_comma_app; [reflexivity|exact Hr].
  - destruct (dec_chars s) as [|d rest]; [reflexivity|].
    change (no_comma ([d] ++ match rest with [] => [] | _ => "."%char :: rest end
                          ++ ["e"%char; "+"%char] ++ dec_chars (Z.abs (n - 1)))).
    unfold no_comma in Hs. cbn [forallb] in Hs. apply andb_true_iff in Hs as [Hd Hr].
    repeat apply no_comma_app; try reflexivity; try apply no_comma_dec_chars.
    + unfold no_comma. cbn [forallb]. now rewrite Hd.
    + destruct rest; [reflexivity|].
      change (no_comma (["."%char] ++ a :: rest)). apply no_comma_app; [reflexivity|exact Hr].
Qed.

Lemma number_text_no_comma (x : number) : no_comma (number_text x).
Proof.
  unfold number_text. destruct x as [| | |q]; try reflexivity.
  destruct (is_safe_integer q).
  - apply no_comma_app; [destruct (_ <? _)%Z; reflexivity | apply no_comma_dec_chars].
  - destruct (double q) as [| | |y]; try reflexivity.
    destruct (Qeq_bool y 0); [reflexivity|].
    apply no_comma_app; [destruct (Qle_bool 0 y); reflexivity|].
    apply positive_text_no_comma.
Qed.

Lemma filter_no_comma (l : list ascii) :
  no_comma l -> filter (fun c => negb (Ascii.eqb c ",")) l = l.
Proof.
  unfold no_comma. induction l as [|c l IH]; simpl; [reflexivity|].
  intros H. apply andb_true_iff in H as [Hc Hl]. now rewrite Hc, IH.
Qed.

(** X23: [formatNumber] only adds commas: taking them out of the result
    gives back the text of the number. *)
Theorem formatNumber_without_commas (num : Z) :
  (Z.abs num < 10 ^ 21)%Z ->
  without_commas (formatNumber num) = integer_text num.
Proof.
  intros _. unfold without_commas, formatNumber.
  destruct (num =? 0)%Z eqn:E.
  - apply Z.eqb_eq in E. subst. reflexivity.
  - rewrite list_ascii_of_string_of_list_ascii, insert_commas_only_commas.
    apply filter_no_comma, number_text_no_comma.
Qed.

Lemma formatNumber_without_commas_witness :
  without_commas (formatNumber 123456789) = integer_text 123456789.
Proof.
  apply (formatNumber_without_commas 123456789). reflexivity.
Defined.

(** The counts of the fallback statistics, as the page shows them. *)
Example formatNumber_counts :
  formatNumber 234567 = "234,567" /\ formatNumber 3251 = "3,251" /\
  formatNumber 999 = "999" /\ formatNumber 0 = "0".
Proof. repeat split. Qed.

(** * The dashboard as a composition *)

(** X24: for every behaviour of the upstream services the four sections
    of [GET /api/dashboard] are, in this order, what [getFishSpecies] (with
    a limit of 5), [getBiodiversityObservations] (with a limit of 5),
    [getOceanDataMultipleLocations] and [getSpeciesStats] return; a failing
    source only changes its own section. *)
Theorem dashboard_sections (net : network) (now : string) :
  exists fishSpecies biodiversity oceanWeather stats,
    getFishSpecies net (VNum (num 5)) = Ret fishSpecies /\
    getBiodiversityObservations net (VObj [("limit", VNum (num 5))])
    = Ret biodiversity /\
    getOceanDataMultipleLocations net = Ret oceanWeather /\
    getSpeciesStats net = Ret stats /\
    dashboard net now
    = mkResponse 200
        (VObj [("success", VBool true);
               ("data", VObj [("fishSpecies", fishSpecies);
                              ("biodiversity", biodiversity);
                              ("oceanWeather", oceanWeather);
                              ("stats", stats)]);
               ("sources", VArr [VStr "FishBase API"; VStr "OBIS API";
                                 VStr "Open-Meteo Marine API"]);
               ("timestamp", VStr now)]).
Proof.
  destruct (returns_inv _ _ (getFishSpecies_shape net (VNum (num 5))))
    as [v1 [E1 _]].
  destruct (returns_inv _ _ (getBiodiversityObservations_shape net
                               (VObj [("limit", VNum (num 5))])))
    as [v2 [E2 _]].
  destruct (returns_inv _ _ (getOceanDataMultipleLocations_shape net))
    as [v3 [E3 _]].
  destruct (returns_inv _ _ (getSpeciesStats_shape net)) as [v4 [E4 _]].
  exists v1, v2, v3, v4. repeat split; try assumption.
  unfold dashboard. rewrite E1, E2, E3, E4. reflexivity.
Qed.

